(** * EPISCAN outbreak detection engine: model and verified properties

    Shallow embedding of [detect_outbreaks] and the HTTP handlers from
    [backend/main.py], and of the generator [backend/generate_demo_data.py].

    Conventions of the embedding.
    - Python [int] is [Z].  The scoring is embedded twice.  In the main
      development a Python [float] is a real number [R] and every arithmetic
      expression denotes its exact value; the binary64 rounding of the
      individual operations is not modelled there.  Module [Binary64] embeds
      the same scoring code in IEEE 754 binary64 arithmetic, as CPython 3.11
      computes it; the statement about the rounding of the risk score is made
      on that embedding.
    - A [datetime] is the number of microseconds since the epoch, in UTC;
      [timedelta(days=n)] is [n * 86_400_000_000].  The first ten characters
      of an ISO-8601 text ([created_at[:10]]) are its calendar date, modelled
      by the day number [created_at / 86_400_000_000].
    - A Python [dict] keeps its keys in insertion order; it is an association
      list in which an update keeps the position of an existing key and a new
      key goes to the end.
    - Exceptions are values of the error monad [result]. *)

From Stdlib Require Import QArith SpecFloat.
From Stdlib Require Import ZArith List String Bool Lia.
From Stdlib Require Import Reals Lra.
From Stdlib Require Import Permutation Sorted.
Import ListNotations.

Local Open Scope Z_scope.

(* ====================================================================== *)
(** * Exceptions *)

Inductive exn : Type :=
| StatisticsError
| ZeroDivisionError
| OverflowError
| TypeError.

Inductive result (A : Type) : Type :=
| Ok (a : A)
| Raise (e : exn).

Arguments Ok {A} a.
Arguments Raise {A} e.

Definition bind {A B : Type} (m : result A) (k : A -> result B) : result B :=
  match m with
  | Ok a => k a
  | Raise e => Raise e
  end.

Notation "x <- m ;; k" := (bind m (fun x => k))
  (at level 61, m at next level, right associativity).

(* ====================================================================== *)
(** * Insertion-ordered dictionaries *)

Module Dict.
Section Dict.
Context {K V : Type}.
Variable eqb : K -> K -> bool.

Definition t := list (K * V).

Definition empty : t := [].

(** [d.get(k)] *)
Fixpoint get (k : K) (d : t) : option V :=
  match d with
  | [] => None
  | (k', v) :: d' => if eqb k k' then Some v else get k d'
  end.

(** [d.get(k, default)] *)
Definition get_default (k : K) (default : V) (d : t) : V :=
  match get k d with
  | Some v => v
  | None => default
  end.

(** [k in d] *)
Definition mem (k : K) (d : t) : bool :=
  match get k d with
  | Some _ => true
  | None => false
  end.

(** [d[k] = v] *)
Fixpoint set (k : K) (v : V) (d : t) : t :=
  match d with
  | [] => [(k, v)]
  | (k', v') :: d' =>
      if eqb k k' then (k', v) :: d' else (k', v') :: set k v d'
  end.

Definition keys (d : t) : list K := map fst d.
Definition values (d : t) : list V := map snd d.
Definition items (d : t) : list (K * V) := d.
End Dict.
Arguments t : clear implicits.
Arguments empty {K V}.
End Dict.

(* ====================================================================== *)
(** * Data model *)

Module Report.
(** One row of the [health_reports] table.  [symptoms = None] is a row
    without a ["symptoms"] key ([report.get("symptoms", [])]).  A row whose
    ["symptoms"] value is null is not a [Report.t]: see [TableRow.t] and
    [detect_outbreaks_rows] for the engine on such rows. *)
Record t : Type := mk {
  location : string;
  created_at : Z;
  symptoms : option (list string);
  user_id : string
}.
End Report.

Module TableRow.
(** What a read finds under ["symptoms"]: no such key, null, or a list. *)
Inductive symptoms_value : Type :=
| Missing
| Null
| Items (l : list string).

(** One row of the [health_reports] table as a read returns it. *)
Record t : Type := mk {
  location : string;
  created_at : Z;
  symptoms : symptoms_value;
  user_id : string
}.
End TableRow.

Module Current.
(** The value stored per location in [current_by_location]. *)
Record t : Type := mk {
  count : Z;
  symptoms : list string;
  user_ids : list string
}.
End Current.

Inductive severity_t : Type := Low | Medium | High.

Record debug_info : Type := mk_debug {
  baseline_mean : R;
  baseline_std_dev : R;
  current_count : Z;
  z_score : R
}.

Record alert : Type := mk_alert {
  location : string;
  affected_students : nat;
  risk_score : R;
  severity : severity_t;
  common_symptoms : list string;
  detection_time : Z;
  _debug : debug_info
}.

(* ====================================================================== *)
(** * Time and the report store *)

Definition usec_per_day : Z := 86400000000.

(** [timedelta(days=n)] *)
Definition timedelta_days (n : Z) : Z := n * usec_per_day.

(** [created_at[:10]] *)
Definition date_of (created_at : Z) : Z := created_at / usec_per_day.

(** The two filters of the query builder on the [created_at] column. *)
Definition gte_created_at (v : Z) (rows : list Report.t) : list Report.t :=
  filter (fun r => v <=? Report.created_at r) rows.

Definition lt_created_at (v : Z) (rows : list Report.t) : list Report.t :=
  filter (fun r => Report.created_at r <? v) rows.

(** Step 2 of [detect_outbreaks]: the baseline read. *)
Definition fetch_baseline_reports (now : Z) (table : list Report.t)
  : list Report.t :=
  let baseline_start := now - timedelta_days 14 in
  let baseline_end := now - timedelta_days 7 in
  lt_created_at baseline_end (gte_created_at baseline_start table).

(** Step 3 of [detect_outbreaks]: the current read. *)
Definition fetch_current_reports (now : Z) (table : list Report.t)
  : list Report.t :=
  let current_window_start := now - timedelta_days 1 in
  gte_created_at current_window_start table.

(* ====================================================================== *)
(** * Step 4: grouping by location *)

Definition baseline_step
  (baseline_by_location : Dict.t string (Dict.t Z Z))
  (report : Report.t) : Dict.t string (Dict.t Z Z) :=
  let location := Report.location report in
  let report_date := date_of (Report.created_at report) in
  let by_location :=
    if Dict.mem String.eqb location baseline_by_location
    then baseline_by_location
    else Dict.set String.eqb location Dict.empty baseline_by_location in
  let days := Dict.get_default String.eqb location Dict.empty by_location in
  let days :=
    if Dict.mem Z.eqb report_date days then days
    else Dict.set Z.eqb report_date 0 days in
  let days :=
    Dict.set Z.eqb report_date
      (Dict.get_default Z.eqb report_date 0 days + 1) days in
  Dict.set String.eqb location days by_location.

Definition group_baseline (baseline_reports : list Report.t)
  : Dict.t string (Dict.t Z Z) :=
  fold_left baseline_step baseline_reports Dict.empty.

(** [report.get("symptoms", [])] on a report: its list, or [[]] when the key
    is missing.  [row_get_symptoms] is the same access on a row whose value
    may be null. *)
Definition report_symptoms (report : Report.t) : list string :=
  match Report.symptoms report with
  | Some l => l
  | None => []
  end.

Definition current_step
  (current_by_location : Dict.t string Current.t)
  (report : Report.t) : Dict.t string Current.t :=
  let location := Report.location report in
  let by_location :=
    if Dict.mem String.eqb location current_by_location
    then current_by_location
    else Dict.set String.eqb location (Current.mk 0 [] []) current_by_location in
  let data :=
    Dict.get_default String.eqb location (Current.mk 0 [] []) by_location in
  let data :=
    Current.mk (Current.count data + 1)
               (Current.symptoms data ++ report_symptoms report)
               (Current.user_ids data ++ [Report.user_id report]) in
  Dict.set String.eqb location data by_location.

Definition group_current (current_reports : list Report.t)
  : Dict.t string Current.t :=
  fold_left current_step current_reports Dict.empty.

(* ====================================================================== *)
(** * The [statistics] module and the numeric built-ins *)

Definition sum_Z (data : list Z) : Z := fold_right Z.add 0 data.

Local Open Scope R_scope.

Module statistics.
(** [statistics.mean]: the arithmetic mean; raises on an empty sequence. *)
Definition mean (data : list Z) : result R :=
  match data with
  | [] => Raise StatisticsError
  | _ :: _ => Ok (IZR (sum_Z data) / INR (List.length data))
  end.

(** Sum of the squared deviations from [c]. *)
Definition ss (c : R) (data : list Z) : R :=
  fold_right (fun x acc => (IZR x - c) * (IZR x - c) + acc) 0 data.

(** [statistics.stdev]: the sample standard deviation (divisor [n - 1]);
    raises when there are fewer than two data points. *)
Definition stdev (data : list Z) : result R :=
  if (List.length data <? 2)%nat then Raise StatisticsError
  else
    let xbar := IZR (sum_Z data) / INR (List.length data) in
    Ok (sqrt (ss xbar data / (INR (List.length data) - 1))).
End statistics.

(** [x / y] on numbers. *)
Definition py_truediv (x y : R) : result R :=
  if Req_dec_T y 0 then Raise ZeroDivisionError else Ok (x / y).

(** [min(a, b)]: the first argument unless the second is smaller. *)
Definition py_min (a b : R) : R :=
  if Rlt_dec b a then b else a.

(** Nearest integer, ties to the even one. *)
Definition round_half_even (x : R) : Z :=
  let n := Int_part x in
  let f := frac_part x in
  if Rlt_dec f (1 / 2) then n
  else if Rlt_dec (1 / 2) f then (n + 1)%Z
  else if Z.even n then n else (n + 1)%Z.

(** [round(x, ndigits)] on exact values; [Binary64.py_round] is the
    rounding of a float. *)
Definition py_round (x : R) (ndigits : nat) : R :=
  IZR (round_half_even (x * 10 ^ ndigits)) / 10 ^ ndigits.

(** [sorted(l, key=key, reverse=True)]: a stable sort into descending key
    order; elements with equal keys keep their relative order. *)
Section Sorted.
Context {A : Type}.
Variable key : A -> Z.

Fixpoint insert_desc (x : A) (l : list A) : list A :=
  match l with
  | [] => [x]
  | y :: l' =>
      if (key x <? key y)%Z then y :: insert_desc x l' else x :: y :: l'
  end.

Definition sorted_reverse (l : list A) : list A :=
  fold_right insert_desc [] l.
End Sorted.

(** [len(set(l))] *)
Definition len_set (l : list string) : nat :=
  List.length (nodup string_dec l).

(* ====================================================================== *)
(** * Step 5: scoring one location *)

Definition OUTBREAK_THRESHOLD : R := 2.

(** The baseline daily counts recorded for [location], or seven zeros when
    the location has no baseline history. *)
Definition baseline_daily_counts
  (baseline_by_location : Dict.t string (Dict.t Z Z)) (location : string)
  : list Z :=
  match Dict.get String.eqb location baseline_by_location with
  | Some days => Dict.values days
  | None => [0; 0; 0; 0; 0; 0; 0]%Z
  end.

(** The daily counts the statistics are computed on: at least two points. *)
Definition daily_counts_of
  (baseline_by_location : Dict.t string (Dict.t Z Z)) (location : string)
  : list Z :=
  let daily_counts := baseline_daily_counts baseline_by_location location in
  if (List.length daily_counts <? 2)%nat then [0; 0]%Z else daily_counts.

(** [if std_dev == 0: std_dev = 1.0] *)
Definition clamp_std_dev (std_dev : R) : R :=
  if Req_dec_T std_dev 0 then 1 else std_dev.

Record score : Type := mk_score {
  score_mean : R;
  score_std_dev : R;
  score_z : R
}.

(** Mean, clamped standard deviation and z-score of a location. *)
Definition compute_score (daily_counts : list Z) (current_count : Z)
  : result score :=
  mean <- statistics.mean daily_counts ;;
  std_dev <- statistics.stdev daily_counts ;;
  let std_dev := clamp_std_dev std_dev in
  z_score <- py_truediv (IZR current_count - mean) std_dev ;;
  Ok (mk_score mean std_dev z_score).

Definition risk_percentage_of (z_score : R) : R := py_min (z_score * 20) 100.

Definition severity_of (z_score : R) : severity_t :=
  if Rlt_dec 3.5 z_score then High
  else if Rlt_dec 2.5 z_score then Medium
  else Low.

(** [symptom_counts]: frequency of every symptom, keyed in first-seen order. *)
Definition count_symptoms (symptoms : list string) : Dict.t string Z :=
  fold_left
    (fun symptom_counts symptom =>
       Dict.set String.eqb symptom
         (Dict.get_default String.eqb symptom 0%Z symptom_counts + 1)%Z
         symptom_counts)
    symptoms Dict.empty.

Definition top_symptoms_of (symptoms : list string) : list string :=
  let symptom_counts := count_symptoms symptoms in
  let common_symptoms := sorted_reverse snd (Dict.items symptom_counts) in
  map fst (firstn 3 common_symptoms).

(** The alert appended for a location whose z-score clears the threshold. *)
Definition make_alert (now : Z) (location : string) (current_data : Current.t)
  (s : score) : alert :=
  let current_count := Current.count current_data in
  let z_score := score_z s in
  let risk_percentage := risk_percentage_of z_score in
  let severity := severity_of z_score in
  let top_symptoms := top_symptoms_of (Current.symptoms current_data) in
  let unique_students := len_set (Current.user_ids current_data) in
  mk_alert location unique_students (py_round risk_percentage 1)
           severity top_symptoms now
           (mk_debug (py_round (score_mean s) 2)
                     (py_round (score_std_dev s) 2)
                     current_count
                     (py_round z_score 2)).

(** The body of the loop over [current_by_location.items()]: the alert for
    one location, if its z-score clears the threshold. *)
Definition score_location (now : Z)
  (baseline_by_location : Dict.t string (Dict.t Z Z))
  (location : string) (current_data : Current.t) : result (option alert) :=
  let current_count := Current.count current_data in
  let daily_counts := daily_counts_of baseline_by_location location in
  s <- compute_score daily_counts current_count ;;
  if Rlt_dec OUTBREAK_THRESHOLD (score_z s)
  then Ok (Some (make_alert now location current_data s))
  else Ok None.

(** The loop over [current_by_location.items()], appending to [alerts]. *)
Fixpoint score_all (now : Z)
  (baseline_by_location : Dict.t string (Dict.t Z Z))
  (items : list (string * Current.t)) (alerts : list alert)
  : result (list alert) :=
  match items with
  | [] => Ok alerts
  | (location, current_data) :: rest =>
      a <- score_location now baseline_by_location location current_data ;;
      score_all now baseline_by_location rest
        (match a with
         | Some al => alerts ++ [al]
         | None => alerts
         end)
  end.

(** Steps 4 and 5: the engine as a function of the two report sequences. *)
Definition detect (now : Z) (baseline_reports current_reports : list Report.t)
  : result (list alert) :=
  let baseline_by_location := group_baseline baseline_reports in
  let current_by_location := group_current current_reports in
  score_all now baseline_by_location (Dict.items current_by_location) [].

(** [detect_outbreaks], with the clock reading and the table as inputs. *)
Definition detect_outbreaks (now : Z) (table : list Report.t)
  : result (list alert) :=
  let baseline_reports := fetch_baseline_reports now table in
  let current_reports := fetch_current_reports now table in
  detect now baseline_reports current_reports.

(* ====================================================================== *)
(** * The scoring in binary64 arithmetic

    The same scoring code with Python's numbers as they are: an [int] is
    exact, a [float] is an IEEE 754 binary64 number, and every operation on
    floats rounds to nearest, ties to even ([SpecFloat] with precision 53 and
    maximal exponent 1024).  The mixed operations follow CPython 3.11: an
    [int] operand of a float operation is first converted, correctly rounded,
    and [OverflowError] is raised when it is too large; comparisons are on
    exact values; [statistics.mean] and [statistics.stdev] compute on exact
    fractions and round once at the end. *)

Module Binary64.

Local Open Scope Z_scope.

Definition prec : Z := 53.
Definition emax : Z := 1024.

Definition float : Type := spec_float.

(** A Python number: an [int] or a [float]. *)
Inductive number : Type :=
| PyInt (n : Z)
| PyFloat (x : float).

(** The exact value of a number. *)
Inductive ext : Type :=
| Nan
| MinusInf
| Rat (q : Q)
| PlusInf.

(** [(-1)^s * m * 2^e] *)
Definition F2Q (s : bool) (m : positive) (e : Z) : Q :=
  let sm := if s then Zneg m else Zpos m in
  match e with
  | Z0 => inject_Z sm
  | Zpos p => inject_Z (sm * 2 ^ Zpos p)
  | Zneg p => sm # (2 ^ p)
  end.

Definition exact_float (x : float) : ext :=
  match x with
  | S754_zero _ => Rat 0
  | S754_infinity s => if s then MinusInf else PlusInf
  | S754_nan => Nan
  | S754_finite s m e => Rat (F2Q s m e)
  end.

Definition exact (x : number) : ext :=
  match x with
  | PyInt n => Rat (inject_Z n)
  | PyFloat x => exact_float x
  end.

(** Comparison of exact values; a NaN compares with nothing. *)
Definition ext_compare (a b : ext) : option comparison :=
  match a, b with
  | Nan, _ | _, Nan => None
  | MinusInf, MinusInf => Some Eq
  | MinusInf, _ => Some Lt
  | _, MinusInf => Some Gt
  | PlusInf, PlusInf => Some Eq
  | PlusInf, _ => Some Gt
  | _, PlusInf => Some Lt
  | Rat p, Rat q => Some (p ?= q)%Q
  end.

(** [x < y] *)
Definition py_lt (x y : number) : bool :=
  match ext_compare (exact x) (exact y) with
  | Some Lt => true
  | _ => false
  end.

(** [x == y] *)
Definition py_eq (x y : number) : bool :=
  match ext_compare (exact x) (exact y) with
  | Some Eq => true
  | _ => false
  end.

(** [x <= y] *)
Definition py_le (x y : number) : bool :=
  match ext_compare (exact x) (exact y) with
  | Some (Lt | Eq) => true
  | _ => false
  end.

(** [float(n)] for an [int]: the nearest float, or [OverflowError]. *)
Definition float_of_int (n : Z) : result float :=
  match binary_normalize prec emax n 0 false with
  | S754_infinity _ => Raise OverflowError
  | x => Ok x
  end.

(** [a / b] on two [int]s: the float nearest to the exact quotient. *)
Definition int_truediv (a b : Z) : result float :=
  if b =? 0 then Raise ZeroDivisionError
  else
    let negate := xorb (a <? 0) (b <? 0) in
    match a with
    | Z0 => Ok (S754_zero negate)
    | _ =>
        match SFdiv prec emax
                (S754_finite (a <? 0) (Z.to_pos (Z.abs a)) 0)
                (S754_finite (b <? 0) (Z.to_pos (Z.abs b)) 0) with
        | S754_infinity _ => Raise OverflowError
        | x => Ok x
        end
    end.

(** The float operand of a mixed operation. *)
Definition to_float (x : number) : result float :=
  match x with
  | PyInt n => float_of_int n
  | PyFloat x => Ok x
  end.

Definition is_zero (x : float) : bool :=
  match x with
  | S754_zero _ => true
  | _ => false
  end.

(** A float that is neither negative nor a NaN. *)
Definition nonnegative (x : float) : Prop :=
  match x with
  | S754_zero false | S754_infinity false | S754_finite false _ _ => True
  | _ => False
  end.

(** [x - y] *)
Definition py_sub (x y : number) : result number :=
  match x, y with
  | PyInt a, PyInt b => Ok (PyInt (a - b))
  | _, _ =>
      a <- to_float x ;;
      b <- to_float y ;;
      Ok (PyFloat (SFsub prec emax a b))
  end.

(** [x * y] *)
Definition py_mul (x y : number) : result number :=
  match x, y with
  | PyInt a, PyInt b => Ok (PyInt (a * b))
  | _, _ =>
      a <- to_float x ;;
      b <- to_float y ;;
      Ok (PyFloat (SFmul prec emax a b))
  end.

(** [x / y] *)
Definition py_truediv (x y : number) : result number :=
  match x, y with
  | PyInt a, PyInt b => r <- int_truediv a b ;; Ok (PyFloat r)
  | _, _ =>
      a <- to_float x ;;
      b <- to_float y ;;
      if is_zero b then Raise ZeroDivisionError
      else Ok (PyFloat (SFdiv prec emax a b))
  end.

(** [min(a, b)]: the first argument unless the second is smaller. *)
Definition py_min (a b : number) : number :=
  if py_lt b a then b else a.

(** Nearest integer of a fraction, ties to the even one. *)
Definition round_half_even (q : Q) : Z :=
  let n := Qnum q in
  let d := Zpos (Qden q) in
  let fl := n / d in
  match 2 * (n mod d) ?= d with
  | Lt => fl
  | Gt => fl + 1
  | Eq => if Z.even fl then fl else fl + 1
  end.

(** [round(x, ndigits)] for [ndigits >= 0].  An [int] is returned as it is;
    a finite float is rounded, in its exact value, to [ndigits] decimals
    (ties to even), and the decimal is converted to the nearest float; an
    infinity or a NaN is returned as it is. *)
Definition py_round (x : number) (ndigits : Z) : result number :=
  match x with
  | PyInt n => Ok (PyInt n)
  | PyFloat (S754_finite s m e) =>
      let t := round_half_even (F2Q s m e * inject_Z (10 ^ ndigits)) in
      if t =? 0 then Ok (PyFloat (S754_zero s))
      else r <- int_truediv t (10 ^ ndigits) ;; Ok (PyFloat r)
  | PyFloat x => Ok (PyFloat x)
  end.

(** [x] is, as a number, the float nearest to the decimal
    [t / 10^ndigits]. *)
Definition is_decimal (x : number) (t ndigits : Z) : Prop :=
  exists f, int_truediv t (10 ^ ndigits) = Ok f /\ py_eq x (PyFloat f) = true.

Module statistics.

(** [int.bit_length] *)
Definition bit_length (n : Z) : Z :=
  if n =? 0 then 0 else Z.log2 (Z.abs n) + 1.

(** Square root of [n/m], rounded to the nearest integer using
    round-to-odd. *)
Definition _integer_sqrt_of_frac_rto (n m : Z) : Z :=
  let a := Z.sqrt (n / m) in
  Z.lor a (if a * a * m =? n then 0 else 1).

Definition _sqrt_bit_width : Z := 2 * prec + 3.

(** Square root of [n/m] as a float, correctly rounded. *)
Definition _float_sqrt_of_frac (n m : Z) : result float :=
  let q := (bit_length n - bit_length m - _sqrt_bit_width) / 2 in
  if 0 <=? q
  then int_truediv
         (Z.shiftl (_integer_sqrt_of_frac_rto n (Z.shiftl m (2 * q))) q) 1
  else int_truediv
         (_integer_sqrt_of_frac_rto (Z.shiftl n (- 2 * q)) m)
         (Z.shiftl 1 (- q)).

(** [_convert(value, int)]: an [int] when the fraction is one, otherwise the
    nearest float. *)
Definition _convert (value : Q) : result number :=
  let value := Qred value in
  if (Qden value =? 1)%positive then Ok (PyInt (Qnum value))
  else r <- int_truediv (Qnum value) (Zpos (Qden value)) ;; Ok (PyFloat r).

(** [statistics.mean] on a list of [int]s. *)
Definition mean (data : list Z) : result number :=
  match data with
  | [] => Raise StatisticsError
  | _ :: _ =>
      _convert (inject_Z (sum_Z data) / inject_Z (Z.of_nat (List.length data)))
  end.

(** [_ss]: the exact sum of the squared deviations from the mean. *)
Definition _ss (data : list Z) : Q :=
  match data with
  | [] => 0%Q
  | _ :: _ =>
      let count := inject_Z (Z.of_nat (List.length data)) in
      let sx := inject_Z (sum_Z data) in
      let sxx := inject_Z (sum_Z (map (fun x => x * x) data)) in
      ((count * sxx - sx * sx) / count)%Q
  end.

(** [statistics.stdev] on a list of [int]s. *)
Definition stdev (data : list Z) : result number :=
  let ss := _ss data in
  let n := Z.of_nat (List.length data) in
  if n <? 2 then Raise StatisticsError
  else
    let mss := Qred (ss / inject_Z (n - 1)) in
    r <- _float_sqrt_of_frac (Qnum mss) (Zpos (Qden mss)) ;; Ok (PyFloat r).

End statistics.

(** The float literals of the scoring code. *)
Definition float_1_0 : float :=
  Eval vm_compute in binary_normalize prec emax 1 0 false.
Definition float_2_0 : float :=
  Eval vm_compute in binary_normalize prec emax 2 0 false.
Definition float_2_5 : float :=
  Eval vm_compute in binary_normalize prec emax 5 (-1) false.
Definition float_3_5 : float :=
  Eval vm_compute in binary_normalize prec emax 7 (-1) false.

Definition OUTBREAK_THRESHOLD : number := PyFloat float_2_0.

Record debug_info : Type := mk_debug {
  baseline_mean : number;
  baseline_std_dev : number;
  current_count : Z;
  z_score : number
}.

Record alert : Type := mk_alert {
  location : string;
  affected_students : nat;
  risk_score : number;
  severity : severity_t;
  common_symptoms : list string;
  detection_time : Z;
  _debug : debug_info
}.

(** [if std_dev == 0: std_dev = 1.0] *)
Definition clamp_std_dev (std_dev : number) : number :=
  if py_eq std_dev (PyInt 0) then PyFloat float_1_0 else std_dev.

Record score : Type := mk_score {
  score_mean : number;
  score_std_dev : number;
  score_z : number
}.

(** Mean, clamped standard deviation and z-score of a location. *)
Definition compute_score (daily_counts : list Z) (current_count : Z)
  : result score :=
  mean <- statistics.mean daily_counts ;;
  std_dev <- statistics.stdev daily_counts ;;
  let std_dev := clamp_std_dev std_dev in
  difference <- py_sub (PyInt current_count) mean ;;
  z_score <- py_truediv difference std_dev ;;
  Ok (mk_score mean std_dev z_score).

(** [min(z_score * 20, 100)] *)
Definition risk_percentage_of (z_score : number) : result number :=
  product <- py_mul z_score (PyInt 20) ;;
  Ok (py_min product (PyInt 100)).

Definition severity_of (z_score : number) : severity_t :=
  if py_lt (PyFloat float_3_5) z_score then High
  else if py_lt (PyFloat float_2_5) z_score then Medium
  else Low.

(** The alert appended for a location whose z-score clears the threshold. *)
Definition make_alert (now : Z) (location : string) (current_data : Current.t)
  (s : score) : result alert :=
  let current_count := Current.count current_data in
  let z_score := score_z s in
  risk_percentage <- risk_percentage_of z_score ;;
  let severity := severity_of z_score in
  let top_symptoms := top_symptoms_of (Current.symptoms current_data) in
  let unique_students := len_set (Current.user_ids current_data) in
  risk_score <- py_round risk_percentage 1 ;;
  baseline_mean <- py_round (score_mean s) 2 ;;
  baseline_std_dev <- py_round (score_std_dev s) 2 ;;
  z_score_2 <- py_round z_score 2 ;;
  Ok (mk_alert location unique_students risk_score severity top_symptoms now
               (mk_debug baseline_mean baseline_std_dev current_count
                         z_score_2)).

(** The body of the loop over [current_by_location.items()]. *)
Definition score_location (now : Z)
  (baseline_by_location : Dict.t string (Dict.t Z Z))
  (location : string) (current_data : Current.t) : result (option alert) :=
  let current_count := Current.count current_data in
  let daily_counts := daily_counts_of baseline_by_location location in
  s <- compute_score daily_counts current_count ;;
  if py_lt OUTBREAK_THRESHOLD (score_z s)
  then a <- make_alert now location current_data s ;; Ok (Some a)
  else Ok None.

(** The loop over [current_by_location.items()], appending to [alerts]. *)
Fixpoint score_all (now : Z)
  (baseline_by_location : Dict.t string (Dict.t Z Z))
  (items : list (string * Current.t)) (alerts : list alert)
  : result (list alert) :=
  match items with
  | [] => Ok alerts
  | (location, current_data) :: rest =>
      a <- score_location now baseline_by_location location current_data ;;
      score_all now baseline_by_location rest
        (match a with
         | Some al => alerts ++ [al]
         | None => alerts
         end)
  end.

(** Steps 4 and 5 on the two report sequences. *)
Definition detect (now : Z) (baseline_reports current_reports : list Report.t)
  : result (list alert) :=
  let baseline_by_location := group_baseline baseline_reports in
  let current_by_location := group_current current_reports in
  score_all now baseline_by_location (Dict.items current_by_location) [].

(** [detect_outbreaks], with the clock reading and the table as inputs. *)
Definition detect_outbreaks (now : Z) (table : list Report.t)
  : result (list alert) :=
  let baseline_reports := fetch_baseline_reports now table in
  let current_reports := fetch_current_reports now table in
  detect now baseline_reports current_reports.

End Binary64.

Local Open Scope R_scope.

(* ====================================================================== *)
(** * Notions used in the statements

    What the loops compute, written without the loops: the statements below
    relate the engine to these. *)

Local Open Scope R_scope.

(** The reports of a sequence that carry a given location. *)
Definition reports_at (location : string) (reports : list Report.t)
  : list Report.t :=
  filter (fun r => String.eqb (Report.location r) location) reports.

(** Count, symptoms and subject ids of a sequence of reports. *)
Definition aggregate_of (reports : list Report.t) : Current.t :=
  Current.mk (Z.of_nat (List.length reports))
             (flat_map report_symptoms reports)
             (map Report.user_id reports).

(** Position of the first occurrence of [x] in [l] ([length l] if none). *)
Fixpoint first_index (x : string) (l : list string) : nat :=
  match l with
  | [] => O
  | y :: l' => if String.eqb x y then O else S (first_index x l')
  end.

(** The distinct elements of [l], each at the place of its first occurrence. *)
Definition first_seen (l : list string) : list string :=
  fold_left
    (fun seen x => if existsb (String.eqb x) seen then seen else seen ++ [x])
    l [].

(** The values [statistics.mean] and [statistics.stdev] return when they
    return. *)
Definition mean_of (data : list Z) : R :=
  IZR (sum_Z data) / INR (List.length data).

(** See [mean_of]. *)
Definition stdev_of (data : list Z) : R :=
  sqrt (statistics.ss (mean_of data) data / (INR (List.length data) - 1)).

(** The z-score of a current count against the daily counts [data]. *)
Definition z_score_of (data : list Z) (current_count : Z) : R :=
  (IZR current_count - mean_of data) / clamp_std_dev (stdev_of data).

(** The score [compute_score] returns when it returns. *)
Definition score_of (data : list Z) (current_count : Z) : score :=
  mk_score (mean_of data) (clamp_std_dev (stdev_of data))
           (z_score_of data current_count).

(** What the loop body appends for one location: [score_location] without
    the error monad. *)
Definition alert_of (now : Z)
  (baseline_by_location : Dict.t string (Dict.t Z Z))
  (location : string) (current_data : Current.t) : option alert :=
  let s := score_of (daily_counts_of baseline_by_location location)
                    (Current.count current_data) in
  if Rlt_dec OUTBREAK_THRESHOLD (score_z s)
  then Some (make_alert now location current_data s)
  else None.

(** An optional value as a list of at most one element. *)
Definition option_list {A : Type} (o : option A) : list A :=
  match o with
  | Some a => [a]
  | None => []
  end.

(** What the loop over the items appends, in order. *)
Definition alerts_of (now : Z)
  (baseline_by_location : Dict.t string (Dict.t Z Z))
  (items : list (string * Current.t)) : list alert :=
  flat_map (fun item => option_list
              (alert_of now baseline_by_location (fst item) (snd item)))
           items.

(** Severity tiers, ordered [Low < Medium < High]. *)
Definition severity_rank (s : severity_t) : nat :=
  match s with
  | Low => 0
  | Medium => 1
  | High => 2
  end.

(** Whether the loop body appends an alert for a location. *)
Definition alerting (B : Dict.t string (Dict.t Z Z)) (loc : string)
  (data : Current.t) : bool :=
  if Rlt_dec OUTBREAK_THRESHOLD
       (score_z (score_of (daily_counts_of B loc) (Current.count data)))
  then true else false.

(** Larger key first; on equal keys, the element that stands earlier in the
    sequence being sorted first. *)
Definition ranks_before {A : Type} (key : A -> Z)
  (earlier : A -> A -> Prop) (a b : A) : Prop :=
  (key b < key a)%Z \/ (key a = key b /\ earlier a b).

(** Number of occurrences of a symptom, as [symptom_counts] stores it. *)
Definition frequency (symptoms : list string) (s : string) : Z :=
  Z.of_nat (count_occ string_dec symptoms s).

(** [s] is listed before [s']: more frequent, or equally frequent and first
    seen earlier in the symptom sequence. *)
Definition symptom_ranks_before (symptoms : list string) (s s' : string)
  : Prop :=
  (frequency symptoms s' < frequency symptoms s)%Z \/
  (frequency symptoms s = frequency symptoms s' /\
   (first_index s symptoms < first_index s' symptoms)%nat).

(** The ranking of which [top_symptoms] is the first three entries. *)
Definition ranked_symptoms (symptoms : list string) : list string :=
  map fst (sorted_reverse snd (Dict.items (count_symptoms symptoms))).

Local Open Scope Z_scope.

(* ====================================================================== *)
(** * A sample table *)

(** 2026-02-01T12:00:00Z *)
Definition sample_now : Z := 1769947200000000.

Definition hours (n : Z) : Z := n * 3600000000.

(** Two reports at Hostel A, one and two hours after the instant [d] days
    before [sample_now]. *)
Definition sample_baseline_day (d : Z) : list Report.t :=
  [ Report.mk "Hostel A"%string (sample_now - timedelta_days d + hours 1)
              (Some ["fatigue"%string]) "u1"%string;
    Report.mk "Hostel A"%string (sample_now - timedelta_days d + hours 2)
              (Some []) "u2"%string ].

Definition sample_current_report (loc user : string) (hours_ago : Z)
  (symptoms : list string) : Report.t :=
  Report.mk loc (sample_now - hours hours_ago) (Some symptoms) user.

Definition sample_table : list Report.t :=
  flat_map sample_baseline_day [14; 13; 12; 11; 10; 9; 8]
  ++ [ Report.mk "Hostel C"%string (sample_now - timedelta_days 3) None "u9"%string ]
  ++ [ sample_current_report "Hostel B"%string "u5"%string 23 ["cough"%string];
       sample_current_report "Hostel A"%string "u1"%string 22 ["fever"; "cough"]%string;
       sample_current_report "Hostel A"%string "u2"%string 20 ["headache"; "fever"]%string;
       sample_current_report "Hostel A"%string "u1"%string 18 ["cough"; "fever"]%string;
       sample_current_report "Hostel C"%string "u9"%string 17 [];
       sample_current_report "Hostel A"%string "u3"%string 15 ["fatigue"%string];
       sample_current_report "Hostel B"%string "u6"%string 14 ["cough"; "fever"]%string;
       sample_current_report "Hostel A"%string "u4"%string 12 ["fever"%string];
       sample_current_report "Hostel A"%string "u2"%string 10 ["headache"%string];
       sample_current_report "Hostel A"%string "u5"%string 8 ["body ache"; "fever"]%string;
       sample_current_report "Hostel A"%string "u6"%string 6 ["cough"%string];
       sample_current_report "Hostel B"%string "u5"%string 5 ["fever"%string];
       sample_current_report "Hostel A"%string "u7"%string 3 ["fever"; "fatigue"]%string;
       sample_current_report "Hostel A"%string "u8"%string 1 ["headache"%string] ].

(* ====================================================================== *)
(** * Counting by key

    The counting idiom [d[k] = d.get(k, 0) + 1], used for [symptom_counts]
    and the per-day counters of the engine and for [location_counts] of the
    demo script, with the notions its result is compared to. *)

Section Tally.
Context {K : Type}.
Variable eqb : K -> K -> bool.

(** One pass of [counts[x] = counts.get(x, 0) + 1]. *)
Definition tally_step (counts : Dict.t K Z) (x : K) : Dict.t K Z :=
  Dict.set eqb x (Dict.get_default eqb x 0 counts + 1) counts.

(** The loop [for x in l: counts[x] = counts.get(x, 0) + 1]. *)
Definition tally (l : list K) : Dict.t K Z :=
  fold_left tally_step l Dict.empty.

(** The distinct elements of [l], each at the place of its first occurrence. *)
Definition distinct (l : list K) : list K :=
  fold_left
    (fun seen x => if existsb (eqb x) seen then seen else seen ++ [x])
    l [].

(** Number of occurrences of [x] in [l]. *)
Definition occurrences (l : list K) (x : K) : Z :=
  Z.of_nat (List.length (filter (eqb x) l)).
End Tally.

(** Total weight of the values of a dictionary. *)
Definition total_weight {K V : Type} (weight : V -> Z) (d : Dict.t K V) : Z :=
  sum_Z (map weight (Dict.values d)).

(** Sum of the squares of the data. *)
Definition sum_squares (l : list Z) : R :=
  fold_right (fun x acc => (IZR x * IZR x + acc)%R) 0%R l.

(** The calendar day of a report. *)
Definition report_date (report : Report.t) : Z :=
  date_of (Report.created_at report).

(** [location_counts] of [verify_data]. *)
Definition location_counts (rows : list Report.t) : Dict.t string Z :=
  fold_left
    (fun location_counts report =>
       let loc := Report.location report in
       Dict.set String.eqb loc
         (Dict.get_default String.eqb loc 0 location_counts + 1)
         location_counts)
    rows Dict.empty.

(* ====================================================================== *)
(** * The HTTP handlers of [main.py]

    The store client is a collaborator: what an insert answers is a
    parameter of [submit_health_report], and a read either yields the table
    or raises.  [str] is Python's [str(e)] on the caught exception.  The
    rows a read yields are [TableRow.t]: their ["symptoms"] value may be null. *)

(** The row as a [Report.t], for the code that does not read ["symptoms"]
    or finds a list there; a null is read as a missing key. *)
Definition report_of_row (row : TableRow.t) : Report.t :=
  Report.mk (TableRow.location row) (TableRow.created_at row)
            (match TableRow.symptoms row with
             | TableRow.Items l => Some l
             | TableRow.Missing | TableRow.Null => None
             end)
            (TableRow.user_id row).

(** [report.get("symptoms", [])]; the result [None] is Python's [None]. *)
Definition row_get_symptoms (row : TableRow.t) : option (list string) :=
  match TableRow.symptoms row with
  | TableRow.Missing => Some []
  | TableRow.Null => None
  | TableRow.Items l => Some l
  end.

(** [l.extend(iterable)]: [None] is not iterable. *)
Definition list_extend (l : list string) (iterable : option (list string))
  : result (list string) :=
  match iterable with
  | Some l' => Ok (l ++ l')
  | None => Raise TypeError
  end.

(** The body of the loop over [current_reports], on rows as they are read. *)
Definition current_step_row
  (current_by_location : Dict.t string Current.t)
  (row : TableRow.t) : result (Dict.t string Current.t) :=
  let location := TableRow.location row in
  let by_location :=
    if Dict.mem String.eqb location current_by_location
    then current_by_location
    else Dict.set String.eqb location (Current.mk 0 [] []) current_by_location in
  let data :=
    Dict.get_default String.eqb location (Current.mk 0 [] []) by_location in
  symptoms <- list_extend (Current.symptoms data) (row_get_symptoms row) ;;
  let data :=
    Current.mk (Current.count data + 1) symptoms
               (Current.user_ids data ++ [TableRow.user_id row]) in
  Ok (Dict.set String.eqb location data by_location).

Fixpoint group_current_rows_from
  (current_by_location : Dict.t string Current.t) (rows : list TableRow.t)
  : result (Dict.t string Current.t) :=
  match rows with
  | [] => Ok current_by_location
  | row :: rest =>
      current_by_location <- current_step_row current_by_location row ;;
      group_current_rows_from current_by_location rest
  end.

Definition group_current_rows (current_reports : list TableRow.t)
  : result (Dict.t string Current.t) :=
  group_current_rows_from Dict.empty current_reports.

(** The two reads, on the rows of the table. *)
Definition fetch_baseline_rows (now : Z) (table : list TableRow.t) : list TableRow.t :=
  let baseline_start := now - timedelta_days 14 in
  let baseline_end := now - timedelta_days 7 in
  filter (fun row => TableRow.created_at row <? baseline_end)
         (filter (fun row => baseline_start <=? TableRow.created_at row) table).

Definition fetch_current_rows (now : Z) (table : list TableRow.t) : list TableRow.t :=
  let current_window_start := now - timedelta_days 1 in
  filter (fun row => current_window_start <=? TableRow.created_at row) table.

(** [detect_outbreaks] on the rows as they are read.  The baseline loop reads
    the location and the timestamp only. *)
Definition detect_outbreaks_rows (now : Z) (table : list TableRow.t)
  : result (list alert) :=
  let baseline_reports := fetch_baseline_rows now table in
  let current_reports := fetch_current_rows now table in
  let baseline_by_location :=
    group_baseline (map report_of_row baseline_reports) in
  current_by_location <- group_current_rows current_reports ;;
  score_all now baseline_by_location (Dict.items current_by_location) [].

(** A row of the current window whose ["symptoms"] value is null. *)
Definition null_symptoms_in_window (now : Z) (row : TableRow.t) : bool :=
  match TableRow.symptoms row with
  | TableRow.Null => now - timedelta_days 1 <=? TableRow.created_at row
  | _ => false
  end.

(** What a handler hands to the framework. *)
Inductive http (A : Type) : Type :=
| Response (a : A)
| HTTPException (status_code : Z) (detail : string).

Arguments Response {A} a.
Arguments HTTPException {A} status_code detail.

(** The exceptions [except Exception as e] catches in the handlers. *)
Inductive exception : Type :=
| EngineException (e : exn)
| StoreException (msg : string)
| CaughtHTTPException (status_code : Z) (detail : string).

(** The store as a read sees it. *)
Inductive store : Type :=
| Available (table : list TableRow.t)
| Unavailable (msg : string).

(** A row as the store returns it after an insert. *)
Record stored_row : Type := mk_stored_row {
  row_id : string;
  row_created_at : Z
}.

(** What [insert(...).execute()] does: raise, or answer with [data]. *)
Inductive insert_result : Type :=
| InsertRaises (msg : string)
| InsertReturns (data : list stored_row).

(** [HealthReportSubmission]; the temperature, which only the schema
    validation looks at, is left out. *)
Record HealthReportSubmission : Type := mk_submission {
  submitted_user_id : string;
  submitted_symptoms : list string;
  submitted_location : string
}.

Record submit_response : Type := mk_submit_response {
  message : string;
  report_id : string;
  timestamp : Z
}.

Section Handlers.
Variable str : exception -> string.

(** [submit_health_report], given the store's [insert]. *)
Definition submit_health_report (insert : Report.t -> insert_result)
  (now : Z) (report : HealthReportSubmission) : http submit_response :=
  let row :=
    Report.mk (submitted_location report) now
              (Some (submitted_symptoms report)) (submitted_user_id report) in
  let attempt : exception + submit_response :=
    match insert row with
    | InsertRaises msg => inl (StoreException msg)
    | InsertReturns [] =>
        inl (CaughtHTTPException 500 "Failed to save health report"%string)
    | InsertReturns (first :: _) =>
        inr (mk_submit_response "Health report submitted successfully"%string
                                (row_id first) (row_created_at first))
    end in
  match attempt with
  | inr response => Response response
  | inl e => HTTPException 500 ("Database error: "%string ++ str e)
  end.

(** [detect_outbreaks] with a store that may be down. *)
Definition detect_outbreaks_on (now : Z) (s : store)
  : exception + list alert :=
  match s with
  | Unavailable msg => inl (StoreException msg)
  | Available table =>
      match detect_outbreaks_rows now table with
      | Ok alerts => inr alerts
      | Raise e => inl (EngineException e)
      end
  end.

(** [get_outbreak_alerts] *)
Definition get_outbreak_alerts (now : Z) (s : store) : http (list alert) :=
  match detect_outbreaks_on now s with
  | inr alerts => Response alerts
  | inl e => HTTPException 500 ("Error detecting outbreaks: "%string ++ str e)
  end.
End Handlers.

(* ====================================================================== *)
(** * The demo data generator ([generate_demo_data.py])

    The random draws and the outcome of every insert are inputs: a draw
    records what [random] returned for one report and whether the store
    accepted the row.  The temperature, which the engine never reads, is
    left out of the row. *)

Definition LOCATIONS : list string :=
  ["Hostel A"%string; "Hostel B"%string; "Hostel C"%string; "Day Scholar"%string].

Definition BASELINE_START_DAYS : Z := 14.
Definition BASELINE_END_DAYS : Z := 7.
Definition OUTBREAK_REPORTS : nat := 8.
Definition OUTBREAK_LOCATION : string := "Hostel A"%string.

(** [range(start, stop, -1)] *)
Definition range_down (start stop : Z) : list Z :=
  map (fun i => start - Z.of_nat i) (seq 0 (Z.to_nat (start - stop))).

(** [insert_health_report]: the row is appended when the store accepts it;
    a failure is printed and swallowed. *)
Definition insert_health_report (accepted : bool) (user_id : string)
  (symptoms : list string) (location : string) (date : Z)
  (table : list Report.t) : list Report.t :=
  if accepted
  then table ++ [Report.mk location date (Some symptoms) user_id]
  else table.

Record baseline_draw : Type := mk_baseline_draw {
  bd_location : string;
  bd_symptoms : list string;
  bd_accepted : bool
}.

Record outbreak_draw : Type := mk_outbreak_draw {
  od_hours_ago : Z;
  od_symptoms : list string;
  od_accepted : bool
}.

(** [generate_baseline_data]; [draws days_ago] are the reports drawn for
    that day, [random.randint(2, 3)] of them. *)
Definition generate_baseline_data (user_id : string) (now : Z)
  (draws : Z -> list baseline_draw) (table : list Report.t)
  : list Report.t :=
  fold_left
    (fun table days_ago =>
       let date := now - timedelta_days days_ago in
       fold_left
         (fun table d =>
            insert_health_report (bd_accepted d) user_id (bd_symptoms d)
                                 (bd_location d) date table)
         (draws days_ago) table)
    (range_down BASELINE_START_DAYS BASELINE_END_DAYS) table.

(** [generate_outbreak_data]; [draws i] is the report drawn in round [i]. *)
Definition generate_outbreak_data (user_id : string) (now : Z)
  (draws : nat -> outbreak_draw) (table : list Report.t) : list Report.t :=
  fold_left
    (fun table i =>
       let d := draws i in
       let date := now - hours (od_hours_ago d) in
       insert_health_report (od_accepted d) user_id (od_symptoms d)
                            OUTBREAK_LOCATION date table)
    (seq 0 OUTBREAK_REPORTS) table.

(** Steps 1 and 2 of [main]: the baseline, then the outbreak. *)
Definition generate_demo_data
  (baseline_user : string) (baseline_now : Z)
  (baseline_draws : Z -> list baseline_draw)
  (outbreak_user : string) (outbreak_now : Z)
  (outbreak_draws : nat -> outbreak_draw)
  (table : list Report.t) : list Report.t :=
  generate_outbreak_data outbreak_user outbreak_now outbreak_draws
    (generate_baseline_data baseline_user baseline_now baseline_draws table).

(** The rows one baseline day adds, and the rows the outbreak adds. *)
Definition baseline_batch (user_id : string) (now : Z)
  (draws : Z -> list baseline_draw) (days_ago : Z) : list Report.t :=
  map (fun d => Report.mk (bd_location d) (now - timedelta_days days_ago)
                          (Some (bd_symptoms d)) user_id)
      (filter bd_accepted (draws days_ago)).

Definition outbreak_rows (user_id : string) (now : Z)
  (draws : nat -> outbreak_draw) : list Report.t :=
  map (fun d => Report.mk OUTBREAK_LOCATION (now - hours (od_hours_ago d))
                          (Some (od_symptoms d)) user_id)
      (filter od_accepted (map draws (seq 0 OUTBREAK_REPORTS))).

(* ====================================================================== *)
(** * Facts about dictionaries *)

Section DictFacts.
Context {K V : Type}.
Variable eqb : K -> K -> bool.
Hypothesis eqb_spec : forall x y, reflect (x = y) (eqb x y).

Lemma dict_get_none_iff (k : K) (d : Dict.t K V) :
  Dict.get eqb k d = None <-> ~ In k (Dict.keys d).
Proof.
  induction d as [|[k' v] d IH]; simpl.
  - tauto.
  - destruct (eqb_spec k k') as [->|Hne].
    + split; [discriminate | intros H; exfalso; apply H; now left].
    + rewrite IH. split; intros H; [intros [E|Hin]; congruence | tauto].
Qed.

Lemma dict_get_some_in (k : K) (v : V) (d : Dict.t K V) :
  Dict.get eqb k d = Some v -> In (k, v) d.
Proof.
  induction d as [|[k' v'] d IH]; simpl; [discriminate|].
  destruct (eqb_spec k k') as [->|Hne].
  - intros [= ->]. now left.
  - intros H. right. auto.
Qed.

Lemma dict_in_get (k : K) (v : V) (d : Dict.t K V) :
  NoDup (Dict.keys d) -> In (k, v) d -> Dict.get eqb k d = Some v.
Proof.
  induction d as [|[k' v'] d IH]; simpl; [tauto|].
  intros Hnd [E|Hin].
  - injection E as -> ->. destruct (eqb_spec k k); congruence.
  - inversion Hnd as [|? ? Hnot Hnd']; subst.
    destruct (eqb_spec k k') as [->|Hne].
    + exfalso. apply Hnot. change k' with (fst (k', v)). now apply in_map.
    + auto.
Qed.

Lemma dict_set_new (k : K) (v : V) (d : Dict.t K V) :
  Dict.get eqb k d = None -> Dict.set eqb k v d = d ++ [(k, v)].
Proof.
  induction d as [|[k' v'] d IH]; simpl; [reflexivity|].
  destruct (eqb_spec k k') as [->|Hne]; [discriminate|].
  intros H. now rewrite IH.
Qed.

Lemma dict_keys_set_old (k : K) (v w : V) (d : Dict.t K V) :
  Dict.get eqb k d = Some w ->
  Dict.keys (Dict.set eqb k v d) = Dict.keys d.
Proof.
  induction d as [|[k' v'] d IH]; simpl; [discriminate|].
  destruct (eqb_spec k k') as [->|Hne]; simpl; [reflexivity|].
  intros H. f_equal. auto.
Qed.

Lemma dict_get_set_same (k : K) (v : V) (d : Dict.t K V) :
  Dict.get eqb k (Dict.set eqb k v d) = Some v.
Proof.
  induction d as [|[k' v'] d IH]; simpl.
  - destruct (eqb_spec k k); congruence.
  - destruct (eqb_spec k k') as [->|Hne]; simpl.
    + destruct (eqb_spec k' k'); congruence.
    + destruct (eqb_spec k k'); congruence.
Qed.

Lemma dict_get_set_other (k k0 : K) (v : V) (d : Dict.t K V) :
  k0 <> k -> Dict.get eqb k0 (Dict.set eqb k v d) = Dict.get eqb k0 d.
Proof.
  intros Hne. induction d as [|[k' v'] d IH]; simpl.
  - destruct (eqb_spec k0 k); congruence.
  - destruct (eqb_spec k k') as [->|Hne']; simpl.
    + destruct (eqb_spec k0 k'); congruence.
    + destruct (eqb_spec k0 k'); congruence.
Qed.

(** Writing a key twice is writing it once with the last value. *)
Lemma dict_set_set (k : K) (v w : V) (d : Dict.t K V) :
  Dict.set eqb k w (Dict.set eqb k v d) = Dict.set eqb k w d.
Proof.
  induction d as [|[k' v'] d IH]; simpl.
  - destruct (eqb_spec k k); congruence.
  - destruct (eqb_spec k k') as [->|Hne]; simpl.
    + destruct (eqb_spec k' k'); congruence.
    + destruct (eqb_spec k k'); [congruence | now rewrite IH].
Qed.

Lemma dict_keys_set (k : K) (v : V) (d : Dict.t K V) :
  Dict.keys (Dict.set eqb k v d) =
  if Dict.mem eqb k d then Dict.keys d else Dict.keys d ++ [k].
Proof.
  unfold Dict.mem. destruct (Dict.get eqb k d) as [w|] eqn:E.
  - eapply dict_keys_set_old; eauto.
  - rewrite dict_set_new by assumption. unfold Dict.keys.
    now rewrite map_app.
Qed.

Lemma dict_mem_true_iff (k : K) (d : Dict.t K V) :
  Dict.mem eqb k d = true <-> In k (Dict.keys d).
Proof.
  unfold Dict.mem. destruct (Dict.get eqb k d) eqn:E.
  - split; [intros _|reflexivity].
    apply dict_get_some_in in E. change k with (fst (k, v)).
    now apply in_map.
  - split; [discriminate|]. intros H. now apply dict_get_none_iff in E.
Qed.
End DictFacts.

Lemma existsb_eqb_In (x : string) (l : list string) :
  existsb (String.eqb x) l = true <-> In x l.
Proof.
  rewrite existsb_exists. split.
  - intros [y [Hin E]]. apply String.eqb_eq in E. now subst.
  - intros H. exists x. split; [assumption | apply String.eqb_refl].
Qed.

Lemma first_seen_snoc (l : list string) (x : string) :
  first_seen (l ++ [x]) =
  if existsb (String.eqb x) (first_seen l) then first_seen l
  else first_seen l ++ [x].
Proof. unfold first_seen. now rewrite fold_left_app. Qed.

Lemma first_seen_In (l : list string) (x : string) :
  In x (first_seen l) <-> In x l.
Proof.
  revert x. induction l as [|y l IH] using rev_ind; intros x.
  - reflexivity.
  - rewrite first_seen_snoc, in_app_iff. simpl.
    destruct (existsb (String.eqb y) (first_seen l)) eqn:E.
    + rewrite existsb_eqb_In, IH in E. rewrite IH.
      split; [tauto|]. intros [H|[<-|[]]]; assumption.
    + rewrite in_app_iff, IH. simpl. tauto.
Qed.

Lemma first_seen_NoDup (l : list string) : NoDup (first_seen l).
Proof.
  induction l as [|y l IH] using rev_ind.
  - constructor.
  - rewrite first_seen_snoc.
    destruct (existsb (String.eqb y) (first_seen l)) eqn:E; [assumption|].
    apply NoDup_app; [assumption | repeat constructor; simpl; tauto |].
    intros a Ha [<-|[]].
    apply existsb_eqb_In in Ha. congruence.
Qed.

Lemma first_index_lt (x : string) (l : list string) :
  In x l -> (first_index x l < List.length l)%nat.
Proof.
  induction l as [|y l IH]; simpl; [tauto|].
  destruct (String.eqb_spec x y) as [->|Hne]; [lia|].
  intros [E|Hin]; [congruence|]. apply IH in Hin. lia.
Qed.

Lemma first_index_app_l (x : string) (l l' : list string) :
  In x l -> first_index x (l ++ l') = first_index x l.
Proof.
  induction l as [|y l IH]; simpl; [tauto|].
  destruct (String.eqb_spec x y) as [->|Hne]; [reflexivity|].
  intros [E|Hin]; [congruence|]. now rewrite IH.
Qed.

Lemma first_index_app_r (x : string) (l l' : list string) :
  ~ In x l ->
  first_index x (l ++ l') = (List.length l + first_index x l')%nat.
Proof.
  induction l as [|y l IH]; simpl; [reflexivity|].
  intros H. destruct (String.eqb_spec x y) as [->|Hne]; [tauto|].
  rewrite IH by tauto. reflexivity.
Qed.

Lemma StronglySorted_snoc {A : Type} (R : A -> A -> Prop) (l : list A) (x : A) :
  StronglySorted R l -> Forall (fun a => R a x) l ->
  StronglySorted R (l ++ [x]).
Proof.
  induction 1 as [|a l Hs IH Hall]; intros Hx; simpl.
  - repeat constructor.
  - inversion Hx; subst. constructor; [auto|].
    apply Forall_app. split; [assumption | repeat constructor; assumption].
Qed.

Lemma StronglySorted_weaken {A : Type} (R R' : A -> A -> Prop) (l : list A) :
  (forall a b, In a l -> In b l -> R a b -> R' a b) ->
  StronglySorted R l -> StronglySorted R' l.
Proof.
  intros Himp Hs. induction Hs as [|a l Hs IH Hall]; constructor.
  - apply IH. intros; apply Himp; simpl; auto.
  - rewrite Forall_forall in *. intros b Hb.
    apply Himp; simpl; auto.
Qed.

(** [first_seen l] lists its elements by increasing first position in [l]. *)
Lemma first_seen_sorted (l : list string) :
  StronglySorted (fun a b => (first_index a l < first_index b l)%nat)
                 (first_seen l).
Proof.
  induction l as [|y l IH] using rev_ind.
  - constructor.
  - assert (Hold : StronglySorted
             (fun a b => (first_index a (l ++ [y]) < first_index b (l ++ [y]))%nat)
             (first_seen l)).
    { eapply StronglySorted_weaken; [|exact IH].
      intros a b Ha Hb Hlt.
      rewrite first_seen_In in Ha, Hb.
      rewrite !first_index_app_l by assumption. exact Hlt. }
    rewrite first_seen_snoc.
    destruct (existsb (String.eqb y) (first_seen l)) eqn:E; [assumption|].
    apply StronglySorted_snoc; [assumption|].
    apply Forall_forall. intros a Ha. rewrite first_seen_In in Ha.
    assert (Hy : ~ In y l).
    { intros H. rewrite <- first_seen_In, <- existsb_eqb_In in H.
      congruence. }
    rewrite first_index_app_l by assumption.
    rewrite first_index_app_r by assumption.
    apply first_index_lt in Ha. lia.
Qed.

(* ====================================================================== *)
(** * Facts about the grouping of the current reports *)

Lemma current_step_eq (d : Dict.t string Current.t) (r : Report.t) :
  current_step d r =
  let data :=
    Dict.get_default String.eqb (Report.location r) (Current.mk 0 [] []) d in
  Dict.set String.eqb (Report.location r)
    (Current.mk (Current.count data + 1)
                (Current.symptoms data ++ report_symptoms r)
                (Current.user_ids data ++ [Report.user_id r])) d.
Proof.
  unfold current_step, Dict.mem, Dict.get_default.
  destruct (Dict.get String.eqb (Report.location r) d) as [data|] eqn:E.
  - now rewrite E.
  - rewrite (dict_get_set_same _ String.eqb_spec).
    now rewrite (dict_set_set _ String.eqb_spec).
Qed.

Lemma group_current_snoc (l : list Report.t) (r : Report.t) :
  group_current (l ++ [r]) = current_step (group_current l) r.
Proof. unfold group_current. now rewrite fold_left_app. Qed.

Lemma reports_at_snoc (loc : string) (l : list Report.t) (r : Report.t) :
  reports_at loc (l ++ [r]) =
  reports_at loc l ++ (if String.eqb (Report.location r) loc then [r] else []).
Proof. unfold reports_at. now rewrite filter_app. Qed.

Lemma aggregate_of_snoc (l : list Report.t) (r : Report.t) :
  aggregate_of (l ++ [r]) =
  Current.mk (Current.count (aggregate_of l) + 1)
             (Current.symptoms (aggregate_of l) ++ report_symptoms r)
             (Current.user_ids (aggregate_of l) ++ [Report.user_id r]).
Proof.
  unfold aggregate_of; simpl.
  rewrite length_app, flat_map_app, map_app; simpl.
  rewrite app_nil_r. f_equal. lia.
Qed.

(** What [current_by_location] holds for a location. *)
Lemma group_current_get (l : list Report.t) (loc : string) :
  Dict.get String.eqb loc (group_current l) =
  match reports_at loc l with
  | [] => None
  | rs => Some (aggregate_of rs)
  end.
Proof.
  induction l as [|r l IH] using rev_ind; [reflexivity|].
  rewrite group_current_snoc, current_step_eq, reports_at_snoc. cbv zeta.
  destruct (String.eqb_spec (Report.location r) loc) as [E|Hne].
  - subst loc. rewrite (dict_get_set_same _ String.eqb_spec).
    assert (Hd : Dict.get_default String.eqb (Report.location r)
                   (Current.mk 0 [] []) (group_current l)
                 = aggregate_of (reports_at (Report.location r) l)).
    { unfold Dict.get_default. rewrite IH.
      destruct (reports_at (Report.location r) l); reflexivity. }
    rewrite Hd, <- aggregate_of_snoc.
    destruct (reports_at (Report.location r) l); reflexivity.
  - rewrite (dict_get_set_other _ String.eqb_spec) by congruence.
    now rewrite app_nil_r.
Qed.

(** The keys of [current_by_location], in iteration order. *)
Lemma group_current_keys (l : list Report.t) :
  Dict.keys (group_current l) = first_seen (map Report.location l).
Proof.
  induction l as [|r l IH] using rev_ind; [reflexivity|].
  rewrite group_current_snoc, current_step_eq, map_app. cbv zeta. simpl map.
  rewrite first_seen_snoc, (dict_keys_set _ String.eqb_spec), <- IH.
  destruct (Dict.mem String.eqb (Report.location r) (group_current l)) eqn:E.
  - apply (dict_mem_true_iff _ String.eqb_spec) in E.
    apply existsb_eqb_In in E. now rewrite E.
  - destruct (existsb _ _) eqn:E'; [|reflexivity].
    apply existsb_eqb_In, (dict_mem_true_iff _ String.eqb_spec) in E'.
    congruence.
Qed.

(* ====================================================================== *)
(** * Facts about the statistics *)

Local Open Scope R_scope.

Lemma mean_ok (data : list Z) :
  (1 <= List.length data)%nat -> statistics.mean data = Ok (mean_of data).
Proof. destruct data; simpl; [lia | reflexivity]. Qed.

Lemma stdev_ok (data : list Z) :
  (2 <= List.length data)%nat -> statistics.stdev data = Ok (stdev_of data).
Proof.
  intros H. unfold statistics.stdev.
  destruct (Nat.ltb_spec (List.length data) 2); [lia | reflexivity].
Qed.

Lemma stdev_of_nonneg (data : list Z) : 0 <= stdev_of data.
Proof. apply sqrt_pos. Qed.

Lemma clamp_std_dev_cases (x : R) :
  (x = 0 /\ clamp_std_dev x = 1) \/ (x <> 0 /\ clamp_std_dev x = x).
Proof. unfold clamp_std_dev. destruct (Req_dec_T x 0); auto. Qed.

Lemma clamp_std_dev_nonzero (x : R) : clamp_std_dev x <> 0.
Proof. destruct (clamp_std_dev_cases x) as [[_ ->]|[H ->]]; [lra | exact H]. Qed.

Lemma clamp_std_dev_pos (x : R) : 0 <= x -> 0 < clamp_std_dev x.
Proof.
  intros H. destruct (clamp_std_dev_cases x) as [[_ ->]|[Hne ->]]; lra.
Qed.

Lemma py_truediv_ok (x y : R) : y <> 0 -> py_truediv x y = Ok (x / y).
Proof. intros H. unfold py_truediv. destruct (Req_dec_T y 0); tauto. Qed.

Lemma daily_counts_of_length
  (baseline_by_location : Dict.t string (Dict.t Z Z)) (location : string) :
  (2 <= List.length (daily_counts_of baseline_by_location location))%nat.
Proof.
  unfold daily_counts_of.
  destruct (Nat.ltb_spec
    (List.length (baseline_daily_counts baseline_by_location location)) 2);
    simpl; lia.
Qed.

Lemma compute_score_ok (data : list Z) (current_count : Z) :
  (2 <= List.length data)%nat ->
  compute_score data current_count = Ok (score_of data current_count).
Proof.
  intros H. unfold compute_score.
  rewrite mean_ok by lia. rewrite stdev_ok by lia. simpl.
  rewrite py_truediv_ok by apply clamp_std_dev_nonzero. reflexivity.
Qed.

Lemma score_location_ok (now : Z)
  (baseline_by_location : Dict.t string (Dict.t Z Z))
  (location : string) (current_data : Current.t) :
  score_location now baseline_by_location location current_data =
  Ok (alert_of now baseline_by_location location current_data).
Proof.
  unfold score_location, alert_of.
  rewrite compute_score_ok by apply daily_counts_of_length. simpl.
  destruct (Rlt_dec _ _); reflexivity.
Qed.

Lemma score_all_ok (now : Z)
  (baseline_by_location : Dict.t string (Dict.t Z Z))
  (items : list (string * Current.t)) (alerts : list alert) :
  score_all now baseline_by_location items alerts =
  Ok (alerts ++ alerts_of now baseline_by_location items).
Proof.
  revert alerts. induction items as [|[location current_data] rest IH];
    intros alerts; simpl.
  - now rewrite app_nil_r.
  - rewrite score_location_ok. simpl. rewrite IH.
    destruct (alert_of _ _ _ _); simpl; [|reflexivity].
    now rewrite <- app_assoc.
Qed.

Lemma detect_ok (now : Z) (baseline_reports current_reports : list Report.t) :
  detect now baseline_reports current_reports =
  Ok (alerts_of now (group_baseline baseline_reports)
                (group_current current_reports)).
Proof. unfold detect. now rewrite score_all_ok. Qed.

(* ====================================================================== *)
(** * Facts about the numeric built-ins *)

Lemma py_min_Rmin (a b : R) : py_min a b = Rmin a b.
Proof.
  unfold py_min, Rmin.
  destruct (Rlt_dec b a), (Rle_dec a b); try reflexivity; lra.
Qed.

Lemma Int_part_le (x y : R) : x <= y -> (Int_part x <= Int_part y)%Z.
Proof.
  intros H.
  destruct (base_Int_part x) as [Hx _], (base_Int_part y) as [_ Hy].
  assert (IZR (Int_part x) < IZR (Int_part y + 1)) by (rewrite plus_IZR; lra).
  apply lt_IZR in H0. lia.
Qed.

Lemma Int_part_IZR (n : Z) : Int_part (IZR n) = n.
Proof. symmetry. apply Int_part_spec. lra. Qed.

Lemma frac_part_IZR (n : Z) : frac_part (IZR n) = 0.
Proof. unfold frac_part. rewrite Int_part_IZR. lra. Qed.

Lemma round_half_even_IZR (n : Z) : round_half_even (IZR n) = n.
Proof.
  unfold round_half_even. rewrite frac_part_IZR, Int_part_IZR.
  destruct (Rlt_dec 0 (1 / 2)); [reflexivity | lra].
Qed.

(** The rounded value is a nearest integer. *)
Lemma round_half_even_near (x : R) :
  IZR (round_half_even x) - 1 / 2 <= x <= IZR (round_half_even x) + 1 / 2.
Proof.
  unfold round_half_even.
  pose proof (Rplus_Int_part_frac_part x) as Hx.
  destruct (base_fp x) as [Hf0 Hf1].
  destruct (Rlt_dec (frac_part x) (1 / 2)); [lra|].
  destruct (Rlt_dec (1 / 2) (frac_part x)); [rewrite plus_IZR; lra|].
  destruct (Z.even (Int_part x)); [lra | rewrite plus_IZR; lra].
Qed.

(** On a tie the even neighbour is chosen. *)
Lemma round_half_even_tie (x : R) :
  frac_part x = 1 / 2 -> Z.even (round_half_even x) = true.
Proof.
  intros H. unfold round_half_even. rewrite H.
  destruct (Rlt_dec (1 / 2) (1 / 2)); [lra|].
  destruct (Z.even (Int_part x)) eqn:E; [exact E|].
  rewrite Z.even_add, E. reflexivity.
Qed.

Lemma round_half_even_mono (x y : R) :
  x <= y -> (round_half_even x <= round_half_even y)%Z.
Proof.
  intros H. pose proof (Int_part_le x y H) as Hn.
  assert (Hlo : forall r, (Int_part r <= round_half_even r <= Int_part r + 1)%Z).
  { intros r. unfold round_half_even.
    destruct (Rlt_dec _ _); [lia|]. destruct (Rlt_dec _ _); [lia|].
    destruct (Z.even _); lia. }
  destruct (Z.eq_dec (Int_part x) (Int_part y)) as [E|Hne].
  - assert (Hf : frac_part x <= frac_part y)
      by (unfold frac_part; rewrite E; lra).
    unfold round_half_even. rewrite E.
    destruct (Rlt_dec (frac_part x) (1 / 2)).
    + destruct (Rlt_dec (frac_part y) (1 / 2)); [lia|].
      destruct (Rlt_dec (1 / 2) (frac_part y)); [lia|].
      destruct (Z.even (Int_part y)); lia.
    + destruct (Rlt_dec (frac_part y) (1 / 2)); [lra|].
      destruct (Rlt_dec (1 / 2) (frac_part x)).
      * destruct (Rlt_dec (1 / 2) (frac_part y)); [lia | lra].
      * destruct (Rlt_dec (1 / 2) (frac_part y)); [|lia].
        destruct (Z.even (Int_part y)); lia.
  - pose proof (Hlo x). pose proof (Hlo y). lia.
Qed.

Lemma py_round_1 (x : R) :
  py_round x 1 = IZR (round_half_even (x * 10)) / 10.
Proof. unfold py_round. simpl pow. now rewrite Rmult_1_r. Qed.

Lemma py_round_1_tenth (n : Z) : py_round (IZR n / 10) 1 = IZR n / 10.
Proof.
  rewrite py_round_1. replace (IZR n / 10 * 10) with (IZR n) by field.
  now rewrite round_half_even_IZR.
Qed.

Lemma py_round_1_mono (x y : R) : x <= y -> py_round x 1 <= py_round y 1.
Proof.
  intros H. rewrite !py_round_1.
  assert (Hz : (round_half_even (x * 10) <= round_half_even (y * 10))%Z)
    by (apply round_half_even_mono; lra).
  apply IZR_le in Hz. lra.
Qed.

Lemma py_round_1_near (x : R) :
  py_round x 1 - 1 / 20 <= x <= py_round x 1 + 1 / 20.
Proof.
  rewrite py_round_1.
  pose proof (round_half_even_near (x * 10)) as H. lra.
Qed.

Lemma severity_of_mono (z1 z2 : R) :
  z1 <= z2 ->
  (severity_rank (severity_of z1) <= severity_rank (severity_of z2))%nat.
Proof.
  intros H. unfold severity_of.
  destruct (Rlt_dec 3.5 z1), (Rlt_dec 3.5 z2),
           (Rlt_dec 2.5 z1), (Rlt_dec 2.5 z2); simpl; try lia; lra.
Qed.

(* ====================================================================== *)
(** * From the alert list back to the locations *)

Lemma group_current_NoDup (l : list Report.t) :
  NoDup (Dict.keys (group_current l)).
Proof. rewrite group_current_keys. apply first_seen_NoDup. Qed.

Lemma group_current_items (l : list Report.t) (loc : string) (data : Current.t) :
  In (loc, data) (Dict.items (group_current l)) <->
  Dict.get String.eqb loc (group_current l) = Some data.
Proof.
  split.
  - apply (dict_in_get _ String.eqb_spec), group_current_NoDup.
  - apply (dict_get_some_in _ String.eqb_spec).
Qed.

Lemma group_current_get_some (l : list Report.t) (loc : string)
  (data : Current.t) :
  Dict.get String.eqb loc (group_current l) = Some data <->
  reports_at loc l <> [] /\ data = aggregate_of (reports_at loc l).
Proof.
  rewrite group_current_get.
  destruct (reports_at loc l) as [|r rs].
  - split; [discriminate | intros [H _]; congruence].
  - split; [intros [= <-]; split; [discriminate | reflexivity]
           | intros [_ ->]; reflexivity].
Qed.

Lemma reports_at_nonempty (l : list Report.t) (loc : string) :
  reports_at loc l <> [] <-> In loc (map Report.location l).
Proof.
  rewrite in_map_iff. unfold reports_at. split.
  - destruct (filter _ l) as [|r rs] eqn:E; [congruence|]. intros _.
    assert (Hr : In r (filter (fun r => String.eqb (Report.location r) loc) l))
      by (rewrite E; now left).
    apply filter_In in Hr. destruct Hr as [Hin Heq].
    apply String.eqb_eq in Heq. eauto.
  - intros [r [Hloc Hin]] E.
    assert (Hr : In r (filter (fun r => String.eqb (Report.location r) loc) l)).
    { apply filter_In. split; [assumption|]. now apply String.eqb_eq. }
    rewrite E in Hr. exact Hr.
Qed.

Lemma alert_of_some (now : Z) (B : Dict.t string (Dict.t Z Z))
  (loc : string) (data : Current.t) (a : alert) :
  alert_of now B loc data = Some a <->
  OUTBREAK_THRESHOLD <
    score_z (score_of (daily_counts_of B loc) (Current.count data)) /\
  a = make_alert now loc data
        (score_of (daily_counts_of B loc) (Current.count data)).
Proof.
  unfold alert_of. destruct (Rlt_dec _ _) as [H|H].
  - split; [intros [= <-]; auto | intros [_ ->]; reflexivity].
  - split; [discriminate | tauto].
Qed.

Lemma alerts_of_In (now : Z) (B : Dict.t string (Dict.t Z Z))
  (items : list (string * Current.t)) (a : alert) :
  In a (alerts_of now B items) <->
  exists loc data, In (loc, data) items /\ alert_of now B loc data = Some a.
Proof.
  unfold alerts_of. rewrite in_flat_map. split.
  - intros [[loc data] [Hin Ha]]. exists loc, data. split; [assumption|].
    simpl in Ha. destruct (alert_of now B loc data); simpl in Ha;
      [destruct Ha as [<-|[]]; reflexivity | contradiction].
  - intros [loc [data [Hin Ha]]]. exists (loc, data). split; [assumption|].
    simpl. rewrite Ha. now left.
Qed.

Lemma alert_of_location (now : Z) (B : Dict.t string (Dict.t Z Z))
  (loc : string) (data : Current.t) (a : alert) :
  alert_of now B loc data = Some a -> location a = loc.
Proof. intros H. apply alert_of_some in H. destruct H as [_ ->]. reflexivity. Qed.

(** Every returned alert is the alert of its own location's aggregate. *)
Lemma detect_alert_iff (now : Z) (b c : list Report.t) (a : alert) :
  In a (alerts_of now (group_baseline b) (group_current c)) <->
  exists data,
    Dict.get String.eqb (location a) (group_current c) = Some data /\
    alert_of now (group_baseline b) (location a) data = Some a.
Proof.
  rewrite alerts_of_In. split.
  - intros [loc [data [Hin Ha]]].
    pose proof (alert_of_location _ _ _ _ _ Ha) as E. subst loc.
    exists data. split; [|assumption]. now apply group_current_items.
  - intros [data [Hget Ha]]. exists (location a), data.
    split; [|assumption]. now apply group_current_items.
Qed.

Lemma severity_of_spec (z : R) :
  (severity_of z = High <-> 3.5 < z) /\
  (severity_of z = Medium <-> 2.5 < z <= 3.5) /\
  (severity_of z = Low <-> z <= 2.5).
Proof.
  unfold severity_of.
  destruct (Rlt_dec 3.5 z), (Rlt_dec 2.5 z);
    repeat split; intros; try discriminate; try reflexivity; lra.
Qed.

Lemma alerts_of_locations (now : Z) (B : Dict.t string (Dict.t Z Z))
  (items : list (string * Current.t)) :
  map location (alerts_of now B items) =
  map fst (filter (fun item => alerting B (fst item) (snd item)) items).
Proof.
  unfold alerts_of. induction items as [|[loc data] rest IH]; [reflexivity|].
  simpl. rewrite map_app, IH. unfold alert_of, alerting.
  destruct (Rlt_dec _ _); reflexivity.
Qed.

Lemma StronglySorted_filter {A : Type} (R : A -> A -> Prop) (p : A -> bool)
  (l : list A) :
  StronglySorted R l -> StronglySorted R (filter p l).
Proof.
  induction 1 as [|a l Hs IH Hall]; simpl; [constructor|].
  destruct (p a); [|assumption]. constructor; [assumption|].
  rewrite Forall_forall in *. intros x Hx. apply filter_In in Hx. now apply Hall.
Qed.

Lemma StronglySorted_map_inv {A B : Type} (R : B -> B -> Prop) (f : A -> B)
  (l : list A) :
  StronglySorted R (map f l) ->
  StronglySorted (fun x y => R (f x) (f y)) l.
Proof.
  induction l as [|a l IH]; simpl; intros H; [constructor|].
  inversion H as [|? ? Hs Hall]; subst. constructor; [auto|].
  rewrite Forall_forall in *. intros x Hx. apply Hall. now apply in_map.
Qed.

(** The locations of the returned alerts: the keys of the current aggregate,
    in iteration order, that clear the threshold. *)
Lemma detect_locations (now : Z) (b c : list Report.t) :
  map location (alerts_of now (group_baseline b) (group_current c)) =
  filter (fun loc =>
            match Dict.get String.eqb loc (group_current c) with
            | Some data => alerting (group_baseline b) loc data
            | None => false
            end)
         (first_seen (map Report.location c)).
Proof.
  rewrite alerts_of_locations, <- group_current_keys.
  unfold Dict.keys. rewrite filter_map_swap. f_equal.
  apply filter_ext_in. intros [loc data] Hin. simpl.
  apply group_current_items in Hin. now rewrite Hin.
Qed.

(* ====================================================================== *)
(** * Facts about the stable descending sort *)

Section SortedFacts.
Context {A : Type}.
Variable key : A -> Z.
(** [earlier a b]: [a] stands before [b] in the sequence being sorted. *)
Variable earlier : A -> A -> Prop.

Lemma insert_desc_perm (x : A) (l : list A) :
  Permutation (insert_desc key x l) (x :: l).
Proof.
  induction l as [|y l IH]; simpl; [reflexivity|].
  destruct (key x <? key y)%Z; [|reflexivity].
  rewrite IH. apply perm_swap.
Qed.

Lemma sorted_reverse_perm (l : list A) :
  Permutation (sorted_reverse key l) l.
Proof.
  induction l as [|x l IH]; simpl; [reflexivity|].
  rewrite insert_desc_perm. now constructor.
Qed.

Lemma ranks_before_key (a b : A) :
  ranks_before key earlier a b -> (key b <= key a)%Z.
Proof. intros [H|[H _]]; lia. Qed.

Lemma insert_desc_sorted (x : A) (l : list A) :
  Forall (earlier x) l ->
  StronglySorted (ranks_before key earlier) l ->
  StronglySorted (ranks_before key earlier) (insert_desc key x l).
Proof.
  intros Hx Hs. induction Hs as [|y l Hs IH Hall]; simpl.
  - repeat constructor.
  - inversion Hx as [|? ? Hxy Hxl]; subst.
    destruct (Z.ltb_spec (key x) (key y)) as [Hlt|Hge].
    + constructor; [auto|].
      rewrite Forall_forall in *. intros z Hz.
      apply (Permutation_in _ (insert_desc_perm x l)) in Hz.
      destruct Hz as [<-|Hz]; [now left | auto].
    + constructor; [now constructor|].
      constructor.
      * destruct (Z.eq_dec (key x) (key y)); [right; auto | left; lia].
      * rewrite Forall_forall in *. intros z Hz.
        pose proof (ranks_before_key _ _ (Hall z Hz)) as Hk.
        destruct (Z.eq_dec (key x) (key z)); [right; auto | left; lia].
Qed.

(** The sort is stable: its result is ordered by [ranks_before]. *)
Lemma sorted_reverse_sorted (l : list A) :
  StronglySorted earlier l ->
  StronglySorted (ranks_before key earlier) (sorted_reverse key l).
Proof.
  induction 1 as [|x l Hs IH Hall]; simpl; [constructor|].
  apply insert_desc_sorted; [|assumption].
  rewrite Forall_forall in *. intros z Hz. apply Hall.
  now apply (Permutation_in _ (sorted_reverse_perm l)).
Qed.
End SortedFacts.

(* ====================================================================== *)
(** * Facts about the symptom ranking *)

Lemma frequency_snoc (l : list string) (x s : string) :
  frequency (l ++ [x]) s =
  (frequency l s + (if String.eqb s x then 1 else 0))%Z.
Proof.
  unfold frequency. rewrite count_occ_app. simpl.
  destruct (string_dec x s) as [->|Hne].
  - rewrite String.eqb_refl. lia.
  - destruct (String.eqb_spec s x); [congruence | lia].
Qed.

Lemma dict_set_tabulate (g g' : string -> Z) (x : string) (ks : list string) :
  NoDup ks ->
  (forall s, s <> x -> g' s = g s) ->
  Dict.set String.eqb x (g' x) (map (fun s => (s, g s)) ks) =
  map (fun s => (s, g' s))
      (if existsb (String.eqb x) ks then ks else ks ++ [x]).
Proof.
  intros Hnd Hg. induction Hnd as [|k ks Hk Hnd IH]; simpl; [reflexivity|].
  destruct (String.eqb_spec x k) as [->|Hne]; simpl.
  - f_equal. apply map_ext_in. intros s Hs.
    rewrite Hg; [reflexivity | congruence].
  - rewrite IH.
    destruct (existsb (String.eqb x) ks); simpl;
      rewrite (Hg k) by congruence; reflexivity.
Qed.

Lemma dict_get_tabulate (g : string -> Z) (x : string) (ks : list string) :
  Dict.get String.eqb x (map (fun s => (s, g s)) ks) =
  if existsb (String.eqb x) ks then Some (g x) else None.
Proof.
  induction ks as [|k ks IH]; simpl; [reflexivity|].
  destruct (String.eqb_spec x k) as [->|Hne]; simpl; [reflexivity | exact IH].
Qed.

Lemma count_symptoms_snoc (l : list string) (x : string) :
  count_symptoms (l ++ [x]) =
  Dict.set String.eqb x
    (Dict.get_default String.eqb x 0%Z (count_symptoms l) + 1)%Z
    (count_symptoms l).
Proof. unfold count_symptoms. now rewrite fold_left_app. Qed.

Lemma frequency_not_in (l : list string) (s : string) :
  ~ In s l -> frequency l s = 0%Z.
Proof.
  intros H. unfold frequency.
  now rewrite (proj1 (count_occ_not_In string_dec l s) H).
Qed.

(** [symptom_counts]: every distinct symptom with its frequency, in
    first-seen order. *)
Lemma count_symptoms_spec (l : list string) :
  count_symptoms l = map (fun s => (s, frequency l s)) (first_seen l).
Proof.
  induction l as [|x l IH] using rev_ind; [reflexivity|].
  rewrite count_symptoms_snoc, IH, first_seen_snoc.
  assert (Hget : Dict.get_default String.eqb x 0%Z
                   (map (fun s => (s, frequency l s)) (first_seen l))
                 = frequency l x).
  { unfold Dict.get_default. rewrite dict_get_tabulate.
    destruct (existsb (String.eqb x) (first_seen l)) eqn:E; [reflexivity|].
    symmetry. apply frequency_not_in. intros Hin.
    rewrite <- first_seen_In, <- existsb_eqb_In in Hin. congruence. }
  rewrite Hget.
  replace (frequency l x + 1)%Z with (frequency (l ++ [x]) x)
    by (rewrite frequency_snoc, String.eqb_refl; reflexivity).
  apply dict_set_tabulate; [apply first_seen_NoDup|].
  intros s Hs. rewrite frequency_snoc.
  destruct (String.eqb_spec s x); [congruence | lia].
Qed.

Lemma StronglySorted_map {A B : Type} (R : B -> B -> Prop) (f : A -> B)
  (l : list A) :
  StronglySorted (fun x y => R (f x) (f y)) l ->
  StronglySorted R (map f l).
Proof.
  induction 1 as [|a l Hs IH Hall]; simpl; constructor; [assumption|].
  rewrite Forall_forall in *. intros y Hy.
  apply in_map_iff in Hy. destruct Hy as [x [<- Hx]]. auto.
Qed.

Lemma top_symptoms_of_ranked (symptoms : list string) :
  top_symptoms_of symptoms = firstn 3 (ranked_symptoms symptoms).
Proof. unfold top_symptoms_of, ranked_symptoms. now rewrite firstn_map. Qed.

Lemma ranked_symptoms_perm (symptoms : list string) :
  Permutation (ranked_symptoms symptoms) (first_seen symptoms).
Proof.
  unfold ranked_symptoms, Dict.items.
  rewrite sorted_reverse_perm, count_symptoms_spec, map_map. simpl.
  now rewrite map_id.
Qed.

Lemma ranked_symptoms_sorted (symptoms : list string) :
  StronglySorted (symptom_ranks_before symptoms) (ranked_symptoms symptoms).
Proof.
  unfold ranked_symptoms, Dict.items.
  set (earlier := fun a b : string * Z =>
         (first_index (fst a) symptoms < first_index (fst b) symptoms)%nat).
  assert (Hitems : StronglySorted earlier (count_symptoms symptoms)).
  { rewrite count_symptoms_spec. apply StronglySorted_map.
    apply first_seen_sorted. }
  apply (sorted_reverse_sorted snd) in Hitems.
  apply StronglySorted_map.
  eapply StronglySorted_weaken; [|exact Hitems].
  assert (Hfreq : forall a, In a (sorted_reverse snd (count_symptoms symptoms)) ->
                            snd a = frequency symptoms (fst a)).
  { intros a Ha.
    apply (Permutation_in _ (sorted_reverse_perm snd _)) in Ha.
    rewrite count_symptoms_spec in Ha. apply in_map_iff in Ha.
    destruct Ha as [s [<- _]]. reflexivity. }
  intros a b Ha Hb Hab. unfold symptom_ranks_before.
  rewrite <- (Hfreq a Ha), <- (Hfreq b Hb). exact Hab.
Qed.

(* ====================================================================== *)
(** * Evaluating the score on constant baselines *)

Lemma baseline_step_get_other (B : Dict.t string (Dict.t Z Z)) (r : Report.t)
  (loc : string) :
  loc <> Report.location r ->
  Dict.get String.eqb loc (baseline_step B r) = Dict.get String.eqb loc B.
Proof.
  intros Hne. unfold baseline_step.
  rewrite (dict_get_set_other _ String.eqb_spec) by assumption.
  destruct (Dict.mem String.eqb (Report.location r) B); [reflexivity|].
  now rewrite (dict_get_set_other _ String.eqb_spec).
Qed.

(** A location without baseline reports is absent from
    [baseline_by_location]. *)
Lemma group_baseline_get_none (baseline_reports : list Report.t) (loc : string) :
  ~ In loc (map Report.location baseline_reports) ->
  Dict.get String.eqb loc (group_baseline baseline_reports) = None.
Proof.
  unfold group_baseline.
  assert (H : forall l B, ~ In loc (map Report.location l) ->
            Dict.get String.eqb loc (fold_left baseline_step l B)
            = Dict.get String.eqb loc B).
  { induction l as [|r l IH]; intros B Hnot; simpl; [reflexivity|].
    simpl in Hnot. rewrite IH by tauto.
    apply baseline_step_get_other. intros E. apply Hnot. now left. }
  intros Hnot. now rewrite H.
Qed.

Lemma mean_of_sevens_of_two : mean_of [2; 2; 2; 2; 2; 2; 2]%Z = 2.
Proof. unfold mean_of. rewrite INR_IZR_INZ. simpl. lra. Qed.

Lemma stdev_of_sevens_of_two : stdev_of [2; 2; 2; 2; 2; 2; 2]%Z = 0.
Proof.
  unfold stdev_of. rewrite mean_of_sevens_of_two, INR_IZR_INZ. simpl.
  match goal with |- sqrt ?x = _ => replace x with 0 by lra end.
  apply sqrt_0.
Qed.

Lemma mean_of_seven_zeros : mean_of [0; 0; 0; 0; 0; 0; 0]%Z = 0.
Proof. unfold mean_of. rewrite INR_IZR_INZ. simpl. lra. Qed.

Lemma stdev_of_seven_zeros : stdev_of [0; 0; 0; 0; 0; 0; 0]%Z = 0.
Proof.
  unfold stdev_of. rewrite mean_of_seven_zeros, INR_IZR_INZ. simpl.
  match goal with |- sqrt ?x = _ => replace x with 0 by lra end.
  apply sqrt_0.
Qed.

Lemma clamp_std_dev_0 : clamp_std_dev 0 = 1.
Proof. unfold clamp_std_dev. destruct (Req_dec_T 0 0); [reflexivity | lra]. Qed.

Lemma py_round_1_IZR (n : Z) : py_round (IZR n) 1 = IZR n.
Proof.
  rewrite py_round_1, <- mult_IZR, round_half_even_IZR, mult_IZR. lra.
Qed.

(* ====================================================================== *)
(** * The engine on the sample table *)

Example sample_current_by_location :
  group_current (fetch_current_reports sample_now sample_table) =
  [ ("Hostel B"%string,
     Current.mk 3 ["cough"; "cough"; "fever"; "fever"]%string
                  ["u5"; "u6"; "u5"]%string);
    ("Hostel A"%string,
     Current.mk 10
       ["fever"; "cough"; "headache"; "fever"; "cough"; "fever"; "fatigue";
        "fever"; "headache"; "body ache"; "fever"; "cough"; "fever";
        "fatigue"; "headache"]%string
       ["u1"; "u2"; "u1"; "u3"; "u4"; "u2"; "u5"; "u6"; "u7"; "u8"]%string);
    ("Hostel C"%string, Current.mk 1 [] ["u9"%string]) ].
Proof. vm_compute. reflexivity. Qed.

Example sample_baseline_by_location :
  group_baseline (fetch_baseline_reports sample_now sample_table) =
  [ ("Hostel A"%string,
     [(20471, 2); (20472, 2); (20473, 2); (20474, 2);
      (20475, 2); (20476, 2); (20477, 2)]%Z) ].
Proof. vm_compute. reflexivity. Qed.

Example sample_sorted_reverse :
  sorted_reverse snd
    [("a"%string, 1); ("b"%string, 2); ("c"%string, 2); ("d"%string, 1)]%Z
  = [("b"%string, 2); ("c"%string, 2); ("a"%string, 1); ("d"%string, 1)]%Z.
Proof. reflexivity. Qed.

Example sample_top_symptoms :
  top_symptoms_of
    ["fever"; "cough"; "headache"; "fever"; "cough"; "fever"; "fatigue";
     "fever"; "headache"; "body ache"; "fever"; "cough"; "fever";
     "fatigue"; "headache"]%string
  = ["fever"; "cough"; "headache"]%string.
Proof. vm_compute. reflexivity. Qed.

(** The whole run: an alert for Hostel B (three reports, no history) and one
    for Hostel A (ten reports against two a day), in first-seen order; none
    for Hostel C (one report, no history in the baseline window). *)
Example sample_detect_outbreaks :
  exists a_b a_a,
    detect_outbreaks sample_now sample_table = Ok [a_b; a_a] /\
    location a_b = "Hostel B"%string /\ severity a_b = Medium /\
    risk_score a_b = 60 /\ affected_students a_b = 2%nat /\
    common_symptoms a_b = ["cough"; "fever"]%string /\
    location a_a = "Hostel A"%string /\ severity a_a = High /\
    risk_score a_a = 100 /\ affected_students a_a = 8%nat /\
    common_symptoms a_a = ["fever"; "cough"; "headache"]%string.
Proof.
  unfold detect_outbreaks. rewrite detect_ok.
  rewrite sample_current_by_location, sample_baseline_by_location.
  unfold alerts_of, alert_of, daily_counts_of, baseline_daily_counts.
  simpl flat_map. simpl Dict.get. simpl Nat.ltb. cbv iota.
  unfold score_of, z_score_of.
  rewrite mean_of_sevens_of_two, stdev_of_sevens_of_two,
          mean_of_seven_zeros, stdev_of_seven_zeros, clamp_std_dev_0.
  simpl score_z. unfold OUTBREAK_THRESHOLD.
  destruct (Rlt_dec 2 ((3 - 0) / 1)) as [_|Hn]; [|lra].
  destruct (Rlt_dec 2 ((10 - 2) / 1)) as [_|Hn]; [|lra].
  destruct (Rlt_dec 2 ((1 - 0) / 1)) as [Hlt|_]; [lra|].
  simpl app. do 2 eexists. split; [reflexivity|].
  unfold make_alert. simpl.
  unfold risk_percentage_of. rewrite !py_min_Rmin.
  replace ((3 - 0) / 1) with (IZR 3) by lra.
  replace ((10 - 2) / 1) with (IZR 8) by lra.
  rewrite Rmin_left by lra. rewrite Rmin_right by lra.
  replace (3 * 20) with (IZR 60) by lra.
  rewrite !py_round_1_IZR.
  repeat split; try reflexivity; apply severity_of_spec; lra.
Qed.

(* ====================================================================== *)
(** * Facts about the binary64 scoring *)

Section Binary64Facts.
Import Binary64.
Local Open Scope Z_scope.

Lemma iter_pos_invariant {A : Type} (P : A -> Prop) (f : A -> A) :
  (forall x, P x -> P (f x)) ->
  forall (n : positive) (x : A), P x -> P (SpecFloat.iter_pos f n x).
Proof.
  intros Hf. induction n as [n IH|n IH|]; simpl; intros x Hx; auto.
Qed.

Lemma shr_1_nonneg (mrs : shr_record) :
  0 <= shr_m mrs -> 0 <= shr_m (shr_1 mrs).
Proof.
  destruct mrs as [m r s]. simpl.
  destruct m as [|p|p]; simpl; [lia| |lia].
  destruct p; simpl; lia.
Qed.

Lemma shr_nonneg (mrs : shr_record) (e n : Z) :
  0 <= shr_m mrs -> 0 <= shr_m (fst (shr mrs e n)).
Proof.
  intros H. unfold shr. destruct n; simpl; try assumption.
  now apply (iter_pos_invariant (fun x => 0 <= shr_m x) shr_1 shr_1_nonneg).
Qed.

Lemma shr_fexp_nonneg (m e : Z) (l : SpecFloat.location) :
  0 <= m -> 0 <= shr_m (fst (shr_fexp prec emax m e l)).
Proof.
  intros H. unfold shr_fexp. apply shr_nonneg.
  destruct l as [|[]]; exact H.
Qed.

Lemma round_nearest_even_nonneg (m : Z) (l : SpecFloat.location) :
  0 <= m -> 0 <= round_nearest_even m l.
Proof.
  intros H. unfold round_nearest_even.
  destruct l as [|[]]; try lia. destruct (Z.even m); lia.
Qed.

Lemma binary_round_aux_nonnegative (m e : Z) (l : SpecFloat.location) :
  0 <= m ->
  nonnegative (binary_round_aux prec emax false m e l).
Proof.
  intros H. unfold binary_round_aux.
  pose proof (shr_fexp_nonneg m e l H) as H1.
  destruct (shr_fexp prec emax m e l) as [mrs' e'].
  simpl in H1.
  pose proof (shr_fexp_nonneg _ e' loc_Exact
                (round_nearest_even_nonneg _ (loc_of_shr_record mrs') H1)) as H2.
  destruct (shr_fexp prec emax
              (round_nearest_even (shr_m mrs') (loc_of_shr_record mrs')) e'
              loc_Exact) as [mrs'' e''].
  simpl in H2.
  destruct (shr_m mrs'') as [|p|p]; simpl; [exact I| |lia].
  destruct (e'' <=? _); exact I.
Qed.

Lemma float_of_int_20 :
  float_of_int 20 = Ok (S754_finite false 5629499534213120 (-48)).
Proof. vm_compute. reflexivity. Qed.

Lemma F2Q_negative (m : positive) (e : Z) : (F2Q true m e < 0)%Q.
Proof.
  unfold F2Q. destruct e as [|p|p]; unfold Qlt; cbn [Qnum Qden inject_Z];
    try lia.
  all: assert (0 < 2 ^ Z.pos p) by (apply Z.pow_pos_nonneg; lia); nia.
Qed.

Lemma F2Q_positive (m : positive) (e : Z) : (0 < F2Q false m e)%Q.
Proof.
  unfold F2Q. destruct e as [|p|p]; unfold Qlt; cbn [Qnum Qden inject_Z];
    try lia.
  all: assert (0 < 2 ^ Z.pos p) by (apply Z.pow_pos_nonneg; lia); nia.
Qed.

Lemma above_threshold_positive (x : float) :
  py_lt OUTBREAK_THRESHOLD (PyFloat x) = true ->
  x = S754_infinity false \/ exists m e, x = S754_finite false m e.
Proof.
  unfold py_lt, OUTBREAK_THRESHOLD, exact, exact_float, float_2_0.
  destruct x as [s|s| |s m e]; cbn [ext_compare].
  - vm_compute. discriminate.
  - destruct s; [discriminate | auto].
  - discriminate.
  - destruct s; [|eauto].
    destruct (_ ?= _)%Q eqn:E; try discriminate.
    rewrite <- Qlt_alt in E.
    pose proof (F2Q_negative m e) as Hn.
    pose proof (F2Q_positive 4503599627370496 (-51)) as Hp.
    Lqa.lra.
Qed.

Lemma binary64_round_half_even_near (q : Q) :
  (q - (1 # 2) <= inject_Z (round_half_even q) <= q + (1 # 2))%Q.
Proof.
  destruct q as [n d]. unfold round_half_even. cbn [Qnum Qden].
  pose proof (Z.div_mod n (Zpos d) ltac:(lia)) as Hdm.
  pose proof (Z.mod_pos_bound n (Zpos d) ltac:(lia)) as Hr.
  remember (n / Zpos d) as fl eqn:Efl. remember (n mod Zpos d) as r eqn:Er.
  clear Efl Er.
  destruct (Z.compare_spec (2 * r) (Zpos d)) as [E|E|E];
    [destruct (Z.even fl)|..];
    unfold Qle, Qminus, Qplus, Qopp, inject_Z; cbn [Qnum Qden]; split; nia.
Qed.

Lemma binary64_round_half_even_between (q : Q) (a b : Z) :
  (inject_Z a <= q <= inject_Z b)%Q -> a <= round_half_even q <= b.
Proof.
  destruct q as [n d]. unfold round_half_even, Qle, inject_Z.
  cbn [Qnum Qden]. intros [Ha Hb].
  pose proof (Z.div_mod n (Zpos d) ltac:(lia)) as Hdm.
  pose proof (Z.mod_pos_bound n (Zpos d) ltac:(lia)) as Hr.
  remember (n / Zpos d) as fl eqn:Efl. remember (n mod Zpos d) as r eqn:Er.
  clear Efl Er.
  destruct (Z.compare_spec (2 * r) (Zpos d)) as [E|E|E];
    [destruct (Z.even fl)|..]; nia.
Qed.

Lemma int_truediv_tenths (t : Z) :
  0 <= t <= 1000 ->
  exists f,
    int_truediv t 10 = Ok f /\
    py_eq (PyFloat f) (PyFloat f) = true /\
    py_le (PyInt 0) (PyFloat f) = true /\
    py_le (PyFloat f) (PyInt 100) = true.
Proof.
  intros Ht.
  assert (H : forallb
                (fun t => match int_truediv t 10 with
                          | Ok f => py_eq (PyFloat f) (PyFloat f)
                                    && py_le (PyInt 0) (PyFloat f)
                                    && py_le (PyFloat f) (PyInt 100)
                          | Raise _ => false
                          end)
                (map Z.of_nat (seq 0 1001)) = true)
    by (vm_compute; reflexivity).
  rewrite forallb_forall in H.
  specialize (H t). 
  assert (Hin : In t (map Z.of_nat (seq 0 1001))).
  { apply in_map_iff. exists (Z.to_nat t). split; [lia|]. apply in_seq. lia. }
  specialize (H Hin).
  destruct (int_truediv t 10) as [f|]; [|discriminate].
  apply andb_prop in H. destruct H as [H H3].
  apply andb_prop in H. destruct H as [H1 H2].
  eauto.
Qed.

(** The risk score of any float z-score above the threshold, however that
    z-score was computed: the float product with 20 and the rounding never
    raise, and the result is a decimal with one digit within [[0, 100]]. *)
Lemma binary64_risk_score_rounded (x : float) :
  py_lt OUTBREAK_THRESHOLD (PyFloat x) = true ->
  exists product risk tenths v,
    py_mul (PyFloat x) (PyInt 20) = Ok product /\
    py_round (py_min product (PyInt 100)) 1 = Ok risk /\
    exact (py_min product (PyInt 100)) = Rat v /\
    (v * 10 - (1 # 2) <= inject_Z tenths <= v * 10 + (1 # 2))%Q /\
    0 <= tenths <= 1000 /\
    is_decimal risk tenths 1 /\
    py_le (PyInt 0) risk = true /\
    py_le risk (PyInt 100) = true.
Proof.
  intros Hz. apply above_threshold_positive in Hz.
  remember (SFmul prec emax x (S754_finite false 5629499534213120 (-48)))
    as p eqn:Ep.
  assert (Hmul : py_mul (PyFloat x) (PyInt 20) = Ok (PyFloat p)).
  { unfold py_mul, to_float. rewrite float_of_int_20. subst p. reflexivity. }
  assert (Hp : nonnegative p).
  { subst p. destruct Hz as [->|[m [e ->]]]; [exact I|].
    unfold SFmul. apply binary_round_aux_nonnegative. lia. }
  clear Ep Hz. exists (PyFloat p).
  unfold py_min.
  destruct (py_lt (PyInt 100) (PyFloat p)) eqn:Hlt.
  - exists (PyInt 100), 1000, (inject_Z 100).
    split; [exact Hmul|]. split; [reflexivity|]. split; [reflexivity|].
    split; [split; unfold Qle; simpl; lia|]. split; [lia|].
    split; [eexists; split; vm_compute; reflexivity|].
    split; vm_compute; reflexivity.
  - destruct p as [[|]|[|]| |[|] m e]; try contradiction.
    + exists (PyFloat (S754_zero false)), 0, 0%Q.
      split; [exact Hmul|]. split; [reflexivity|]. split; [reflexivity|].
      split; [split; unfold Qle; simpl; lia|]. split; [lia|].
      split; [eexists; split; vm_compute; reflexivity|].
      split; vm_compute; reflexivity.
    + vm_compute in Hlt. discriminate.
    + assert (Hv : (0 < F2Q false m e <= inject_Z 100)%Q).
      { split; [apply F2Q_positive|].
        apply Qnot_lt_le. intros H. rewrite Qlt_alt in H.
        unfold py_lt, exact, exact_float in Hlt. cbn [ext_compare] in Hlt.
        rewrite H in Hlt. discriminate. }
      remember (F2Q false m e) as v eqn:Ev.
      pose proof (binary64_round_half_even_near (v * inject_Z 10)) as Hnear.
      assert (Hrange : 0 <= round_half_even (v * inject_Z 10) <= 1000).
      { apply binary64_round_half_even_between. unfold inject_Z in *. 
        split; Lqa.lra. }
      remember (round_half_even (v * inject_Z 10)) as t eqn:Et.
      assert (Hround : py_round (PyFloat (S754_finite false m e)) 1 =
                       if t =? 0 then Ok (PyFloat (S754_zero false))
                       else r <- int_truediv t 10 ;; Ok (PyFloat r)).
      { unfold py_round. change (10 ^ 1) with 10. rewrite <- Ev, <- Et.
        reflexivity. }
      destruct (int_truediv_tenths t Hrange) as [f [Hf [Hff [H0 H100]]]].
      destruct (Z.eqb_spec t 0) as [Ht0|Ht0].
      * exists (PyFloat (S754_zero false)), t, v.
        split; [exact Hmul|]. split; [exact Hround|].
        split; [cbn [exact exact_float]; now rewrite Ev|].
        split; [exact Hnear|]. split; [exact Hrange|].
        split; [subst t; rewrite Ht0; eexists; split; vm_compute; reflexivity|].
        split; vm_compute; reflexivity.
      * exists (PyFloat f), t, v.
        split; [exact Hmul|].
        split; [rewrite Hround, Hf; reflexivity|].
        split; [cbn [exact exact_float]; now rewrite Ev|].
        split; [exact Hnear|]. split; [exact Hrange|].
        split; [exists f; split; [exact Hf | exact Hff]|].
        split; assumption.
Qed.

Lemma binary64_py_truediv_float (x y z : number) :
  py_truediv x y = Ok z -> exists f, z = PyFloat f.
Proof.
  unfold py_truediv, bind.
  destruct x as [a|a], y as [b|b]; simpl.
  - destruct (int_truediv a b); [intros [= <-]; eauto | discriminate].
  - destruct (float_of_int a); [|discriminate].
    destruct (is_zero b); [discriminate | intros [= <-]; eauto].
  - destruct (float_of_int b) as [fb|]; [|discriminate].
    destruct (is_zero fb); [discriminate | intros [= <-]; eauto].
  - destruct (is_zero b); [discriminate | intros [= <-]; eauto].
Qed.

Lemma binary64_compute_score_float (daily_counts : list Z) (current_count : Z)
  (s : score) :
  compute_score daily_counts current_count = Ok s ->
  exists f, score_z s = PyFloat f.
Proof.
  unfold compute_score, bind.
  destruct (statistics.mean daily_counts) as [m|]; [|discriminate].
  destruct (statistics.stdev daily_counts) as [sd|]; [|discriminate].
  destruct (py_sub (PyInt current_count) m) as [d|]; [|discriminate].
  destruct (py_truediv d (clamp_std_dev sd)) as [z|] eqn:Ez; [|discriminate].
  intros [= <-]. simpl. eapply binary64_py_truediv_float, Ez.
Qed.

Lemma binary64_score_all_In (now : Z) (B : Dict.t string (Dict.t Z Z))
  (items : list (string * Current.t)) :
  forall (acc alerts : list alert),
    score_all now B items acc = Ok alerts ->
    forall a, In a alerts ->
      In a acc \/
      exists loc data,
        In (loc, data) items /\ score_location now B loc data = Ok (Some a).
Proof.
  induction items as [|[loc data] items IH]; simpl; intros acc alerts H a Ha.
  - injection H as <-. now left.
  - unfold bind in H at 1.
    destruct (score_location now B loc data) as [o|] eqn:E; [|discriminate].
    destruct (IH _ _ H a Ha) as [Hacc|[loc' [data' [Hin Hs]]]].
    + destruct o as [al|]; [|now left].
      apply in_app_or in Hacc. destruct Hacc as [Hacc|[<-|[]]]; [now left|].
      right. exists loc, data. split; [now left | exact E].
    + right. exists loc', data'. split; [now right | exact Hs].
Qed.

Lemma binary64_score_location_some (now : Z) (B : Dict.t string (Dict.t Z Z))
  (loc : string) (data : Current.t) (a : alert) :
  score_location now B loc data = Ok (Some a) ->
  exists s,
    compute_score (daily_counts_of B loc) (Current.count data) = Ok s /\
    py_lt OUTBREAK_THRESHOLD (score_z s) = true /\
    make_alert now loc data s = Ok a.
Proof.
  unfold score_location, bind.
  destruct (compute_score (daily_counts_of B loc) (Current.count data))
    as [s|] eqn:Hs; [|discriminate].
  destruct (py_lt OUTBREAK_THRESHOLD (score_z s)) eqn:Hz; [|discriminate].
  destruct (make_alert now loc data s) as [al|] eqn:Hal; [|discriminate].
  intros [= <-]. exists s. auto.
Qed.

Lemma binary64_make_alert_some (now : Z) (loc : string) (data : Current.t) (s : score)
  (a : alert) :
  make_alert now loc data s = Ok a ->
  location a = loc /\
  exists product,
    py_mul (score_z s) (PyInt 20) = Ok product /\
    py_round (py_min product (PyInt 100)) 1 = Ok (risk_score a).
Proof.
  unfold make_alert, risk_percentage_of, bind.
  destruct (py_mul (score_z s) (PyInt 20)) as [product|]; [|discriminate].
  destruct (py_round (py_min product (PyInt 100)) 1) as [risk|] eqn:Hr;
    [|discriminate].
  destruct (py_round (score_mean s) 2); [|discriminate].
  destruct (py_round (score_std_dev s) 2); [|discriminate].
  destruct (py_round (score_z s) 2); [|discriminate].
  intros [= <-]. simpl. split; [reflexivity|].
  exists product. split; [reflexivity | exact Hr].
Qed.

(** Daily counts 1, 401 and 801 against 1204 current reports: the mean is
    the [int] 401, the standard deviation the float 400.0 and the z-score the
    float nearest to 2.0075.  The exact product of that float with 20 lies
    just below 40.15, and so does its rounding to a float; the risk score is
    therefore the float nearest to 40.1, not 40.2. *)
Example sample_binary64_risk_score :
  exists s a,
    compute_score [1; 401; 801] 1204 = Ok s /\
    score_mean s = PyInt 401 /\
    make_alert 0 "Hostel A" (Current.mk 1204 [] []) s = Ok a /\
    int_truediv 401 10 = Ok (S754_finite false 5643573283048653 (-47)) /\
    risk_score a = PyFloat (S754_finite false 5643573283048653 (-47)) /\
    severity a = Low.
Proof.
  assert (Hs : exists s, compute_score [1; 401; 801] 1204 = Ok s /\
                         score_mean s = PyInt 401 /\
                         exists a,
                           make_alert 0 "Hostel A" (Current.mk 1204 [] []) s
                             = Ok a /\
                           risk_score a
                             = PyFloat
                                 (S754_finite false 5643573283048653 (-47)) /\
                           severity a = Low).
  { eexists. split; [vm_compute; reflexivity|].
    split; [reflexivity|].
    eexists. split; [vm_compute; reflexivity|].
    split; reflexivity. }
  destruct Hs as [s [Hs [Hm [a [Ha [Hr Hsev]]]]]].
  exists s, a.
  split; [exact Hs|]. split; [exact Hm|]. split; [exact Ha|].
  split; [vm_compute; reflexivity|]. split; assumption.
Qed.

End Binary64Facts.

Local Open Scope R_scope.

(* ====================================================================== *)
(** * Verified properties *)

(** C1 (as stated, refuted): a report stamped exactly [now] is returned by
    the current-window read and counted in the current aggregate, although
    its timestamp is not in [[now - 24h, now)]. *)
Lemma C1_counterexample_report_at_now_is_read :
  let now := 1770000000000000%Z in
  let r := Report.mk "Hostel A"%string now (Some ["fever"%string]) "u1"%string in
  In r (fetch_current_reports now [r]) /\
  ~ (now - timedelta_days 1 <= Report.created_at r < now)%Z /\
  Dict.get String.eqb "Hostel A"%string (group_current (fetch_current_reports now [r]))
    = Some (Current.mk 1 ["fever"%string] ["u1"%string]).
Proof.
  cbv zeta. split; [|split].
  - vm_compute. now left.
  - simpl. lia.
  - vm_compute. reflexivity.
Qed.

(** C1 (amended): in every invocation with current instant [now], the
    current-window read filters on the lower bound only.  It returns, in
    table order, exactly the reports with [now - 24h <= timestamp]: a report
    stamped exactly [now - 24h] is included, and no upper bound at [now] is
    applied. *)
Theorem C1_current_window_lower_bound_only :
  forall (now : Z) (table : list Report.t),
    detect_outbreaks now table =
      detect now (fetch_baseline_reports now table)
                 (fetch_current_reports now table) /\
    fetch_current_reports now table =
      filter (fun r => (now - 86400000000 <=? Report.created_at r)%Z) table /\
    (forall r, In r (fetch_current_reports now table) <->
               In r table /\ (now - 86400000000 <= Report.created_at r)%Z) /\
    (forall r, In r table -> Report.created_at r = (now - 86400000000)%Z ->
               In r (fetch_current_reports now table)) /\
    (forall r, In r table -> (now <= Report.created_at r)%Z ->
               In r (fetch_current_reports now table)).
Proof.
  intros now table.
  assert (Hin : forall r, In r (fetch_current_reports now table) <->
            In r table /\ (now - 86400000000 <= Report.created_at r)%Z).
  { intros r. unfold fetch_current_reports, gte_created_at.
    rewrite filter_In, Z.leb_le. reflexivity. }
  split; [reflexivity|]. split; [reflexivity|]. split; [exact Hin|].
  split; intros r Hr Ht; apply Hin; split; try assumption; lia.
Qed.

(** C2: for every location of the current aggregate the score is computed
    without error, an alert for it is returned if and only if its z-score is
    strictly greater than 2.0, and the severity of that alert is High exactly
    when z > 3.5, Medium exactly when 2.5 < z <= 3.5 and Low exactly when
    2.0 < z <= 2.5. *)
Theorem C2_alert_iff_above_threshold :
  forall (now : Z) (baseline_reports current_reports : list Report.t),
  exists alerts,
    detect now baseline_reports current_reports = Ok alerts /\
    forall (loc : string) (current_data : Current.t),
      Dict.get String.eqb loc (group_current current_reports)
        = Some current_data ->
      exists s,
        compute_score
          (daily_counts_of (group_baseline baseline_reports) loc)
          (Current.count current_data) = Ok s /\
        ((exists a, In a alerts /\ location a = loc) <-> 2 < score_z s) /\
        (score_z s <= 2 -> forall a, In a alerts -> location a <> loc) /\
        (forall a, In a alerts -> location a = loc ->
           (severity a = High <-> 3.5 < score_z s) /\
           (severity a = Medium <-> 2.5 < score_z s <= 3.5) /\
           (severity a = Low <-> 2 < score_z s <= 2.5)).
Proof.
  intros now b c. eexists. split; [apply detect_ok|].
  intros loc data Hget.
  set (s := score_of (daily_counts_of (group_baseline b) loc)
                     (Current.count data)).
  exists s. split; [apply compute_score_ok, daily_counts_of_length|].
  assert (Hinv : forall a,
            In a (alerts_of now (group_baseline b) (group_current c)) ->
            location a = loc ->
            2 < score_z s /\ a = make_alert now loc data s).
  { intros a Ha Hloc. apply detect_alert_iff in Ha.
    destruct Ha as [data' [Hget' Ha]]. rewrite Hloc in *.
    assert (data' = data) by congruence. subst data'.
    now apply alert_of_some in Ha. }
  split; [split|split].
  - intros [a [Ha Hloc]]. now apply Hinv in Ha.
  - intros Hz. exists (make_alert now loc data s). split; [|reflexivity].
    apply detect_alert_iff. exists data. split; [exact Hget|].
    apply alert_of_some. split; [exact Hz | reflexivity].
  - intros Hz a Ha Hloc. apply Hinv in Ha; [lra | exact Hloc].
  - intros a Ha Hloc. destruct (Hinv a Ha Hloc) as [Hz ->]. simpl.
    destruct (severity_of_spec (score_z s)) as [HH [HM HL]].
    repeat split; intros; try tauto; lra.
Qed.

(** C3: for a location whose baseline daily counts are [[2,2,2,2,2,2,2]] and
    whose current count is 10, the mean is 2, the sample standard deviation
    is 0 and is clamped to 1, the z-score is 8, and the loop body emits an
    alert with risk score 100 and severity High. *)
Theorem C3_constant_baseline_spike :
  forall (now : Z) (baseline_by_location : Dict.t string (Dict.t Z Z))
         (loc : string) (days : Dict.t Z Z) (current_data : Current.t),
    Dict.get String.eqb loc baseline_by_location = Some days ->
    Dict.values days = [2; 2; 2; 2; 2; 2; 2]%Z ->
    Current.count current_data = 10%Z ->
    statistics.mean (daily_counts_of baseline_by_location loc) = Ok 2 /\
    statistics.stdev (daily_counts_of baseline_by_location loc) = Ok 0 /\
    clamp_std_dev 0 = 1 /\
    compute_score (daily_counts_of baseline_by_location loc) 10
      = Ok (mk_score 2 1 8) /\
    exists a,
      score_location now baseline_by_location loc current_data = Ok (Some a) /\
      risk_score a = 100 /\
      severity a = High.
Proof.
  intros now B loc days data Hget Hvals Hcount.
  assert (Hdc : daily_counts_of B loc = [2; 2; 2; 2; 2; 2; 2]%Z).
  { unfold daily_counts_of, baseline_daily_counts.
    now rewrite Hget, Hvals. }
  assert (Hscore : score_of [2; 2; 2; 2; 2; 2; 2]%Z 10 = mk_score 2 1 8).
  { unfold score_of, z_score_of.
    rewrite mean_of_sevens_of_two, stdev_of_sevens_of_two, clamp_std_dev_0.
    f_equal. lra. }
  rewrite Hdc.
  split; [rewrite mean_ok by (simpl; lia); now rewrite mean_of_sevens_of_two|].
  split; [rewrite stdev_ok by (simpl; lia); now rewrite stdev_of_sevens_of_two|].
  split; [apply clamp_std_dev_0|].
  split; [rewrite compute_score_ok by (simpl; lia); now rewrite Hscore|].
  rewrite score_location_ok. unfold alert_of.
  rewrite Hdc, Hcount, Hscore. simpl score_z. unfold OUTBREAK_THRESHOLD.
  destruct (Rlt_dec 2 8) as [_|Hn]; [|lra].
  eexists. split; [reflexivity|]. simpl. split.
  - unfold risk_percentage_of. rewrite py_min_Rmin, Rmin_right by lra.
    apply (py_round_1_IZR 100).
  - apply severity_of_spec. lra.
Qed.

(** An instance of C3: Hostel A of the sample table, with two baseline
    reports on each of seven days and ten current reports. *)
Lemma C3_witness :
  let B := group_baseline (fetch_baseline_reports sample_now sample_table) in
  let days := [(20471, 2); (20472, 2); (20473, 2); (20474, 2);
               (20475, 2); (20476, 2); (20477, 2)]%Z in
  let current_data :=
    aggregate_of
      (reports_at "Hostel A"%string
         (fetch_current_reports sample_now sample_table)) in
  Dict.get String.eqb "Hostel A"%string B = Some days /\
  Dict.values days = [2; 2; 2; 2; 2; 2; 2]%Z /\
  Current.count current_data = 10%Z /\
  exists a,
    score_location sample_now B "Hostel A"%string current_data = Ok (Some a) /\
    risk_score a = 100 /\
    severity a = High.
Proof.
  cbv zeta.
  assert (H1 : Dict.get String.eqb "Hostel A"%string
                 (group_baseline (fetch_baseline_reports sample_now sample_table))
               = Some [(20471, 2); (20472, 2); (20473, 2); (20474, 2);
                       (20475, 2); (20476, 2); (20477, 2)]%Z)
    by (vm_compute; reflexivity).
  assert (H2 : Dict.values [(20471, 2); (20472, 2); (20473, 2); (20474, 2);
                            (20475, 2); (20476, 2); (20477, 2)]%Z
               = [2; 2; 2; 2; 2; 2; 2]%Z) by reflexivity.
  assert (H3 : Current.count
                 (aggregate_of
                    (reports_at "Hostel A"%string
                       (fetch_current_reports sample_now sample_table)))
               = 10%Z) by (vm_compute; reflexivity).
  split; [exact H1|]. split; [exact H2|]. split; [exact H3|].
  exact (proj2 (proj2 (proj2 (proj2
    (C3_constant_baseline_spike sample_now _ _ _ _ H1 H2 H3))))).
Defined.

(** C4: a location of the current window without baseline reports is scored
    against seven zero daily counts: the mean is 0, the standard deviation 0
    is clamped to 1, and the z-score equals the current count.  With a
    current count of 1 no alert is produced; with a current count of 3 an
    alert of severity Medium and risk score 60 is produced. *)
Theorem C4_no_baseline_history :
  forall (now : Z) (baseline_reports current_reports : list Report.t)
         (loc : string) (current_data : Current.t),
    ~ In loc (map Report.location baseline_reports) ->
    Dict.get String.eqb loc (group_current current_reports)
      = Some current_data ->
    let B := group_baseline baseline_reports in
    daily_counts_of B loc = [0; 0; 0; 0; 0; 0; 0]%Z /\
    statistics.mean (daily_counts_of B loc) = Ok 0 /\
    statistics.stdev (daily_counts_of B loc) = Ok 0 /\
    compute_score (daily_counts_of B loc) (Current.count current_data)
      = Ok (mk_score 0 1 (IZR (Current.count current_data))) /\
    (Current.count current_data = 1%Z ->
       score_location now B loc current_data = Ok None) /\
    (Current.count current_data = 3%Z ->
       exists a,
         score_location now B loc current_data = Ok (Some a) /\
         severity a = Medium /\
         risk_score a = 60).
Proof.
  intros now b c loc data Hnot Hget B.
  assert (Hdc : daily_counts_of B loc = [0; 0; 0; 0; 0; 0; 0]%Z).
  { unfold daily_counts_of, baseline_daily_counts. subst B.
    now rewrite group_baseline_get_none. }
  assert (Hscore : forall n, score_of [0; 0; 0; 0; 0; 0; 0]%Z n
                             = mk_score 0 1 (IZR n)).
  { intros n. unfold score_of, z_score_of.
    rewrite mean_of_seven_zeros, stdev_of_seven_zeros, clamp_std_dev_0.
    f_equal. lra. }
  rewrite Hdc.
  split; [reflexivity|].
  split; [rewrite mean_ok by (simpl; lia); now rewrite mean_of_seven_zeros|].
  split; [rewrite stdev_ok by (simpl; lia); now rewrite stdev_of_seven_zeros|].
  split; [rewrite compute_score_ok by (simpl; lia); now rewrite Hscore|].
  rewrite score_location_ok. unfold alert_of.
  rewrite Hdc, Hscore. simpl score_z. unfold OUTBREAK_THRESHOLD.
  split; intros Hcount; rewrite Hcount.
  - destruct (Rlt_dec 2 1) as [Hlt|_]; [lra | reflexivity].
  - destruct (Rlt_dec 2 3) as [_|Hn]; [|lra].
    eexists. split; [reflexivity|]. simpl. split.
    + apply severity_of_spec. lra.
    + unfold risk_percentage_of. rewrite py_min_Rmin, Rmin_left by lra.
      replace (3 * 20) with (IZR 60) by lra. apply py_round_1_IZR.
Qed.

(** An instance of C4: Hostel B of the sample table, with no baseline
    reports and three current reports. *)
Lemma C4_witness :
  let baseline_reports := fetch_baseline_reports sample_now sample_table in
  let current_reports := fetch_current_reports sample_now sample_table in
  let current_data :=
    aggregate_of (reports_at "Hostel B"%string current_reports) in
  ~ In "Hostel B"%string (map Report.location baseline_reports) /\
  Dict.get String.eqb "Hostel B"%string (group_current current_reports)
    = Some current_data /\
  Current.count current_data = 3%Z /\
  exists a,
    score_location sample_now (group_baseline baseline_reports)
                   "Hostel B"%string current_data = Ok (Some a) /\
    severity a = Medium /\
    risk_score a = 60.
Proof.
  cbv zeta.
  assert (H1 : ~ In "Hostel B"%string
                 (map Report.location
                    (fetch_baseline_reports sample_now sample_table))).
  { vm_compute. intros H.
    repeat (destruct H as [H|H]; [discriminate H|]). exact H. }
  assert (H2 : Dict.get String.eqb "Hostel B"%string
                 (group_current (fetch_current_reports sample_now sample_table))
               = Some (aggregate_of
                         (reports_at "Hostel B"%string
                            (fetch_current_reports sample_now sample_table))))
    by (vm_compute; reflexivity).
  assert (H3 : Current.count
                 (aggregate_of
                    (reports_at "Hostel B"%string
                       (fetch_current_reports sample_now sample_table)))
               = 3%Z) by (vm_compute; reflexivity).
  split; [exact H1|]. split; [exact H2|]. split; [exact H3|].
  exact (proj2 (proj2 (proj2 (proj2 (proj2
    (C4_no_baseline_history sample_now _ _ _ _ H1 H2))))) H3).
Defined.

(** C5: with the baseline daily counts of a location fixed, a strictly
    larger current count gives a strictly larger z-score; and whenever the
    smaller count raises an alert, so does the larger one, with a risk score
    and a severity tier (Low < Medium < High) that are not lower. *)
Theorem C5_monotone_in_current_count :
  forall (now : Z) (baseline_by_location : Dict.t string (Dict.t Z Z))
         (loc : string) (d1 d2 : Current.t),
    (Current.count d1 < Current.count d2)%Z ->
    exists s1 s2,
      compute_score (daily_counts_of baseline_by_location loc)
                    (Current.count d1) = Ok s1 /\
      compute_score (daily_counts_of baseline_by_location loc)
                    (Current.count d2) = Ok s2 /\
      score_mean s1 = score_mean s2 /\
      score_std_dev s1 = score_std_dev s2 /\
      score_z s1 < score_z s2 /\
      py_round (risk_percentage_of (score_z s1)) 1
        <= py_round (risk_percentage_of (score_z s2)) 1 /\
      (severity_rank (severity_of (score_z s1))
         <= severity_rank (severity_of (score_z s2)))%nat /\
      forall a1,
        score_location now baseline_by_location loc d1 = Ok (Some a1) ->
        exists a2,
          score_location now baseline_by_location loc d2 = Ok (Some a2) /\
          z_score (_debug a1) <= z_score (_debug a2) /\
          risk_score a1 <= risk_score a2 /\
          (severity_rank (severity a1) <= severity_rank (severity a2))%nat.
Proof.
  intros now B loc d1 d2 Hlt.
  pose proof (daily_counts_of_length B loc) as Hlen.
  unfold score_location.
  remember (daily_counts_of B loc) as data eqn:Hdata. clear Hdata.
  exists (score_of data (Current.count d1)), (score_of data (Current.count d2)).
  rewrite !compute_score_ok by assumption.
  assert (Hz : z_score_of data (Current.count d1)
               < z_score_of data (Current.count d2)).
  { unfold z_score_of.
    pose proof (clamp_std_dev_pos _ (stdev_of_nonneg data)) as Hsd.
    apply IZR_lt in Hlt.
    apply Rmult_lt_compat_r; [now apply Rinv_0_lt_compat | lra]. }
  assert (Hrisk : py_round (risk_percentage_of (z_score_of data (Current.count d1))) 1
                  <= py_round (risk_percentage_of (z_score_of data (Current.count d2))) 1).
  { apply py_round_1_mono. unfold risk_percentage_of.
    rewrite !py_min_Rmin. apply Rle_min_compat_r. lra. }
  assert (Hsev : (severity_rank (severity_of (z_score_of data (Current.count d1)))
                  <= severity_rank (severity_of (z_score_of data (Current.count d2))))%nat)
    by (apply severity_of_mono; lra).
  simpl. do 7 (split; [first [reflexivity | assumption]|]).
  intros a1 Ha1. unfold OUTBREAK_THRESHOLD in *.
  destruct (Rlt_dec 2 (z_score_of data (Current.count d1))) as [Hz1|];
    [|discriminate].
  injection Ha1 as <-.
  exists (make_alert now loc d2 (score_of data (Current.count d2))).
  split.
  - destruct (Rlt_dec 2 (z_score_of data (Current.count d2)));
      [reflexivity | lra].
  - simpl. split; [|split; assumption].
    unfold py_round.
    assert (Hm : (round_half_even (z_score_of data (Current.count d1) * 10 ^ 2)
                  <= round_half_even (z_score_of data (Current.count d2) * 10 ^ 2))%Z)
      by (apply round_half_even_mono; simpl pow; lra).
    apply IZR_le in Hm. simpl pow in *. lra.
Qed.

(** An instance of C5: no baseline history, counts 3 and 4. *)
Lemma C5_witness :
  (Current.count (Current.mk 3 [] []) < Current.count (Current.mk 4 [] []))%Z /\
  exists s1 s2,
    compute_score (daily_counts_of [] "Hostel A"%string) 3 = Ok s1 /\
    compute_score (daily_counts_of [] "Hostel A"%string) 4 = Ok s2 /\
    score_z s1 < score_z s2.
Proof.
  split; [simpl; lia|].
  destruct (C5_monotone_in_current_count 0 [] "Hostel A"%string
              (Current.mk 3 [] []) (Current.mk 4 [] []))
    as [s1 [s2 [H1 [H2 [_ [_ [Hz _]]]]]]]; [simpl; lia|].
  exists s1, s2. auto.
Defined.

(** C6: the z-score computation never divides by zero.  A daily-count
    sequence with fewer than two entries is replaced by [[0; 0]] before the
    statistics are computed, so [statistics.mean] and [statistics.stdev]
    return; a standard deviation of 0 is replaced by 1, so the divisor of the
    z-score is nonzero and the division returns; hence the score of every
    location is defined and [detect_outbreaks] raises nothing. *)
Theorem C6_z_score_always_defined :
  (forall (baseline_by_location : Dict.t string (Dict.t Z Z))
          (location : string) (current_count : Z),
     let raw := baseline_daily_counts baseline_by_location location in
     let daily_counts := daily_counts_of baseline_by_location location in
     ((List.length raw < 2)%nat -> daily_counts = [0; 0]%Z) /\
     ((2 <= List.length raw)%nat -> daily_counts = raw) /\
     exists mean std_dev : R,
       statistics.mean daily_counts = Ok mean /\
       statistics.stdev daily_counts = Ok std_dev /\
       (std_dev = 0 -> clamp_std_dev std_dev = 1) /\
       (std_dev <> 0 -> clamp_std_dev std_dev = std_dev) /\
       clamp_std_dev std_dev <> 0 /\
       py_truediv (IZR current_count - mean) (clamp_std_dev std_dev) =
         Ok ((IZR current_count - mean) / clamp_std_dev std_dev) /\
       compute_score daily_counts current_count =
         Ok (mk_score mean (clamp_std_dev std_dev)
               ((IZR current_count - mean) / clamp_std_dev std_dev))) /\
  (forall (now : Z) (table : list Report.t),
     exists alerts, detect_outbreaks now table = Ok alerts).
Proof.
  split.
  - intros B location c raw daily_counts.
    assert (Hlen : (2 <= List.length daily_counts)%nat)
      by apply daily_counts_of_length.
    split; [|split].
    + intros H. subst daily_counts. unfold daily_counts_of. fold raw.
      destruct (Nat.ltb_spec (List.length raw) 2); [reflexivity | lia].
    + intros H. subst daily_counts. unfold daily_counts_of. fold raw.
      destruct (Nat.ltb_spec (List.length raw) 2); [lia | reflexivity].
    + exists (mean_of daily_counts), (stdev_of daily_counts).
      pose proof (clamp_std_dev_cases (stdev_of daily_counts)) as Hc.
      pose proof (clamp_std_dev_nonzero (stdev_of daily_counts)) as Hnz.
      repeat split.
      * apply mean_ok. lia.
      * now apply stdev_ok.
      * intros H0. destruct Hc as [[_ H]|[H _]]; [exact H | contradiction].
      * intros H0. destruct Hc as [[H _]|[_ H]]; [contradiction | exact H].
      * exact Hnz.
      * now apply py_truediv_ok.
      * now rewrite compute_score_ok.
  - intros now table. unfold detect_outbreaks. rewrite detect_ok. eauto.
Qed.



(** C8: [common_symptoms] of every returned alert is the first three entries
    of the ranking of the distinct symptoms reported at the alert's location
    in the current window, most frequent first and, among equally frequent
    symptoms, the one seen first in the symptom sequence first.  It has at
    most three entries, and it is empty, with no error, when the location
    has no symptoms. *)
Theorem C8_top_symptoms_ranking :
  forall (now : Z) (baseline_reports current_reports : list Report.t),
  exists alerts,
    detect now baseline_reports current_reports = Ok alerts /\
    forall a, In a alerts ->
      let symptoms :=
        flat_map report_symptoms
          (filter (fun r => String.eqb (Report.location r) (location a))
                  current_reports) in
      exists ranked : list string,
        NoDup ranked /\
        (forall s, In s ranked <-> In s symptoms) /\
        StronglySorted (symptom_ranks_before symptoms) ranked /\
        common_symptoms a = firstn 3 ranked /\
        (List.length (common_symptoms a) <= 3)%nat /\
        (symptoms = [] -> common_symptoms a = []).
Proof.
  intros now b c. eexists. split; [apply detect_ok|].
  intros a Ha symptoms.
  apply detect_alert_iff in Ha. destruct Ha as [data [Hget Ha]].
  apply group_current_get_some in Hget. destruct Hget as [_ Hdata].
  apply alert_of_some in Ha. destruct Ha as [_ Ha].
  assert (Htop : common_symptoms a = firstn 3 (ranked_symptoms symptoms)).
  { rewrite Ha at 1. simpl. rewrite Hdata. simpl.
    apply top_symptoms_of_ranked. }
  exists (ranked_symptoms symptoms).
  pose proof (ranked_symptoms_perm symptoms) as Hperm.
  split; [|split; [|split; [|split; [|split]]]].
  - apply (Permutation_NoDup (Permutation_sym Hperm)), first_seen_NoDup.
  - intros s. rewrite <- (first_seen_In symptoms s). split; apply Permutation_in;
      [exact Hperm | exact (Permutation_sym Hperm)].
  - apply ranked_symptoms_sorted.
  - exact Htop.
  - rewrite Htop. apply firstn_le_length.
  - intros Hnil. rewrite Htop, Hnil. reflexivity.
Qed.

(** C9: [affected_students] of every returned alert is the number of
    distinct subject ids among the current-window reports of the alert's
    location, and it is at most the number of those reports, which is the
    location's current count. *)
Theorem C9_affected_subjects_distinct :
  forall (now : Z) (baseline_reports current_reports : list Report.t),
  exists alerts,
    detect now baseline_reports current_reports = Ok alerts /\
    forall a, In a alerts ->
      let reports_here :=
        filter (fun r => String.eqb (Report.location r) (location a))
               current_reports in
      exists ids : list string,
        NoDup ids /\
        (forall u, In u ids <->
           exists r, In r current_reports /\
                     Report.location r = location a /\
                     Report.user_id r = u) /\
        affected_students a = List.length ids /\
        current_count (_debug a) = Z.of_nat (List.length reports_here) /\
        (affected_students a <= List.length reports_here)%nat.
Proof.
  intros now b c. eexists. split; [apply detect_ok|].
  intros a Ha reports_here.
  apply detect_alert_iff in Ha. destruct Ha as [data [Hget Ha]].
  apply group_current_get_some in Hget. destruct Hget as [_ Hdata].
  apply alert_of_some in Ha. destruct Ha as [_ Ha].
  fold (reports_at (location a) c) in reports_here.
  assert (Haff : affected_students a
                 = List.length (nodup string_dec (map Report.user_id reports_here))).
  { rewrite Ha at 1. simpl. now rewrite Hdata. }
  assert (Hcnt : current_count (_debug a) = Z.of_nat (List.length reports_here)).
  { rewrite Ha at 1. simpl. now rewrite Hdata. }
  exists (nodup string_dec (map Report.user_id reports_here)).
  split; [apply NoDup_nodup|]. split; [|split; [exact Haff|split; [exact Hcnt|]]].
  - intros u. rewrite nodup_In, in_map_iff. subst reports_here.
    unfold reports_at. split.
    + intros [r [Hu Hr]]. apply filter_In in Hr. destruct Hr as [Hr Hl].
      apply String.eqb_eq in Hl. eauto.
    + intros [r [Hr [Hl Hu]]]. exists r. split; [assumption|].
      apply filter_In. split; [assumption | now apply String.eqb_eq].
  - rewrite Haff. rewrite <- (length_map Report.user_id reports_here).
    apply NoDup_incl_length; [apply NoDup_nodup|].
    intros u Hu. now apply nodup_In in Hu.
Qed.

(** C10: the returned alerts are ordered by the position at which their
    locations first appear in the current-window report sequence (the
    iteration order of the per-location aggregate, restricted to the
    locations that clear the threshold); the order is a function of the two
    report sequences alone. *)
Theorem C10_alerts_in_first_seen_order :
  forall (now : Z) (baseline_reports current_reports : list Report.t),
  exists alerts,
    detect now baseline_reports current_reports = Ok alerts /\
    Dict.keys (group_current current_reports)
      = first_seen (map Report.location current_reports) /\
    (exists keep : string -> bool,
       map location alerts
         = filter keep (Dict.keys (group_current current_reports))) /\
    StronglySorted
      (fun a a' =>
         (first_index (location a) (map Report.location current_reports)
          < first_index (location a') (map Report.location current_reports))%nat)
      alerts /\
    (forall a, In a alerts ->
       In (location a) (map Report.location current_reports)) /\
    (forall now', exists alerts',
       detect now' baseline_reports current_reports = Ok alerts' /\
       map location alerts' = map location alerts).
Proof.
  intros now b c. eexists. split; [apply detect_ok|].
  pose proof (detect_locations now b c) as Hloc.
  split; [apply group_current_keys|]. split; [|split; [|split]].
  - rewrite group_current_keys. eexists. exact Hloc.
  - apply StronglySorted_map_inv with (f := location)
      (R := fun x y => (first_index x (map Report.location c)
                        < first_index y (map Report.location c))%nat).
    rewrite Hloc. apply StronglySorted_filter, first_seen_sorted.
  - intros a Ha. apply (in_map location) in Ha. rewrite Hloc in Ha.
    apply filter_In in Ha. destruct Ha as [Ha _].
    now rewrite first_seen_In in Ha.
  - intros now'. eexists. split; [apply detect_ok|].
    now rewrite !detect_locations.
Qed.

(* ====================================================================== *)
(** * Further facts: counting by key *)

Local Open Scope Z_scope.

Section DictSum.
Context {K V : Type}.
Variable eqb : K -> K -> bool.
Hypothesis eqb_spec : forall x y, reflect (x = y) (eqb x y).
Variable weight : V -> Z.

Lemma total_weight_set (k : K) (v : V) (d : Dict.t K V) :
  total_weight weight (Dict.set eqb k v d) =
  total_weight weight d + weight v
  - match Dict.get eqb k d with Some w => weight w | None => 0 end.
Proof.
  unfold total_weight.
  induction d as [|[k' v'] d IH]; simpl.
  - lia.
  - destruct (eqb_spec k k') as [->|Hne]; simpl; [lia|].
    rewrite IH. lia.
Qed.
End DictSum.

Section TallyFacts.
Context {K : Type}.
Variable eqb : K -> K -> bool.
Hypothesis eqb_spec : forall x y, reflect (x = y) (eqb x y).

Lemma existsb_eqb_In_gen (x : K) (l : list K) :
  existsb (eqb x) l = true <-> In x l.
Proof.
  rewrite existsb_exists. split.
  - intros [y [Hin E]]. destruct (eqb_spec x y); [now subst | discriminate].
  - intros H. exists x. split; [assumption|].
    destruct (eqb_spec x x); congruence.
Qed.

Lemma distinct_snoc (l : list K) (x : K) :
  distinct eqb (l ++ [x]) =
  if existsb (eqb x) (distinct eqb l) then distinct eqb l
  else distinct eqb l ++ [x].
Proof. unfold distinct. now rewrite fold_left_app. Qed.

Lemma distinct_In (l : list K) (x : K) :
  In x (distinct eqb l) <-> In x l.
Proof.
  revert x. induction l as [|y l IH] using rev_ind; intros x.
  - reflexivity.
  - rewrite distinct_snoc, in_app_iff. simpl.
    destruct (existsb (eqb y) (distinct eqb l)) eqn:E.
    + rewrite existsb_eqb_In_gen, IH in E. rewrite IH.
      split; [tauto|]. intros [H|[<-|[]]]; assumption.
    + rewrite in_app_iff, IH. simpl. tauto.
Qed.

Lemma distinct_NoDup (l : list K) : NoDup (distinct eqb l).
Proof.
  induction l as [|y l IH] using rev_ind.
  - constructor.
  - rewrite distinct_snoc.
    destruct (existsb (eqb y) (distinct eqb l)) eqn:E; [assumption|].
    apply NoDup_app; [assumption | repeat constructor; simpl; tauto |].
    intros a Ha [<-|[]].
    apply existsb_eqb_In_gen in Ha. congruence.
Qed.

Lemma occurrences_snoc (l : list K) (x y : K) :
  occurrences eqb (l ++ [x]) y =
  occurrences eqb l y + (if eqb y x then 1 else 0).
Proof.
  unfold occurrences. rewrite filter_app, length_app. simpl.
  destruct (eqb y x); simpl; lia.
Qed.

Lemma occurrences_not_in (l : list K) (x : K) :
  ~ In x l -> occurrences eqb l x = 0.
Proof.
  intros H. unfold occurrences.
  replace (filter (eqb x) l) with (@nil K); [reflexivity|].
  symmetry. induction l as [|y l IH]; simpl; [reflexivity|].
  destruct (eqb_spec x y) as [->|Hne].
  - exfalso. apply H. now left.
  - apply IH. intros Hin. apply H. now right.
Qed.

Lemma occurrences_in (l : list K) (x : K) :
  In x l -> 1 <= occurrences eqb l x.
Proof.
  intros H. unfold occurrences.
  assert (Hx : In x (filter (eqb x) l)).
  { apply filter_In. split; [assumption|]. destruct (eqb_spec x x); congruence. }
  destruct (filter (eqb x) l); [contradiction | simpl; lia].
Qed.

Lemma tally_snoc (l : list K) (x : K) :
  tally eqb (l ++ [x]) = tally_step eqb (tally eqb l) x.
Proof. unfold tally. now rewrite fold_left_app. Qed.

Lemma dict_set_table (g g' : K -> Z) (x : K) (ks : list K) :
  NoDup ks ->
  (forall s, s <> x -> g' s = g s) ->
  Dict.set eqb x (g' x) (map (fun s => (s, g s)) ks) =
  map (fun s => (s, g' s)) (if existsb (eqb x) ks then ks else ks ++ [x]).
Proof.
  intros Hnd Hg. induction Hnd as [|k ks Hk Hnd IH]; simpl; [reflexivity|].
  destruct (eqb_spec x k) as [->|Hne]; simpl.
  - f_equal. apply map_ext_in. intros s Hs.
    rewrite Hg; [reflexivity | congruence].
  - rewrite IH.
    destruct (existsb (eqb x) ks); simpl;
      rewrite (Hg k) by congruence; reflexivity.
Qed.

Lemma dict_get_table (g : K -> Z) (x : K) (ks : list K) :
  Dict.get eqb x (map (fun s => (s, g s)) ks) =
  if existsb (eqb x) ks then Some (g x) else None.
Proof.
  induction ks as [|k ks IH]; simpl; [reflexivity|].
  destruct (eqb_spec x k) as [->|Hne]; simpl; [reflexivity | exact IH].
Qed.

(** The counters after the loop: every distinct element once, in first-seen
    order, with its number of occurrences. *)
Lemma tally_spec (l : list K) :
  tally eqb l = map (fun x => (x, occurrences eqb l x)) (distinct eqb l).
Proof.
  induction l as [|x l IH] using rev_ind; [reflexivity|].
  rewrite tally_snoc, IH, distinct_snoc. unfold tally_step.
  assert (Hget : Dict.get_default eqb x 0
                   (map (fun y => (y, occurrences eqb l y)) (distinct eqb l))
                 = occurrences eqb l x).
  { unfold Dict.get_default. rewrite dict_get_table.
    destruct (existsb (eqb x) (distinct eqb l)) eqn:E; [reflexivity|].
    symmetry. apply occurrences_not_in. intros Hin.
    rewrite <- distinct_In, <- existsb_eqb_In_gen in Hin. congruence. }
  rewrite Hget.
  replace (occurrences eqb l x + 1) with (occurrences eqb (l ++ [x]) x).
  - apply dict_set_table; [apply distinct_NoDup|].
    intros s Hs. rewrite occurrences_snoc.
    destruct (eqb_spec s x); [congruence | lia].
  - rewrite occurrences_snoc. destruct (eqb_spec x x); [reflexivity | congruence].
Qed.

Lemma tally_keys (l : list K) : Dict.keys (tally eqb l) = distinct eqb l.
Proof.
  rewrite tally_spec. unfold Dict.keys. rewrite map_map. simpl. apply map_id.
Qed.

Lemma tally_values (l : list K) :
  Dict.values (tally eqb l) = map (occurrences eqb l) (distinct eqb l).
Proof.
  rewrite tally_spec. unfold Dict.values. now rewrite map_map.
Qed.

Lemma tally_get (l : list K) (x : K) :
  Dict.get eqb x (tally eqb l) =
  if existsb (eqb x) l then Some (occurrences eqb l x) else None.
Proof.
  rewrite tally_spec, dict_get_table.
  destruct (existsb (eqb x) (distinct eqb l)) eqn:E;
    destruct (existsb (eqb x) l) eqn:E'; try reflexivity.
  - rewrite existsb_eqb_In_gen, distinct_In, <- existsb_eqb_In_gen in E.
    congruence.
  - rewrite existsb_eqb_In_gen, <- distinct_In, <- existsb_eqb_In_gen in E'.
    congruence.
Qed.

(** The counters add up to the number of elements counted. *)
Lemma tally_total (l : list K) :
  sum_Z (Dict.values (tally eqb l)) = Z.of_nat (List.length l).
Proof.
  induction l as [|x l IH] using rev_ind; [reflexivity|].
  rewrite tally_snoc, length_app. simpl. unfold tally_step.
  pose proof (total_weight_set eqb eqb_spec (fun z => z) x
                (Dict.get_default eqb x 0 (tally eqb l) + 1) (tally eqb l)) as H.
  unfold total_weight in H. rewrite !map_id in H. rewrite H, IH.
  unfold Dict.get_default. destruct (Dict.get eqb x (tally eqb l)); lia.
Qed.

Lemma tally_values_pos (l : list K) :
  Forall (fun n => 1 <= n) (Dict.values (tally eqb l)).
Proof.
  rewrite tally_values. apply Forall_forall. intros n Hn.
  apply in_map_iff in Hn. destruct Hn as [x [<- Hx]].
  apply occurrences_in. now apply distinct_In.
Qed.
End TallyFacts.

(* ====================================================================== *)
(** * Further facts: the grouping of the baseline reports *)

Lemma day_counter_eq (days : Dict.t Z Z) (report_date : Z) :
  (let days1 :=
     if Dict.mem Z.eqb report_date days then days
     else Dict.set Z.eqb report_date 0 days in
   Dict.set Z.eqb report_date
     (Dict.get_default Z.eqb report_date 0 days1 + 1) days1)
  = tally_step Z.eqb days report_date.
Proof.
  cbv zeta. unfold tally_step, Dict.mem, Dict.get_default.
  destruct (Dict.get Z.eqb report_date days) as [n|] eqn:E.
  - now rewrite E.
  - rewrite (dict_get_set_same _ Z.eqb_spec).
    now rewrite (dict_set_set _ Z.eqb_spec).
Qed.

Lemma baseline_step_eq (B : Dict.t string (Dict.t Z Z)) (r : Report.t) :
  baseline_step B r =
  Dict.set String.eqb (Report.location r)
    (tally_step Z.eqb
       (Dict.get_default String.eqb (Report.location r) Dict.empty B)
       (report_date r)) B.
Proof.
  unfold baseline_step. fold (report_date r).
  rewrite (day_counter_eq _ (report_date r)).
  unfold Dict.mem, Dict.get_default.
  destruct (Dict.get String.eqb (Report.location r) B) as [days|] eqn:E.
  - now rewrite E.
  - rewrite (dict_get_set_same _ String.eqb_spec).
    now rewrite (dict_set_set _ String.eqb_spec).
Qed.

Lemma group_baseline_snoc (l : list Report.t) (r : Report.t) :
  group_baseline (l ++ [r]) = baseline_step (group_baseline l) r.
Proof. unfold group_baseline. now rewrite fold_left_app. Qed.

(** What [baseline_by_location] holds for a location: the per-day counters
    of that location's reports. *)
Lemma group_baseline_get (l : list Report.t) (loc : string) :
  Dict.get String.eqb loc (group_baseline l) =
  match reports_at loc l with
  | [] => None
  | rs => Some (tally Z.eqb (map report_date rs))
  end.
Proof.
  induction l as [|r l IH] using rev_ind; [reflexivity|].
  rewrite group_baseline_snoc, baseline_step_eq, reports_at_snoc.
  destruct (String.eqb_spec (Report.location r) loc) as [E|Hne].
  - subst loc. rewrite (dict_get_set_same _ String.eqb_spec).
    assert (Hd : Dict.get_default String.eqb (Report.location r) Dict.empty
                   (group_baseline l)
                 = tally Z.eqb (map report_date (reports_at (Report.location r) l))).
    { unfold Dict.get_default. rewrite IH.
      destruct (reports_at (Report.location r) l); reflexivity. }
    rewrite Hd, <- tally_snoc.
    change [report_date r] with (map report_date [r]). rewrite <- map_app.
    destruct (reports_at (Report.location r) l); reflexivity.
  - rewrite (dict_get_set_other _ String.eqb_spec) by congruence.
    now rewrite app_nil_r.
Qed.

Lemma occurrences_report_date (rs : list Report.t) (d : Z) :
  occurrences Z.eqb (map report_date rs) d =
  Z.of_nat (List.length (filter (fun r => Z.eqb d (report_date r)) rs)).
Proof.
  unfold occurrences. f_equal.
  induction rs as [|r rs IH]; simpl; [reflexivity|].
  destruct (Z.eqb d (report_date r)); simpl; now rewrite IH.
Qed.

Lemma baseline_daily_counts_eq (b : list Report.t) (loc : string) :
  baseline_daily_counts (group_baseline b) loc =
  match reports_at loc b with
  | [] => [0; 0; 0; 0; 0; 0; 0]
  | rs => map (occurrences Z.eqb (map report_date rs))
              (distinct Z.eqb (map report_date rs))
  end.
Proof.
  unfold baseline_daily_counts. rewrite group_baseline_get.
  destruct (reports_at loc b) as [|r rs]; [reflexivity|].
  apply (tally_values _ Z.eqb_spec).
Qed.

Lemma baseline_daily_counts_nonempty (b : list Report.t) (loc : string) :
  reports_at loc b <> [] ->
  baseline_daily_counts (group_baseline b) loc =
  map (occurrences Z.eqb (map report_date (reports_at loc b)))
      (distinct Z.eqb (map report_date (reports_at loc b))).
Proof.
  intros H. rewrite baseline_daily_counts_eq.
  destruct (reports_at loc b); [congruence | reflexivity].
Qed.

(** A duplicate-free list of integers inside a range of [n] consecutive
    values has at most [n] elements. *)
Lemma NoDup_range_length (lo : Z) (n : nat) (l : list Z) :
  NoDup l -> (forall x, In x l -> lo <= x < lo + Z.of_nat n) ->
  (List.length l <= n)%nat.
Proof.
  intros Hnd Hin.
  assert (Hlen : List.length (map (fun i => lo + Z.of_nat i) (seq 0 n)) = n)
    by (rewrite length_map; apply length_seq).
  apply Nat.le_trans
    with (List.length (map (fun i => lo + Z.of_nat i) (seq 0 n))); [|lia].
  apply NoDup_incl_length; [assumption|].
  intros x Hx. apply Hin in Hx. apply in_map_iff.
  exists (Z.to_nat (x - lo)). split; [lia|]. apply in_seq. lia.
Qed.

Lemma fetch_baseline_reports_In (now : Z) (table : list Report.t) (r : Report.t) :
  In r (fetch_baseline_reports now table) <->
  In r table /\
  now - 14 * usec_per_day <= Report.created_at r < now - 7 * usec_per_day.
Proof.
  unfold fetch_baseline_reports, lt_created_at, gte_created_at, timedelta_days.
  rewrite !filter_In, Z.leb_le, Z.ltb_lt. tauto.
Qed.

Lemma fetch_current_reports_In (now : Z) (table : list Report.t) (r : Report.t) :
  In r (fetch_current_reports now table) <->
  In r table /\ now - 86400000000 <= Report.created_at r.
Proof.
  unfold fetch_current_reports, gte_created_at.
  rewrite filter_In, Z.leb_le. reflexivity.
Qed.

Lemma baseline_date_range (now : Z) (table : list Report.t) (r : Report.t) :
  In r (fetch_baseline_reports now table) ->
  date_of (now - 14 * usec_per_day) <= report_date r
    < date_of (now - 14 * usec_per_day) + 8.
Proof.
  intros H. apply fetch_baseline_reports_In in H. destruct H as [_ [Hlo Hhi]].
  unfold report_date, date_of, usec_per_day in *.
  split.
  - apply Z.div_le_mono; lia.
  - assert (Report.created_at r / 86400000000
            <= (now - 14 * 86400000000 + 7 * 86400000000) / 86400000000)
      by (apply Z.div_le_mono; lia).
    rewrite Z.div_add in H by lia. lia.
Qed.

Lemma mean_of_two_zeros : mean_of [0; 0] = 0%R.
Proof. unfold mean_of. rewrite INR_IZR_INZ. simpl. lra. Qed.

Lemma stdev_of_two_zeros : stdev_of [0; 0] = 0%R.
Proof.
  unfold stdev_of. rewrite mean_of_two_zeros, INR_IZR_INZ. simpl.
  match goal with |- sqrt ?x = _ => replace x with 0%R by lra end.
  apply sqrt_0.
Qed.

Lemma filter_Permutation {A : Type} (f : A -> bool) (l l' : list A) :
  Permutation l l' -> Permutation (filter f l) (filter f l').
Proof.
  induction 1 as [|x l l' H IH|x y l|l l' l'' H1 IH1 H2 IH2]; simpl.
  - constructor.
  - destruct (f x); [now constructor | assumption].
  - destruct (f x), (f y); try reflexivity. apply perm_swap.
  - now transitivity (filter f l').
Qed.

Lemma sum_Z_Permutation (l l' : list Z) :
  Permutation l l' -> sum_Z l = sum_Z l'.
Proof.
  induction 1 as [|x l l' H IH|x y l|l l' l'' H1 IH1 H2 IH2]; simpl; lia.
Qed.

Lemma ss_Permutation (c : R) (l l' : list Z) :
  Permutation l l' -> statistics.ss c l = statistics.ss c l'.
Proof.
  unfold statistics.ss.
  induction 1 as [|x l l' H IH|x y l|l l' l'' H1 IH1 H2 IH2]; simpl.
  - reflexivity.
  - now rewrite IH.
  - lra.
  - congruence.
Qed.

(** Mean and standard deviation do not depend on the order of the data. *)
Lemma score_of_Permutation (l l' : list Z) (c : Z) :
  Permutation l l' -> score_of l c = score_of l' c.
Proof.
  intros H.
  assert (Hm : mean_of l = mean_of l').
  { unfold mean_of.
    now rewrite (sum_Z_Permutation _ _ H), (Permutation_length H). }
  assert (Hs : stdev_of l = stdev_of l').
  { unfold stdev_of.
    now rewrite Hm, (ss_Permutation _ _ _ H), (Permutation_length H). }
  unfold score_of, z_score_of. now rewrite Hm, Hs.
Qed.

Lemma occurrences_Permutation (l l' : list Z) (x : Z) :
  Permutation l l' -> occurrences Z.eqb l x = occurrences Z.eqb l' x.
Proof.
  intros H. unfold occurrences.
  now rewrite (Permutation_length (filter_Permutation (Z.eqb x) _ _ H)).
Qed.

Lemma tally_values_Permutation (l l' : list Z) :
  Permutation l l' ->
  Permutation (map (occurrences Z.eqb l) (distinct Z.eqb l))
              (map (occurrences Z.eqb l') (distinct Z.eqb l')).
Proof.
  intros H.
  rewrite (map_ext _ (occurrences Z.eqb l'))
    by (intros x; now apply occurrences_Permutation).
  apply Permutation_map.
  apply NoDup_Permutation; try apply (distinct_NoDup _ Z.eqb_spec).
  intros x. rewrite !(distinct_In _ Z.eqb_spec).
  split; apply Permutation_in; [assumption | now apply Permutation_sym].
Qed.

Lemma daily_counts_of_Permutation (b b' : list Report.t) (loc : string) :
  Permutation b b' ->
  Permutation (daily_counts_of (group_baseline b) loc)
              (daily_counts_of (group_baseline b') loc).
Proof.
  intros H.
  assert (Hraw : Permutation (baseline_daily_counts (group_baseline b) loc)
                             (baseline_daily_counts (group_baseline b') loc)).
  { rewrite !baseline_daily_counts_eq.
    pose proof (filter_Permutation
                  (fun r => String.eqb (Report.location r) loc) _ _ H) as Hf.
    fold (reports_at loc b) in Hf. fold (reports_at loc b') in Hf.
    destruct (reports_at loc b) as [|r rs] eqn:E;
      destruct (reports_at loc b') as [|r' rs'] eqn:E'.
    - reflexivity.
    - apply Permutation_length in Hf. discriminate.
    - apply Permutation_length in Hf. discriminate.
    - apply tally_values_Permutation. now apply Permutation_map. }
  unfold daily_counts_of. rewrite (Permutation_length Hraw).
  destruct (_ <? 2)%nat; [reflexivity | assumption].
Qed.

Lemma filter_andb {A : Type} (f g : A -> bool) (l : list A) :
  filter g (filter f l) = filter (fun x => f x && g x) l.
Proof.
  induction l as [|x l IH]; simpl; [reflexivity|].
  destruct (f x); simpl; [|exact IH].
  destruct (g x); now rewrite IH.
Qed.

Lemma sum_Z_constant (k : Z) (l : list Z) :
  Forall (eq k) l -> sum_Z l = k * Z.of_nat (List.length l).
Proof.
  induction 1 as [|x l Hx Hl IH]; simpl sum_Z; simpl List.length; [lia|].
  subst x. rewrite IH. lia.
Qed.

Lemma ss_constant (k : Z) (l : list Z) :
  Forall (eq k) l -> statistics.ss (IZR k) l = 0%R.
Proof.
  unfold statistics.ss.
  induction 1 as [|x l Hx Hl IH]; simpl; [reflexivity|].
  subst x. rewrite IH. lra.
Qed.

(** Against daily counts that are all equal to [k], the mean is [k], the
    standard deviation is 0 and is clamped to 1, and the z-score is the
    excess of the current count over [k]. *)
Lemma score_of_constant (k : Z) (l : list Z) (c : Z) :
  (2 <= List.length l)%nat -> Forall (eq k) l ->
  score_of l c = mk_score (IZR k) 1 (IZR (c - k)).
Proof.
  intros Hlen Hall.
  assert (Hm : mean_of l = IZR k).
  { unfold mean_of. rewrite (sum_Z_constant k l Hall), INR_IZR_INZ, mult_IZR.
    field. apply not_0_IZR. lia. }
  assert (Hs : stdev_of l = 0%R).
  { unfold stdev_of. rewrite Hm, (ss_constant k l Hall).
    unfold Rdiv. rewrite Rmult_0_l. apply sqrt_0. }
  unfold score_of, z_score_of. rewrite Hm, Hs, clamp_std_dev_0, minus_IZR.
  f_equal. field.
Qed.

Lemma score_location_constant (now : Z) (B : Dict.t string (Dict.t Z Z))
  (loc : string) (data : Current.t) (k : Z) :
  Forall (eq k) (daily_counts_of B loc) ->
  compute_score (daily_counts_of B loc) (Current.count data)
    = Ok (mk_score (IZR k) 1 (IZR (Current.count data - k))) /\
  ((exists a, score_location now B loc data = Ok (Some a))
     <-> k + 3 <= Current.count data) /\
  (Current.count data <= k + 2 -> score_location now B loc data = Ok None).
Proof.
  intros Hall. pose proof (daily_counts_of_length B loc) as Hlen.
  pose proof (score_of_constant k _ (Current.count data) Hlen Hall) as Hs.
  rewrite compute_score_ok by assumption. rewrite Hs.
  split; [reflexivity|].
  rewrite score_location_ok. unfold alert_of. rewrite Hs. simpl score_z.
  unfold OUTBREAK_THRESHOLD.
  destruct (Rlt_dec 2 (IZR (Current.count data - k))) as [Hz|Hz].
  - apply lt_IZR in Hz. split; [split; [lia | eauto] | lia].
  - assert (Hle : Current.count data - k <= 2).
    { destruct (Z_le_gt_dec (Current.count data - k) 2) as [H|H]; [exact H|].
      exfalso. apply Hz. apply IZR_lt. lia. }
    split; [split; [intros [a Ha]; discriminate Ha | lia] | reflexivity].
Qed.

(* ====================================================================== *)
(** * Further verified properties: the engine *)

(** X1: the baseline read returns, in table order, exactly the reports with
    [now - 14d <= timestamp < now - 7d]; no report is returned by both reads,
    and every baseline report is more than six days older than every current
    report. *)
Theorem X1_baseline_window_and_separation :
  forall (now : Z) (table : list Report.t),
    fetch_baseline_reports now table =
      filter (fun r => (now - 1209600000000 <=? Report.created_at r)
                       && (Report.created_at r <? now - 604800000000)) table /\
    (forall r, In r (fetch_baseline_reports now table) <->
               In r table /\
               now - 1209600000000 <= Report.created_at r
                 < now - 604800000000) /\
    (forall r, In r (fetch_baseline_reports now table) ->
               ~ In r (fetch_current_reports now table)) /\
    (forall rb rc,
       In rb (fetch_baseline_reports now table) ->
       In rc (fetch_current_reports now table) ->
       Report.created_at rb + 6 * usec_per_day < Report.created_at rc).
Proof.
  intros now table.
  assert (Hb : forall r, In r (fetch_baseline_reports now table) <->
             In r table /\
             now - 1209600000000 <= Report.created_at r < now - 604800000000).
  { intros r. rewrite fetch_baseline_reports_In. unfold usec_per_day.
    split; intros [H1 H2]; (split; [assumption | lia]). }
  assert (Hc : forall r, In r (fetch_current_reports now table) ->
             now - 86400000000 <= Report.created_at r).
  { intros r. unfold fetch_current_reports, gte_created_at, timedelta_days,
      usec_per_day. rewrite filter_In, Z.leb_le. lia. }
  split; [|split; [exact Hb|split]].
  - unfold fetch_baseline_reports, lt_created_at, gte_created_at.
    rewrite filter_andb. reflexivity.
  - intros r Hr Hr'. apply Hb in Hr. apply Hc in Hr'. lia.
  - intros rb rc Hrb Hrc. apply Hb in Hrb. apply Hc in Hrc.
    unfold usec_per_day. lia.
Qed.

(** X2: what [baseline_by_location] holds.  A location is a key exactly when
    it has baseline reports; its value has one entry per calendar day on
    which the location reported, in first-seen order; each entry is the
    number of the location's reports on that day, hence at least 1 (days
    without reports are not entered as 0); the entries add up to the number
    of the location's baseline reports. *)
Theorem X2_baseline_by_location_contents :
  forall (baseline_reports : list Report.t) (loc : string),
    let here :=
      filter (fun r => String.eqb (Report.location r) loc) baseline_reports in
    match Dict.get String.eqb loc (group_baseline baseline_reports) with
    | None => here = []
    | Some days =>
        here <> [] /\
        Dict.keys days = distinct Z.eqb (map report_date here) /\
        NoDup (Dict.keys days) /\
        (forall d, In d (Dict.keys days) <->
                   exists r, In r here /\ report_date r = d) /\
        (forall d n,
           Dict.get Z.eqb d days = Some n ->
           1 <= n /\
           n = Z.of_nat
                 (List.length
                    (filter (fun r => Z.eqb d (report_date r)) here))) /\
        sum_Z (Dict.values days) = Z.of_nat (List.length here)
    end.
Proof.
  intros b loc here. fold (reports_at loc b) in here.
  rewrite group_baseline_get. fold here.
  destruct here as [|r rs] eqn:E; [reflexivity|]. rewrite <- E.
  split; [rewrite E; discriminate|].
  split; [apply (tally_keys _ Z.eqb_spec)|].
  split; [rewrite (tally_keys _ Z.eqb_spec); apply (distinct_NoDup _ Z.eqb_spec)|].
  split; [|split].
  - intros d. rewrite (tally_keys _ Z.eqb_spec), (distinct_In _ Z.eqb_spec).
    rewrite in_map_iff. split; intros [x [H1 H2]]; exists x; tauto.
  - intros d n Hget. rewrite (tally_get _ Z.eqb_spec) in Hget.
    destruct (existsb (Z.eqb d) (map report_date here)) eqn:Ex; [|discriminate].
    injection Hget as <-. split.
    + apply (occurrences_in _ Z.eqb_spec).
      now apply (existsb_eqb_In_gen _ Z.eqb_spec).
    + apply occurrences_report_date.
  - rewrite (tally_total _ Z.eqb_spec). now rewrite length_map.
Qed.

(** X3: in a run of [detect_outbreaks] the statistics of every location are
    computed on at least 2 and at most 8 daily counts, none negative: the
    seven-day baseline window can touch eight calendar days. *)
Theorem X3_between_two_and_eight_daily_counts :
  forall (now : Z) (table : list Report.t) (loc : string),
    let counts :=
      daily_counts_of (group_baseline (fetch_baseline_reports now table)) loc in
    (2 <= List.length counts <= 8)%nat /\ Forall (fun n => 0 <= n) counts.
Proof.
  intros now table loc counts. subst counts.
  set (b := fetch_baseline_reports now table).
  assert (Hraw : (List.length (baseline_daily_counts (group_baseline b) loc) <= 8)%nat
                 /\ Forall (fun n => 0 <= n)
                           (baseline_daily_counts (group_baseline b) loc)).
  { rewrite baseline_daily_counts_eq.
    destruct (reports_at loc b) as [|r rs] eqn:E.
    - split; [simpl; lia | repeat constructor; lia].
    - rewrite <- E. split.
      + rewrite length_map.
        apply (NoDup_range_length (date_of (now - 14 * usec_per_day)));
          [apply (distinct_NoDup _ Z.eqb_spec)|].
        intros d Hd. rewrite (distinct_In _ Z.eqb_spec), in_map_iff in Hd.
        destruct Hd as [x [<- Hx]].
        apply (baseline_date_range now table).
        unfold reports_at in Hx. apply filter_In in Hx. tauto.
      + rewrite <- (tally_values _ Z.eqb_spec).
        eapply Forall_impl; [|apply (tally_values_pos _ Z.eqb_spec)].
        simpl. intros; lia. }
  split; [split; [apply daily_counts_of_length|]|].
  - unfold daily_counts_of.
    destruct (_ <? 2)%nat; [simpl; lia | tauto].
  - unfold daily_counts_of.
    destruct (_ <? 2)%nat; [repeat constructor; lia | tauto].
Qed.

(** X4: a location whose baseline reports all fall on one calendar day is
    scored as if it had no history at all: its single daily count is
    replaced by [[0; 0]], so the mean is 0, the standard deviation is
    clamped to 1, the z-score is the current count, and an alert is raised
    exactly when the current count is at least 3, however many baseline
    reports there were. *)
Theorem X4_single_day_baseline_is_discarded :
  forall (now : Z) (baseline_reports : list Report.t) (loc : string)
         (current_data : Current.t),
    let here :=
      filter (fun r => String.eqb (Report.location r) loc) baseline_reports in
    here <> [] ->
    (forall r r', In r here -> In r' here -> report_date r = report_date r') ->
    let B := group_baseline baseline_reports in
    baseline_daily_counts B loc = [Z.of_nat (List.length here)] /\
    daily_counts_of B loc = [0; 0] /\
    compute_score (daily_counts_of B loc) (Current.count current_data)
      = Ok (mk_score 0 1 (IZR (Current.count current_data))) /\
    ((exists a, score_location now B loc current_data = Ok (Some a))
       <-> 3 <= Current.count current_data).
Proof.
  intros now b loc data here Hne Hsame B.
  fold (reports_at loc b) in here.
  assert (Hraw : baseline_daily_counts B loc = [Z.of_nat (List.length here)]).
  { unfold B. rewrite baseline_daily_counts_nonempty by exact Hne.
    fold here. remember here as l eqn:El. clear El.
    destruct l as [|r rs] eqn:E; [congruence|]. rewrite <- E in *.
    assert (Hr : In r l) by (rewrite E; now left).
    assert (Hd : distinct Z.eqb (map report_date l) = [report_date r]).
    { pose proof (distinct_NoDup _ Z.eqb_spec (map report_date l)) as Hnd.
      assert (Hall : forall d, In d (distinct Z.eqb (map report_date l))
                               <-> d = report_date r).
      { intros d. rewrite (distinct_In _ Z.eqb_spec), in_map_iff. split.
        - intros [x [<- Hx]]. now apply Hsame.
        - intros ->. exists r. split; [reflexivity | assumption]. }
      destruct (distinct Z.eqb (map report_date l)) as [|d1 [|d2 ds]].
      - exfalso. destruct (Hall (report_date r)) as [_ H]. now apply H.
      - f_equal. apply Hall. now left.
      - exfalso.
        assert (E1 : d1 = report_date r) by (apply Hall; now left).
        assert (E2 : d2 = report_date r) by (apply Hall; right; now left).
        apply NoDup_cons_iff in Hnd. destruct Hnd as [Hnot _].
        apply Hnot. rewrite E1, E2. now left. }
    rewrite Hd. simpl. f_equal.
    rewrite occurrences_report_date. f_equal. f_equal.
    apply forallb_filter_id. apply forallb_forall. intros x Hx.
    apply Z.eqb_eq. now apply Hsame. }
  assert (Hdc : daily_counts_of B loc = [0; 0]).
  { unfold daily_counts_of. now rewrite Hraw. }
  split; [exact Hraw|]. split; [exact Hdc|].
  assert (Hall : Forall (eq 0) (daily_counts_of B loc))
    by (rewrite Hdc; repeat constructor).
  destruct (score_location_constant now B loc data 0 Hall) as [H1 [H2 _]].
  rewrite Z.sub_0_r in H1. split; [exact H1|].
  rewrite H2. lia.
Qed.

(** An instance of X4: forty baseline reports at one location within one
    day, then three current reports. *)
Lemma X4_witness :
  let day := [ Report.mk "Annex"%string 100 None "u1"%string ] in
  let b := flat_map (fun _ => day) (seq 0 40) in
  filter (fun r => String.eqb (Report.location r) "Annex"%string) b <> [] /\
  daily_counts_of (group_baseline b) "Annex"%string = [0; 0] /\
  ((exists a, score_location 0 (group_baseline b) "Annex"%string
                (Current.mk 3 [] []) = Ok (Some a))
     <-> 3 <= 3).
Proof.
  cbv zeta.
  assert (H1 : filter (fun r => String.eqb (Report.location r) "Annex"%string)
                 (flat_map (fun _ => [Report.mk "Annex"%string 100 None "u1"%string])
                    (seq 0 40)) <> [])
    by (vm_compute; discriminate).
  assert (H2 : forall r r',
             In r (filter (fun r => String.eqb (Report.location r) "Annex"%string)
                     (flat_map (fun _ => [Report.mk "Annex"%string 100 None "u1"%string])
                        (seq 0 40))) ->
             In r' (filter (fun r => String.eqb (Report.location r) "Annex"%string)
                      (flat_map (fun _ => [Report.mk "Annex"%string 100 None "u1"%string])
                         (seq 0 40))) ->
             report_date r = report_date r').
  { intros r r' Hr Hr'. apply filter_In in Hr, Hr'.
    destruct Hr as [Hr _], Hr' as [Hr' _]. apply in_flat_map in Hr, Hr'.
    destruct Hr as [? [_ [<-|[]]]], Hr' as [? [_ [<-|[]]]]. reflexivity. }
  split; [exact H1|].
  pose proof (X4_single_day_baseline_is_discarded 0 _ "Annex"%string
                (Current.mk 3 [] []) H1 H2) as H.
  cbv zeta in H. destruct H as [_ [Hd [_ Ha]]]. split; [exact Hd | exact Ha].
Defined.

Lemma Rmin_IZR (x y : Z) : Rmin (IZR x) (IZR y) = IZR (Z.min x y).
Proof.
  destruct (Z.le_ge_cases x y) as [H|H].
  - rewrite Z.min_l by assumption. apply Rmin_left. now apply IZR_le.
  - rewrite Z.min_r by lia. apply Rmin_right. apply IZR_le. lia.
Qed.

(** X5: against a flat baseline (all daily counts equal to [k], which
    includes a location without history and one with a single baseline day,
    where [k = 0]) the z-score is the excess [count - k].  An alert is raised
    exactly when the excess is at least 3; it is never Low: an excess of 3
    gives Medium, a larger one gives High, and the risk score is
    [min(20 * excess, 100)]. *)
Theorem X5_flat_baseline_alerts :
  forall (now : Z) (baseline_by_location : Dict.t string (Dict.t Z Z))
         (loc : string) (current_data : Current.t) (k : Z),
    Forall (eq k) (daily_counts_of baseline_by_location loc) ->
    let excess := Current.count current_data - k in
    compute_score (daily_counts_of baseline_by_location loc)
                  (Current.count current_data)
      = Ok (mk_score (IZR k) 1 (IZR excess)) /\
    (excess <= 2 ->
       score_location now baseline_by_location loc current_data = Ok None) /\
    (3 <= excess ->
       exists a,
         score_location now baseline_by_location loc current_data
           = Ok (Some a) /\
         severity a = (if excess =? 3 then Medium else High) /\
         risk_score a = IZR (Z.min (20 * excess) 100)).
Proof.
  intros now B loc data k Hall excess.
  destruct (score_location_constant now B loc data k Hall) as [H1 [_ H3]].
  split; [exact H1|]. split; [intros H; apply H3; unfold excess in H; lia|].
  intros Hex.
  pose proof (daily_counts_of_length B loc) as Hlen.
  rewrite score_location_ok. unfold alert_of.
  rewrite (score_of_constant k _ (Current.count data) Hlen Hall).
  simpl score_z. fold excess. unfold OUTBREAK_THRESHOLD.
  clearbody excess.
  destruct (Rlt_dec 2 (IZR excess)) as [_|Hn];
    [|exfalso; apply Hn; apply IZR_lt; lia].
  eexists. split; [reflexivity|]. simpl. split.
  - destruct (Z.eqb_spec excess 3) as [->|Hne].
    + apply severity_of_spec. lra.
    + apply severity_of_spec.
      assert (IZR 4 <= IZR excess)%R by (apply IZR_le; lia). lra.
  - unfold risk_percentage_of. rewrite py_min_Rmin.
    replace (IZR excess * 20)%R with (IZR (20 * excess))
      by (rewrite mult_IZR; lra).
    rewrite Rmin_IZR. apply py_round_1_IZR.
Qed.

(** An instance of X5: no history, four current reports. *)
Lemma X5_witness :
  Forall (eq 0) (daily_counts_of [] "Hostel A"%string) /\
  exists a,
    score_location 0 [] "Hostel A"%string (Current.mk 4 [] []) = Ok (Some a) /\
    severity a = High /\ risk_score a = 80%R.
Proof.
  assert (H : Forall (eq 0) (daily_counts_of [] "Hostel A"%string))
    by (vm_compute; repeat constructor).
  split; [exact H|].
  destruct (X5_flat_baseline_alerts 0 [] "Hostel A"%string
              (Current.mk 4 [] []) 0 H) as [_ [_ Ha]].
  simpl in Ha. destruct Ha as [a [H1 [H2 H3]]]; [lia|].
  exists a. auto.
Defined.

Lemma alert_of_baseline_Permutation (now : Z) (b b' : list Report.t)
  (loc : string) (data : Current.t) :
  Permutation b b' ->
  alert_of now (group_baseline b) loc data =
  alert_of now (group_baseline b') loc data.
Proof.
  intros H. unfold alert_of.
  now rewrite (score_of_Permutation _ _ (Current.count data)
                 (daily_counts_of_Permutation b b' loc H)).
Qed.

(** X6: the result does not depend on the order in which the store returns
    the baseline reports: two baseline sequences that are permutations of
    each other give the same alerts. *)
Theorem X6_baseline_order_is_irrelevant :
  forall (now : Z) (baseline_reports baseline_reports' current_reports
            : list Report.t),
    Permutation baseline_reports baseline_reports' ->
    detect now baseline_reports current_reports =
    detect now baseline_reports' current_reports.
Proof.
  intros now b b' c H. rewrite !detect_ok. f_equal.
  unfold alerts_of. apply flat_map_ext. intros [loc data]. simpl.
  now rewrite (alert_of_baseline_Permutation now b b' loc data H).
Qed.

(** An instance of X6: the baseline rows of the sample table, reversed. *)
Lemma X6_witness :
  Permutation (fetch_baseline_reports sample_now sample_table)
              (rev (fetch_baseline_reports sample_now sample_table)) /\
  detect sample_now (fetch_baseline_reports sample_now sample_table)
         (fetch_current_reports sample_now sample_table) =
  detect sample_now (rev (fetch_baseline_reports sample_now sample_table))
         (fetch_current_reports sample_now sample_table).
Proof.
  split; [apply Permutation_rev|].
  apply X6_baseline_order_is_irrelevant. apply Permutation_rev.
Defined.

(** X7: at most one alert is returned per location, every alert carries the
    [now] of the run as its detection time, there are no more alerts than
    distinct locations in the current reports, and a run whose current window
    is empty returns the empty list whatever the baseline holds. *)
Theorem X7_one_alert_per_location :
  (forall (now : Z) (baseline_reports current_reports : list Report.t),
   exists alerts,
     detect now baseline_reports current_reports = Ok alerts /\
     NoDup (map location alerts) /\
     (forall a, In a alerts -> detection_time a = now) /\
     (List.length alerts
        <= List.length
             (distinct String.eqb (map Report.location current_reports)))%nat /\
     (current_reports = [] -> alerts = [])) /\
  (forall (now : Z) (table : list Report.t),
     (forall r, In r table -> Report.created_at r < now - 86400000000) ->
     detect_outbreaks now table = Ok []).
Proof.
  split.
  - intros now b c. eexists. split; [apply detect_ok|].
    pose proof (detect_locations now b c) as Hloc.
    split; [|split; [|split]].
    + rewrite Hloc. apply NoDup_filter, first_seen_NoDup.
    + intros a Ha. apply detect_alert_iff in Ha. destruct Ha as [data [_ Ha]].
      apply alert_of_some in Ha. destruct Ha as [_ ->]. reflexivity.
    + rewrite <- (length_map location), Hloc.
      eapply Nat.le_trans; [apply filter_length_le|]. apply Nat.eq_le_incl.
      reflexivity.
    + intros ->. reflexivity.
  - intros now table Hold. unfold detect_outbreaks.
    replace (fetch_current_reports now table) with (@nil Report.t);
      [now rewrite detect_ok|].
    destruct (fetch_current_reports now table) as [|r rs] eqn:E;
      [reflexivity|].
    assert (Hr : In r (fetch_current_reports now table))
      by (rewrite E; now left).
    apply fetch_current_reports_In in Hr. destruct Hr as [Hr Ht].
    apply Hold in Hr. lia.
Qed.

(** X8: the severity tiers and the risk score agree with the bands the
    source documents: every alert has a risk score of at least 40; a Low
    alert has it in [[40, 50]], a Medium alert in [[50, 70]], and a High
    alert in [[70, 100]]. *)
Theorem X8_severity_and_risk_bands :
  forall (now : Z) (baseline_reports current_reports : list Report.t),
  exists alerts,
    detect now baseline_reports current_reports = Ok alerts /\
    forall a, In a alerts ->
      (40 <= risk_score a <= 100)%R /\
      (severity a = Low -> (risk_score a <= 50)%R) /\
      (severity a = Medium -> (50 <= risk_score a <= 70)%R) /\
      (severity a = High -> (70 <= risk_score a)%R).
Proof.
  intros now b c. eexists. split; [apply detect_ok|].
  intros a Ha. apply detect_alert_iff in Ha. destruct Ha as [data [_ Ha]].
  apply alert_of_some in Ha. destruct Ha as [Hz Ha].
  remember (score_of (daily_counts_of (group_baseline b) (location a))
                     (Current.count data)) as s eqn:Es.
  clear Es. destruct s as [m sd z]. simpl in Hz.
  unfold OUTBREAK_THRESHOLD in Hz.
  assert (Hrisk : risk_score a = py_round (Rmin (z * 20) 100) 1).
  { rewrite Ha at 1. simpl. unfold risk_percentage_of.
    now rewrite py_min_Rmin. }
  assert (Hsev : severity a = severity_of z).
  { rewrite Ha at 1. reflexivity. }
  rewrite Hrisk, Hsev. clear Ha Hrisk Hsev.
  assert (Hlo : forall n : Z, (IZR n <= Rmin (z * 20) 100)%R ->
                  (IZR n <= py_round (Rmin (z * 20) 100) 1)%R).
  { intros n H. rewrite <- (py_round_1_IZR n). now apply py_round_1_mono. }
  assert (Hhi : forall n : Z, (Rmin (z * 20) 100 <= IZR n)%R ->
                  (py_round (Rmin (z * 20) 100) 1 <= IZR n)%R).
  { intros n H. rewrite <- (py_round_1_IZR n). now apply py_round_1_mono. }
  destruct (severity_of_spec z) as [HH [HM HL]].
  split; [split|split; [|split]].
  - apply (Hlo 40). apply Rmin_glb; lra.
  - apply (Hhi 100). apply Rmin_r.
  - intros Hs. apply HL in Hs. apply (Hhi 50).
    eapply Rle_trans; [apply Rmin_l | lra].
  - intros Hs. apply HM in Hs. split.
    + apply (Hlo 50). apply Rmin_glb; lra.
    + apply (Hhi 70). eapply Rle_trans; [apply Rmin_l | lra].
  - intros Hs. apply HH in Hs. apply (Hlo 70). apply Rmin_glb; lra.
Qed.

Lemma group_current_total (c : list Report.t) :
  sum_Z (map Current.count (Dict.values (group_current c)))
  = Z.of_nat (List.length c).
Proof.
  induction c as [|r c IH] using rev_ind; [reflexivity|].
  rewrite group_current_snoc, current_step_eq, length_app. cbv zeta. simpl.
  pose proof (total_weight_set String.eqb String.eqb_spec Current.count
                (Report.location r)
                (Current.mk
                   (Current.count
                      (Dict.get_default String.eqb (Report.location r)
                         (Current.mk 0 [] []) (group_current c)) + 1)
                   (Current.symptoms
                      (Dict.get_default String.eqb (Report.location r)
                         (Current.mk 0 [] []) (group_current c))
                    ++ report_symptoms r)
                   (Current.user_ids
                      (Dict.get_default String.eqb (Report.location r)
                         (Current.mk 0 [] []) (group_current c))
                    ++ [Report.user_id r]))
                (group_current c)) as H.
  unfold total_weight in H. rewrite H, IH. simpl.
  unfold Dict.get_default.
  destruct (Dict.get String.eqb (Report.location r) (group_current c));
    simpl; lia.
Qed.

(** X9: the invariant of [current_by_location].  Its keys are distinct; for
    every key the count is at least 1 and equals the number of collected
    subject ids; and the counts of all keys add up to the number of current
    reports, so every report is counted exactly once. *)
Theorem X9_current_by_location_invariant :
  forall (current_reports : list Report.t),
    let current_by_location := group_current current_reports in
    NoDup (Dict.keys current_by_location) /\
    (forall loc data,
       Dict.get String.eqb loc current_by_location = Some data ->
       1 <= Current.count data /\
       Current.count data = Z.of_nat (List.length (Current.user_ids data))) /\
    sum_Z (map Current.count (Dict.values current_by_location))
      = Z.of_nat (List.length current_reports).
Proof.
  intros c d. subst d. split; [apply group_current_NoDup|].
  split; [|apply group_current_total].
  intros loc data Hget. apply group_current_get_some in Hget.
  destruct Hget as [Hne ->]. unfold aggregate_of. simpl.
  rewrite length_map. split; [|reflexivity].
  destruct (reports_at loc c); [congruence | simpl; lia].
Qed.

Lemma filter_map_length {A B : Type} (p : B -> bool) (f : A -> B)
  (l : list A) :
  List.length (filter p (map f l))
  = List.length (filter (fun a => p (f a)) l).
Proof.
  induction l as [|a l IH]; simpl; [reflexivity|].
  destruct (p (f a)); simpl; now rewrite IH.
Qed.

Lemma location_counts_tally (rows : list Report.t) :
  location_counts rows = tally String.eqb (map Report.location rows).
Proof.
  unfold location_counts, tally.
  generalize (@Dict.empty string Z).
  induction rows as [|r rows IH]; intros d; simpl; [reflexivity|].
  now rewrite IH.
Qed.

(** X10: [location_counts] of the demo script's [verify_data] (and, by the
    same loop, [symptom_counts] of the engine): every location that occurs
    is a key exactly once, its value is the number of rows with that
    location, a location that does not occur is no key, and the values add
    up to the number of rows. *)
Theorem X10_location_counts_are_exact :
  forall (rows : list Report.t),
    NoDup (Dict.keys (location_counts rows)) /\
    (forall loc,
       match Dict.get String.eqb loc (location_counts rows) with
       | Some n =>
           1 <= n /\
           n = Z.of_nat
                 (List.length
                    (filter (fun r => String.eqb loc (Report.location r)) rows))
       | None => forall r, In r rows -> Report.location r <> loc
       end) /\
    sum_Z (Dict.values (location_counts rows)) = Z.of_nat (List.length rows) /\
    (forall symptoms : list string,
       count_symptoms symptoms = tally String.eqb symptoms /\
       sum_Z (Dict.values (count_symptoms symptoms))
         = Z.of_nat (List.length symptoms)).
Proof.
  intros rows. rewrite location_counts_tally.
  split; [rewrite (tally_keys _ String.eqb_spec);
          apply (distinct_NoDup _ String.eqb_spec)|].
  split; [|split].
  - intros loc. rewrite (tally_get _ String.eqb_spec).
    destruct (existsb (String.eqb loc) (map Report.location rows)) eqn:E.
    + split.
      * apply (occurrences_in _ String.eqb_spec).
        now apply (existsb_eqb_In_gen _ String.eqb_spec).
      * unfold occurrences. now rewrite filter_map_length.
    + intros r Hr Hloc.
      assert (Hin : In loc (map Report.location rows))
        by (rewrite <- Hloc; now apply in_map).
      apply (existsb_eqb_In_gen _ String.eqb_spec) in Hin. congruence.
  - rewrite (tally_total _ String.eqb_spec). now rewrite length_map.
  - intros symptoms.
    assert (H : count_symptoms symptoms = tally String.eqb symptoms)
      by reflexivity.
    split; [exact H|]. rewrite H. apply (tally_total _ String.eqb_spec).
Qed.

Lemma len_set_Permutation (l l' : list string) :
  Permutation l l' -> len_set l = len_set l'.
Proof.
  intros H. unfold len_set. apply Permutation_length.
  apply NoDup_Permutation; try apply NoDup_nodup.
  intros x. rewrite !nodup_In.
  split; apply Permutation_in; [assumption | now apply Permutation_sym].
Qed.

Lemma frequency_Permutation (l l' : list string) (s : string) :
  Permutation l l' -> frequency l s = frequency l' s.
Proof.
  intros H. unfold frequency. f_equal.
  now apply (Permutation_count_occ string_dec).
Qed.

(** Two descending sequences with the same elements are equal. *)
Lemma sorted_Permutation_eq (l : list Z) :
  forall l' : list Z,
    StronglySorted Z.ge l -> StronglySorted Z.ge l' -> Permutation l l' ->
    l = l'.
Proof.
  induction l as [|x l IH]; intros l' Hs Hs' Hp.
  - apply Permutation_nil in Hp. now subst.
  - destruct l' as [|y l'].
    + apply Permutation_sym, Permutation_nil in Hp. discriminate.
    + inversion Hs as [|? ? Hsl Hx]; subst.
      inversion Hs' as [|? ? Hsl' Hy]; subst.
      rewrite Forall_forall in Hx, Hy.
      assert (Hxy : (x <= y)%Z).
      { pose proof (Permutation_in x Hp (or_introl eq_refl)) as [->|Hin];
          [lia | specialize (Hy x Hin); lia]. }
      assert (Hyx : (y <= x)%Z).
      { pose proof (Permutation_in y (Permutation_sym Hp) (or_introl eq_refl))
          as [->|Hin]; [lia | specialize (Hx y Hin); lia]. }
      assert (E : x = y) by lia. subst y.
      f_equal. apply IH; try assumption.
      now apply Permutation_cons_inv in Hp.
Qed.

Lemma ranked_frequencies_sorted (symptoms : list string) :
  StronglySorted Z.ge
    (map (frequency symptoms) (ranked_symptoms symptoms)).
Proof.
  apply StronglySorted_map.
  eapply StronglySorted_weaken; [|apply ranked_symptoms_sorted].
  intros s s' _ _ [H|[H _]]; lia.
Qed.

(** The frequencies of the ranking, place by place, do not depend on the
    order of the symptom sequence. *)
Lemma ranked_frequencies_Permutation (symptoms symptoms' : list string) :
  Permutation symptoms symptoms' ->
  map (frequency symptoms) (ranked_symptoms symptoms')
  = map (frequency symptoms) (ranked_symptoms symptoms).
Proof.
  intros H.
  rewrite (map_ext (frequency symptoms) (frequency symptoms')
             (fun s => frequency_Permutation _ _ s H)) at 1.
  apply sorted_Permutation_eq; try apply ranked_frequencies_sorted.
  rewrite (map_ext (frequency symptoms') (frequency symptoms)
             (fun s => eq_sym (frequency_Permutation _ _ s H))).
  apply Permutation_map.
  rewrite !ranked_symptoms_perm.
  apply NoDup_Permutation; try apply first_seen_NoDup.
  intros s. rewrite !first_seen_In.
  split; apply Permutation_in; [now apply Permutation_sym | assumption].
Qed.

Lemma map_injective_on {A B : Type} (f : A -> B) (l : list A) :
  forall l' : list A,
    (forall x y, In x l -> In y l' -> f x = f y -> x = y) ->
    map f l = map f l' -> l = l'.
Proof.
  induction l as [|x l IH]; intros [|y l'] Hinj H; try discriminate;
    [reflexivity|].
  simpl in H. injection H as Hxy Hl.
  f_equal.
  - apply Hinj; simpl; auto.
  - apply IH; [|exact Hl]. intros; apply Hinj; simpl; auto.
Qed.

Lemma firstn_In {A : Type} (n : nat) (l : list A) (x : A) :
  In x (firstn n l) -> In x l.
Proof.
  intros H. rewrite <- (firstn_skipn n l). apply in_or_app. now left.
Qed.

Lemma alerts_current_Permutation (now : Z) (b c c' : list Report.t) (a : alert) :
  Permutation c c' ->
  In a (alerts_of now (group_baseline b) (group_current c)) ->
  exists a',
    In a' (alerts_of now (group_baseline b) (group_current c')) /\
    location a' = location a /\
    affected_students a' = affected_students a /\
    risk_score a' = risk_score a /\
    severity a' = severity a /\
    detection_time a' = detection_time a /\
    _debug a' = _debug a /\
    let symptoms := flat_map report_symptoms (reports_at (location a) c) in
    map (frequency symptoms) (common_symptoms a')
      = map (frequency symptoms) (common_symptoms a) /\
    ((forall s s', In s symptoms -> In s' symptoms ->
                   frequency symptoms s = frequency symptoms s' -> s = s') ->
     common_symptoms a' = common_symptoms a).
Proof.
  intros Hperm Ha. apply detect_alert_iff in Ha.
  destruct Ha as [data [Hget Ha]].
  apply group_current_get_some in Hget. destruct Hget as [Hne Hdata].
  apply alert_of_some in Ha. destruct Ha as [Hz Ha].
  remember (location a) as loc eqn:Eloc.
  pose proof (filter_Permutation
                (fun r => String.eqb (Report.location r) loc) _ _ Hperm) as Hf.
  fold (reports_at loc c) in Hf. fold (reports_at loc c') in Hf.
  remember (aggregate_of (reports_at loc c')) as data' eqn:Ed'.
  assert (Hcount : Current.count data' = Current.count data).
  { rewrite Hdata, Ed'. unfold aggregate_of. simpl.
    now rewrite (Permutation_length Hf). }
  assert (Hids : len_set (Current.user_ids data')
                 = len_set (Current.user_ids data)).
  { rewrite Hdata, Ed'. unfold aggregate_of. simpl.
    apply len_set_Permutation, Permutation_map. now apply Permutation_sym. }
  remember (flat_map report_symptoms (reports_at loc c)) as S eqn:ES.
  remember (flat_map report_symptoms (reports_at loc c')) as S' eqn:ES'.
  assert (HS : Permutation S S')
    by (subst S S'; now apply Permutation_flat_map).
  assert (Htop : common_symptoms a = firstn 3 (ranked_symptoms S)).
  { rewrite Ha. simpl. rewrite Hdata. simpl. rewrite <- ES.
    apply top_symptoms_of_ranked. }
  exists (make_alert now loc data'
            (score_of (daily_counts_of (group_baseline b) loc)
                      (Current.count data'))).
  assert (Htop' : common_symptoms
                    (make_alert now loc data'
                       (score_of (daily_counts_of (group_baseline b) loc)
                                 (Current.count data')))
                  = firstn 3 (ranked_symptoms S')).
  { simpl. rewrite Ed'. simpl. rewrite <- ES'.
    apply top_symptoms_of_ranked. }
  assert (Hfreq : map (frequency S) (firstn 3 (ranked_symptoms S'))
                  = map (frequency S) (firstn 3 (ranked_symptoms S))).
  { rewrite <- !firstn_map. f_equal.
    now apply ranked_frequencies_Permutation. }
  split.
  - apply alerts_of_In. exists loc, data'. split.
    + apply group_current_items, group_current_get_some.
      split; [|exact Ed'].
      intros E. rewrite E in Hf. apply Permutation_sym, Permutation_nil in Hf.
      congruence.
    + apply alert_of_some. split; [now rewrite Hcount | reflexivity].
  - split; [reflexivity|].
    split; [unfold make_alert; simpl; rewrite Ha; simpl; exact Hids|].
    split; [rewrite Ha; unfold make_alert; simpl; now rewrite Hcount|].
    split; [rewrite Ha; unfold make_alert; simpl; now rewrite Hcount|].
    split; [rewrite Ha; reflexivity|].
    split; [rewrite Ha; unfold make_alert; simpl; now rewrite Hcount|].
    cbv zeta. rewrite Htop', Htop. split; [exact Hfreq|].
    intros Hinj. apply (map_injective_on (frequency S)); [|exact Hfreq].
    intros s s' Hs Hs' E. apply Hinj; [| |exact E].
    + apply firstn_In in Hs.
      apply (Permutation_in _ (ranked_symptoms_perm S')) in Hs.
      rewrite first_seen_In in Hs.
      exact (Permutation_in _ (Permutation_sym HS) Hs).
    + apply firstn_In in Hs'.
      apply (Permutation_in _ (ranked_symptoms_perm S)) in Hs'.
      now rewrite first_seen_In in Hs'.
Qed.

(** X11: the order in which the store returns the current reports affects
    only the order of the alerts and the choice among equally frequent
    symptoms.  For two current sequences that are permutations of each other
    the same locations alert, and the alert of a location has the same
    affected-subject count, risk score, severity, detection time and debug
    statistics in both runs.  Its listed symptoms have, place by place, the
    same frequencies in both runs, so the two lists can differ only where
    symptoms are equally frequent; when no two symptoms of the location are
    equally frequent, the lists are equal. *)
Theorem X11_current_order_changes_presentation_only :
  forall (now : Z) (baseline_reports current_reports current_reports'
            : list Report.t),
    Permutation current_reports current_reports' ->
    exists alerts alerts',
      detect now baseline_reports current_reports = Ok alerts /\
      detect now baseline_reports current_reports' = Ok alerts' /\
      Permutation (map location alerts) (map location alerts') /\
      forall a, In a alerts ->
        exists a',
          In a' alerts' /\
          location a' = location a /\
          affected_students a' = affected_students a /\
          risk_score a' = risk_score a /\
          severity a' = severity a /\
          detection_time a' = detection_time a /\
          _debug a' = _debug a /\
          let symptoms :=
            flat_map report_symptoms
              (filter (fun r => String.eqb (Report.location r) (location a))
                      current_reports) in
          map (frequency symptoms) (common_symptoms a')
            = map (frequency symptoms) (common_symptoms a) /\
          ((forall s s', In s symptoms -> In s' symptoms ->
                         frequency symptoms s = frequency symptoms s' ->
                         s = s') ->
           common_symptoms a' = common_symptoms a).
Proof.
  intros now b c c' Hperm. do 2 eexists.
  split; [apply detect_ok|]. split; [apply detect_ok|].
  split; [|intros a Ha; now apply (alerts_current_Permutation now b c c')].
  apply NoDup_Permutation.
  - rewrite detect_locations. apply NoDup_filter, first_seen_NoDup.
  - rewrite detect_locations. apply NoDup_filter, first_seen_NoDup.
  - intros loc. rewrite !in_map_iff. split; intros [a [<- Ha]].
    + destruct (alerts_current_Permutation now b c c' a Hperm Ha)
        as [a' [Ha' [Hl _]]]. eauto.
    + destruct (alerts_current_Permutation now b c' c a
                  (Permutation_sym Hperm) Ha) as [a' [Ha' [Hl _]]]. eauto.
Qed.

(** An instance of X11: the current rows of the sample table, reversed. *)
Lemma X11_witness :
  Permutation (fetch_current_reports sample_now sample_table)
              (rev (fetch_current_reports sample_now sample_table)) /\
  exists alerts alerts',
    detect sample_now (fetch_baseline_reports sample_now sample_table)
           (fetch_current_reports sample_now sample_table) = Ok alerts /\
    detect sample_now (fetch_baseline_reports sample_now sample_table)
           (rev (fetch_current_reports sample_now sample_table)) = Ok alerts' /\
    Permutation (map location alerts) (map location alerts').
Proof.
  split; [apply Permutation_rev|].
  destruct (X11_current_order_changes_presentation_only sample_now
              (fetch_baseline_reports sample_now sample_table)
              (fetch_current_reports sample_now sample_table)
              (rev (fetch_current_reports sample_now sample_table))
              (Permutation_rev _)) as [alerts [alerts' [H1 [H2 [H3 _]]]]].
  exists alerts, alerts'. auto.
Defined.

Lemma StronglySorted_app_inv {A : Type} (R : A -> A -> Prop) (l1 l2 : list A) :
  StronglySorted R (l1 ++ l2) ->
  forall x y, In x l1 -> In y l2 -> R x y.
Proof.
  induction l1 as [|a l1 IH]; simpl; intros Hs x y Hx Hy; [contradiction|].
  inversion Hs as [|? ? Hs' Hall]; subst.
  destruct Hx as [<-|Hx].
  - rewrite Forall_forall in Hall. apply Hall, in_or_app. now right.
  - now apply IH.
Qed.

(** X12: the listed symptoms really are the most frequent ones.  For every
    alert, [common_symptoms] has no repetition, holds only symptoms reported
    at the location in the current window, has [min(3, number of distinct
    symptoms)] entries, and every reported symptom that is not listed is at
    most as frequent as every listed one. *)
Theorem X12_top_symptoms_dominate :
  forall (now : Z) (baseline_reports current_reports : list Report.t),
  exists alerts,
    detect now baseline_reports current_reports = Ok alerts /\
    forall a, In a alerts ->
      let symptoms :=
        flat_map report_symptoms
          (filter (fun r => String.eqb (Report.location r) (location a))
                  current_reports) in
      NoDup (common_symptoms a) /\
      (forall s, In s (common_symptoms a) -> In s symptoms) /\
      List.length (common_symptoms a)
        = Nat.min 3 (List.length (distinct String.eqb symptoms)) /\
      (forall s s',
         In s (common_symptoms a) -> In s' symptoms ->
         ~ In s' (common_symptoms a) ->
         frequency symptoms s' <= frequency symptoms s).
Proof.
  intros now b c. eexists. split; [apply detect_ok|].
  intros a Ha symptoms.
  apply detect_alert_iff in Ha. destruct Ha as [data [Hget Ha]].
  apply group_current_get_some in Hget. destruct Hget as [_ Hdata].
  apply alert_of_some in Ha. destruct Ha as [_ Ha].
  assert (Htop : common_symptoms a = firstn 3 (ranked_symptoms symptoms)).
  { rewrite Ha at 1. simpl. rewrite Hdata. simpl.
    apply top_symptoms_of_ranked. }
  pose proof (ranked_symptoms_perm symptoms) as Hperm.
  pose proof (ranked_symptoms_sorted symptoms) as Hsorted.
  assert (Hnd : NoDup (ranked_symptoms symptoms))
    by (apply (Permutation_NoDup (Permutation_sym Hperm)), first_seen_NoDup).
  rewrite Htop. clear Htop Ha.
  rewrite <- (firstn_skipn 3 (ranked_symptoms symptoms)) in Hnd, Hsorted.
  split; [|split; [|split]].
  - now apply NoDup_app_remove_r in Hnd.
  - intros s Hs. apply first_seen_In. apply (Permutation_in _ Hperm).
    rewrite <- (firstn_skipn 3 (ranked_symptoms symptoms)).
    apply in_or_app. now left.
  - rewrite length_firstn. f_equal. apply (Permutation_length Hperm).
  - intros s s' Hs Hs' Hnot.
    assert (Hin : In s' (skipn 3 (ranked_symptoms symptoms))).
    { apply first_seen_In in Hs'.
      apply (Permutation_in _ (Permutation_sym Hperm)) in Hs'.
      rewrite <- (firstn_skipn 3 (ranked_symptoms symptoms)) in Hs'.
      apply in_app_or in Hs'. tauto. }
    destruct (StronglySorted_app_inv _ _ _ Hsorted s s' Hs Hin) as [H|[H _]];
      lia.
Qed.

(* ====================================================================== *)
(** * Further verified properties: the HTTP handlers *)

Lemma prefix_append (p s : string) : String.prefix p (p ++ s) = true.
Proof.
  induction p as [|c p IH]; simpl.
  - now destruct s.
  - destruct (Ascii.ascii_dec c c); [exact IH | congruence].
Qed.

Lemma current_step_row_eq (d : Dict.t string Current.t) (row : TableRow.t) :
  current_step_row d row =
  match TableRow.symptoms row with
  | TableRow.Null => Raise TypeError
  | _ => Ok (current_step d (report_of_row row))
  end.
Proof.
  unfold current_step_row, current_step, row_get_symptoms, report_symptoms,
    report_of_row.
  destruct (TableRow.symptoms row); reflexivity.
Qed.

Lemma group_current_rows_from_eq (rows : list TableRow.t) :
  forall d : Dict.t string Current.t,
    group_current_rows_from d rows =
    if existsb (fun row => match TableRow.symptoms row with
                           | TableRow.Null => true
                           | _ => false
                           end) rows
    then Raise TypeError
    else Ok (fold_left current_step (map report_of_row rows) d).
Proof.
  induction rows as [|row rows IH]; intros d; simpl; [reflexivity|].
  rewrite current_step_row_eq.
  destruct (TableRow.symptoms row); simpl; try apply IH. reflexivity.
Qed.

Lemma filter_map_commute {A B : Type} (g : A -> B) (f : B -> bool)
  (l : list A) :
  filter f (map g l) = map g (filter (fun x => f (g x)) l).
Proof.
  induction l as [|x l IH]; simpl; [reflexivity|].
  destruct (f (g x)); simpl; now rewrite IH.
Qed.

Lemma fetch_rows_reports (now : Z) (table : list TableRow.t) :
  map report_of_row (fetch_baseline_rows now table)
    = fetch_baseline_reports now (map report_of_row table) /\
  map report_of_row (fetch_current_rows now table)
    = fetch_current_reports now (map report_of_row table).
Proof.
  unfold fetch_baseline_rows, fetch_baseline_reports, fetch_current_rows,
    fetch_current_reports, lt_created_at, gte_created_at.
  now rewrite !filter_map_commute.
Qed.

(** The engine on rows: it raises [TypeError] when a row of the current
    window has null symptoms, and is the engine on reports otherwise. *)
Lemma detect_outbreaks_rows_eq (now : Z) (table : list TableRow.t) :
  detect_outbreaks_rows now table =
  if existsb (null_symptoms_in_window now) table
  then Raise TypeError
  else detect_outbreaks now (map report_of_row table).
Proof.
  unfold detect_outbreaks_rows, group_current_rows.
  rewrite group_current_rows_from_eq.
  assert (Hnull : existsb (fun row => match TableRow.symptoms row with
                                      | TableRow.Null => true
                                      | _ => false
                                      end) (fetch_current_rows now table)
                  = existsb (null_symptoms_in_window now) table).
  { unfold fetch_current_rows, null_symptoms_in_window.
    induction table as [|row table IH]; cbn [existsb filter]; [reflexivity|].
    rewrite <- IH.
    destruct (now - timedelta_days 1 <=? TableRow.created_at row);
      cbn [existsb]; destruct (TableRow.symptoms row); reflexivity. }
  rewrite Hnull.
  destruct (existsb (null_symptoms_in_window now) table); [reflexivity|].
  destruct (fetch_rows_reports now table) as [Hb Hc].
  simpl. rewrite Hb, Hc. reflexivity.
Qed.

(** One current row with null symptoms is enough for status 500. *)
Example sample_null_symptoms_row :
  forall str : exception -> string,
    get_outbreak_alerts str sample_now
      (Available [TableRow.mk "Hostel A" sample_now TableRow.Null "student-1"])
    = HTTPException 500
        ("Error detecting outbreaks: "%string
         ++ str (EngineException TypeError)).
Proof.
  intros str. unfold get_outbreak_alerts, detect_outbreaks_on.
  rewrite detect_outbreaks_rows_eq.
  replace (existsb (null_symptoms_in_window sample_now)
             [TableRow.mk "Hostel A" sample_now TableRow.Null "student-1"])
    with true by (vm_compute; reflexivity).
  reflexivity.
Qed.

(** X13: the outcomes of [get_outbreak_alerts].  When the store read fails,
    or when a row of the current window has a null ["symptoms"] value (on
    which [list.extend] raises [TypeError]), the handler raises status 500
    with a detail starting with "Error detecting outbreaks: ".  In every other
    case it answers with the alerts [detect_outbreaks] computes on the rows;
    null symptoms in rows outside the current window do no harm. *)
Theorem X13_alerts_endpoint_outcomes :
  forall (str : exception -> string) (now : Z) (s : store),
    match s with
    | Available table =>
        if existsb (null_symptoms_in_window now) table
        then
          get_outbreak_alerts str now s
            = HTTPException 500
                ("Error detecting outbreaks: "%string
                 ++ str (EngineException TypeError))
        else
          exists alerts,
            detect_outbreaks now (map report_of_row table) = Ok alerts /\
            get_outbreak_alerts str now s = Response alerts
    | Unavailable msg =>
        exists detail,
          get_outbreak_alerts str now s = HTTPException 500 detail /\
          String.prefix "Error detecting outbreaks: " detail = true
    end.
Proof.
  intros str now [table|msg].
  - unfold get_outbreak_alerts, detect_outbreaks_on.
    rewrite detect_outbreaks_rows_eq.
    destruct (existsb (null_symptoms_in_window now) table); [reflexivity|].
    unfold detect_outbreaks. rewrite detect_ok. eauto.
  - unfold get_outbreak_alerts, detect_outbreaks_on.
    eexists. split; [reflexivity | apply prefix_append].
Qed.

(** X14: [submit_health_report] stamps the row with the handler's clock
    reading and hands it to the store.  It answers with the id and timestamp
    of the first returned row exactly when the insert returns at least one
    row; in every other case (the insert raises, or returns no row) it raises
    status 500 with a detail that starts with "Database error: ", so the
    inner "Failed to save health report" is never the detail itself and no
    other status code is ever produced. *)
Theorem X14_submit_report_outcomes :
  forall (str : exception -> string) (insert : Report.t -> insert_result)
         (now : Z) (report : HealthReportSubmission),
    let row :=
      Report.mk (submitted_location report) now
                (Some (submitted_symptoms report))
                (submitted_user_id report) in
    match submit_health_report str insert now report with
    | Response r =>
        exists first rest,
          insert row = InsertReturns (first :: rest) /\
          report_id r = row_id first /\
          timestamp r = row_created_at first
    | HTTPException status_code detail =>
        (insert row = InsertReturns [] \/ exists msg, insert row = InsertRaises msg) /\
        status_code = 500 /\
        String.prefix "Database error: " detail = true /\
        detail <> "Failed to save health report"%string
    end.
Proof.
  intros str insert now report row. unfold submit_health_report. fold row.
  assert (Hne : forall s, ("Database error: " ++ s)%string
                          <> "Failed to save health report"%string)
    by (intros s; discriminate).
  destruct (insert row) as [msg|[|first rest]].
  - split; [right; eauto|]. split; [reflexivity|].
    split; [apply prefix_append | apply Hne].
  - split; [now left|]. split; [reflexivity|].
    split; [apply prefix_append | apply Hne].
  - exists first, rest. auto.
Qed.

(* ====================================================================== *)
(** * Further facts: the rows the demo generator adds *)

Lemma insert_fold_baseline (user_id : string) (date : Z)
  (ds : list baseline_draw) (table : list Report.t) :
  fold_left
    (fun table d =>
       insert_health_report (bd_accepted d) user_id (bd_symptoms d)
                            (bd_location d) date table)
    ds table
  = table ++ map (fun d => Report.mk (bd_location d) date
                                     (Some (bd_symptoms d)) user_id)
                 (filter bd_accepted ds).
Proof.
  revert table. induction ds as [|d ds IH]; intros table; simpl.
  - now rewrite app_nil_r.
  - rewrite IH. unfold insert_health_report.
    destruct (bd_accepted d); simpl; [now rewrite <- app_assoc | reflexivity].
Qed.

Lemma generate_baseline_data_eq (user_id : string) (now : Z)
  (draws : Z -> list baseline_draw) (table : list Report.t) :
  generate_baseline_data user_id now draws table =
  table ++ flat_map (baseline_batch user_id now draws) [14; 13; 12; 11; 10; 9; 8].
Proof.
  unfold generate_baseline_data.
  change (range_down BASELINE_START_DAYS BASELINE_END_DAYS)
    with [14; 13; 12; 11; 10; 9; 8].
  generalize [14; 13; 12; 11; 10; 9; 8]. intros ks. revert table.
  induction ks as [|k ks IH]; intros table; simpl.
  - now rewrite app_nil_r.
  - rewrite insert_fold_baseline, IH. now rewrite <- app_assoc.
Qed.

Lemma generate_outbreak_data_eq (user_id : string) (now : Z)
  (draws : nat -> outbreak_draw) (table : list Report.t) :
  generate_outbreak_data user_id now draws table =
  table ++ outbreak_rows user_id now draws.
Proof.
  unfold generate_outbreak_data, outbreak_rows.
  generalize (seq 0 OUTBREAK_REPORTS). intros rounds. revert table.
  induction rounds as [|i rounds IH]; intros table; simpl.
  - now rewrite app_nil_r.
  - rewrite IH. unfold insert_health_report.
    destruct (od_accepted (draws i)); simpl;
      [now rewrite <- app_assoc | reflexivity].
Qed.

Lemma outbreak_rows_In (user_id : string) (now : Z)
  (draws : nat -> outbreak_draw) (r : Report.t) :
  In r (outbreak_rows user_id now draws) <->
  exists i, (i < OUTBREAK_REPORTS)%nat /\ od_accepted (draws i) = true /\
            r = Report.mk OUTBREAK_LOCATION
                          (now - hours (od_hours_ago (draws i)))
                          (Some (od_symptoms (draws i))) user_id.
Proof.
  unfold outbreak_rows. rewrite in_map_iff. split.
  - intros [d [<- Hd]]. apply filter_In in Hd. destruct Hd as [Hd Hacc].
    apply in_map_iff in Hd. destruct Hd as [i [<- Hi]]. apply in_seq in Hi.
    exists i. repeat split; [lia | assumption].
  - intros [i [Hi [Hacc ->]]]. exists (draws i). split; [reflexivity|].
    apply filter_In. split; [|assumption].
    apply in_map, in_seq. lia.
Qed.

Lemma baseline_batch_In (user_id : string) (now : Z)
  (draws : Z -> list baseline_draw) (k : Z) (r : Report.t) :
  In r (baseline_batch user_id now draws k) ->
  Report.created_at r = now - k * usec_per_day /\ Report.user_id r = user_id.
Proof.
  unfold baseline_batch. rewrite in_map_iff.
  intros [d [<- _]]. split; reflexivity.
Qed.

(** X15: [generate_outbreak_data] appends one row per accepted insert, at
    most eight, all at Hostel A, all with the same subject id, and stamped
    between 23 hours before the generator's clock reading and that reading.
    A detection run within one hour after that reading reads every one of
    these rows in its current window and none in its baseline window. *)
Theorem X15_outbreak_rows_are_current_within_the_hour :
  forall (user_id : string) (g : Z) (draws : nat -> outbreak_draw)
         (table : list Report.t),
    (forall i, (i < OUTBREAK_REPORTS)%nat ->
               0 <= od_hours_ago (draws i) <= 23) ->
    let rows := outbreak_rows user_id g draws in
    let table' := generate_outbreak_data user_id g draws table in
    table' = table ++ rows /\
    (List.length rows <= 8)%nat /\
    ((forall i, (i < OUTBREAK_REPORTS)%nat -> od_accepted (draws i) = true) ->
     List.length rows = 8%nat) /\
    (forall r, In r rows ->
       Report.location r = "Hostel A"%string /\
       Report.user_id r = user_id /\
       g - hours 23 <= Report.created_at r <= g) /\
    (forall now r,
       g <= now <= g + hours 1 -> In r rows ->
       In r (fetch_current_reports now table') /\
       ~ In r (fetch_baseline_reports now table')).
Proof.
  intros u g draws table Hh rows table'.
  assert (Ht : table' = table ++ rows) by apply generate_outbreak_data_eq.
  assert (Hrows : forall r, In r rows ->
            Report.location r = "Hostel A"%string /\
            Report.user_id r = u /\
            g - hours 23 <= Report.created_at r <= g).
  { intros r Hr. apply outbreak_rows_In in Hr.
    destruct Hr as [i [Hi [_ ->]]]. simpl. specialize (Hh i Hi).
    unfold hours. repeat split; lia. }
  split; [exact Ht|]. split; [|split; [|split; [exact Hrows|]]].
  - unfold rows, outbreak_rows. rewrite length_map.
    eapply Nat.le_trans; [apply filter_length_le|].
    rewrite length_map, length_seq. reflexivity.
  - intros Hacc. unfold rows, outbreak_rows. rewrite length_map.
    rewrite forallb_filter_id; [now rewrite length_map, length_seq|].
    apply forallb_forall. intros d Hd. apply in_map_iff in Hd.
    destruct Hd as [i [<- Hi]]. apply in_seq in Hi. apply Hacc. lia.
  - intros now r Hnow Hr. destruct (Hrows r Hr) as [_ [_ Hts]].
    rewrite fetch_current_reports_In, fetch_baseline_reports_In, Ht.
    unfold hours, usec_per_day in *. split.
    + split; [apply in_or_app; now right | lia].
    + intros [_ H]. lia.
Qed.

(** An instance of X15: eight accepted rows, drawn 0 to 7 hours back. *)
Lemma X15_witness :
  (forall i, (i < OUTBREAK_REPORTS)%nat ->
     0 <= od_hours_ago
            (mk_outbreak_draw (Z.of_nat i) ["fever"; "cough"]%string true) <= 23) /\
  List.length
    (outbreak_rows "u1"%string sample_now
       (fun i => mk_outbreak_draw (Z.of_nat i) ["fever"; "cough"]%string true))
  = 8%nat.
Proof.
  assert (H : forall i, (i < OUTBREAK_REPORTS)%nat ->
            0 <= od_hours_ago
                   (mk_outbreak_draw (Z.of_nat i) ["fever"; "cough"]%string true)
              <= 23)
    by (intros i Hi; unfold OUTBREAK_REPORTS in Hi; simpl; lia).
  split; [exact H|].
  destruct (X15_outbreak_rows_are_current_within_the_hour "u1"%string
              sample_now
              (fun i => mk_outbreak_draw (Z.of_nat i) ["fever"; "cough"]%string true)
              [] H) as [_ [_ [Hlen _]]].
  apply Hlen. reflexivity.
Defined.

(** X16: [generate_baseline_data] appends, for each of the seven days 14 to
    8 days before the generator's clock reading, one row per accepted insert,
    stamped exactly that many days before the reading.  A detection run at
    any later instant does not read the rows of day 14 as baseline: they
    lie before its window [[now - 14d, now - 7d)].  A run within a day after
    the reading reads the rows of days 13 to 8 as baseline, and no run at or
    after the reading reads any of the rows in its current window. *)
Theorem X16_oldest_baseline_day_is_missed :
  forall (user_id : string) (g : Z) (draws : Z -> list baseline_draw)
         (table : list Report.t),
    let batch := baseline_batch user_id g draws in
    let table' := generate_baseline_data user_id g draws table in
    table' = table ++ batch 14 ++ batch 13 ++ batch 12 ++ batch 11
                   ++ batch 10 ++ batch 9 ++ batch 8 /\
    (forall k r, In r (batch k) ->
       Report.created_at r = g - k * usec_per_day /\
       Report.user_id r = user_id /\
       (List.length (batch k) <= List.length (draws k))%nat) /\
    (forall now r, g < now -> In r (batch 14) ->
       ~ In r (fetch_baseline_reports now table')) /\
    (forall now k r,
       g <= now <= g + usec_per_day -> 8 <= k <= 13 -> In r (batch k) ->
       In r (fetch_baseline_reports now table')) /\
    (forall now k r, g <= now -> 8 <= k <= 14 -> In r (batch k) ->
       ~ In r (fetch_current_reports now table')).
Proof.
  intros u g draws table batch table'.
  assert (Ht : table' = table ++ batch 14 ++ batch 13 ++ batch 12 ++ batch 11
                              ++ batch 10 ++ batch 9 ++ batch 8).
  { unfold table'. rewrite generate_baseline_data_eq. simpl.
    now rewrite app_nil_r. }
  split; [exact Ht|]. split; [|split; [|split]].
  - intros k r Hr. destruct (baseline_batch_In u g draws k r Hr) as [H1 H2].
    split; [exact H1|]. split; [exact H2|].
    unfold batch, baseline_batch. rewrite length_map. apply filter_length_le.
  - intros now r Hnow Hr. apply (baseline_batch_In u g draws) in Hr.
    rewrite fetch_baseline_reports_In. intros [_ H]. lia.
  - intros now k r Hnow Hk Hr.
    pose proof (baseline_batch_In u g draws k r Hr) as [Hts _].
    rewrite fetch_baseline_reports_In. split.
    + rewrite Ht.
      assert (Hcase : k = 13 \/ k = 12 \/ k = 11 \/ k = 10 \/ k = 9 \/ k = 8)
        by lia.
      rewrite !in_app_iff.
      destruct Hcase as [-> | [-> | [-> | [-> | [-> | ->]]]]]; tauto.
    + unfold usec_per_day in *. lia.
  - intros now k r Hnow Hk Hr. apply (baseline_batch_In u g draws) in Hr.
    rewrite fetch_current_reports_In. intros [_ H].
    unfold usec_per_day in *. lia.
Qed.

(* ====================================================================== *)
(** * Further facts: scores against a baseline of small daily counts *)

Local Open Scope R_scope.

Lemma ss_expand (c : R) (l : list Z) :
  statistics.ss c l =
  sum_squares l - 2 * c * IZR (sum_Z l) + INR (List.length l) * (c * c).
Proof.
  unfold statistics.ss, sum_squares.
  induction l as [|x l IH].
  - simpl. lra.
  - simpl fold_right. rewrite IH. simpl List.length. simpl sum_Z.
    rewrite S_INR, plus_IZR. unfold sum_squares. lra.
Qed.

(** The mean minimises the sum of squared deviations. *)
Lemma ss_mean_le (c : R) (l : list Z) :
  (1 <= List.length l)%nat -> statistics.ss (mean_of l) l <= statistics.ss c l.
Proof.
  intros Hlen.
  assert (Hn : 0 < INR (List.length l)) by (apply lt_0_INR; lia).
  assert (HS : IZR (sum_Z l) = INR (List.length l) * mean_of l).
  { unfold mean_of. field. lra. }
  rewrite !ss_expand, HS.
  generalize dependent (INR (List.length l)). intros n Hn _.
  generalize (mean_of l) (sum_squares l). intros m q.
  assert (Hsq : 0 <= n * ((m - c) * (m - c))).
  { apply Rmult_le_pos; [lra|]. apply Rle_0_sqr. }
  lra.
Qed.

Lemma ss_nonneg (c : R) (l : list Z) : 0 <= statistics.ss c l.
Proof.
  unfold statistics.ss. induction l as [|x l IH]; simpl; [lra|].
  apply Rplus_le_le_0_compat; [apply Rle_0_sqr | exact IH].
Qed.

Lemma ss_two_le (l : list Z) :
  Forall (fun x => (1 <= x <= 3)%Z) l ->
  statistics.ss 2 l <= INR (List.length l).
Proof.
  unfold statistics.ss.
  induction 1 as [|x l [H1 H3] Hl IH]; [simpl; lra|].
  simpl fold_right. simpl List.length. rewrite S_INR.
  apply IZR_le in H1, H3.
  assert (Hx : (IZR x - 2) * (IZR x - 2) <= 1).
  { generalize dependent (IZR x). intros t Ht1 Ht3.
    assert (0 <= (t - 1) * (3 - t)) by (apply Rmult_le_pos; lra). lra. }
  lra.
Qed.

Lemma sum_Z_le (l : list Z) :
  Forall (fun x => (1 <= x <= 3)%Z) l ->
  (sum_Z l <= 3 * Z.of_nat (List.length l))%Z.
Proof.
  induction 1 as [|x l [H1 H3] Hl IH]; [simpl; lia|].
  simpl sum_Z. simpl List.length. lia.
Qed.

(** Against at least two daily counts between 1 and 3, eight current
    reports score above 3.5. *)
Lemma z_score_of_small_baseline (l : list Z) :
  (2 <= List.length l)%nat ->
  Forall (fun x => (1 <= x <= 3)%Z) l ->
  3.5 < z_score_of l 8.
Proof.
  intros Hlen Hall.
  assert (Hn : 2 <= INR (List.length l)) by (apply (le_INR 2); lia).
  assert (Hm : mean_of l <= 3).
  { unfold mean_of. pose proof (sum_Z_le l Hall) as Hs. apply IZR_le in Hs.
    rewrite mult_IZR, <- INR_IZR_INZ in Hs.
    apply Rmult_le_reg_r with (INR (List.length l)); [lra|].
    unfold Rdiv. rewrite Rmult_assoc, Rinv_l by lra. lra. }
  assert (Hss : statistics.ss (mean_of l) l <= INR (List.length l)).
  { eapply Rle_trans; [apply (ss_mean_le 2); lia | now apply ss_two_le]. }
  pose proof (ss_nonneg (mean_of l) l) as Hss0.
  set (v := statistics.ss (mean_of l) l / (INR (List.length l) - 1)).
  assert (Hv : 0 <= v <= 2).
  { unfold v. split.
    - apply Rmult_le_pos; [assumption|].
      apply Rlt_le, Rinv_0_lt_compat. lra.
    - apply Rmult_le_reg_r with (INR (List.length l) - 1); [lra|].
      unfold Rdiv. rewrite Rmult_assoc, Rinv_l by lra. lra. }
  assert (Hsd : stdev_of l * stdev_of l = v)
    by (unfold stdev_of; fold v; apply sqrt_sqrt; tauto).
  pose proof (stdev_of_nonneg l) as Hsd0.
  unfold z_score_of.
  remember (stdev_of l) as sd eqn:Esd. clear Esd. clearbody v.
  destruct (clamp_std_dev_cases sd) as [[_ ->]|[Hne ->]].
  - lra.
  - assert (Hlt : sd < 10 / 7).
    { destruct (Rlt_dec sd (10 / 7)) as [H|H]; [exact H|].
      exfalso. assert (10 / 7 <= sd) by lra. nra. }
    apply Rmult_lt_reg_r with sd; [lra|].
    unfold Rdiv. rewrite Rmult_assoc, Rinv_l by lra. lra.
Qed.

(* ====================================================================== *)
(** * Further verified properties: the demo data against the engine *)

Local Open Scope Z_scope.

Lemma filter_nil_all_false {A : Type} (p : A -> bool) (l : list A) :
  (forall x, In x l -> p x = false) -> filter p l = [].
Proof.
  induction l as [|x l IH]; simpl; intros H; [reflexivity|].
  rewrite (H x) by now left. apply IH. intros y Hy. apply H. now right.
Qed.

Lemma filter_filter_length {A : Type} (p q : A -> bool) (l : list A) :
  (List.length (filter q (filter p l)) <= List.length (filter q l))%nat.
Proof.
  induction l as [|x l IH]; simpl; [lia|].
  destruct (p x); simpl; destruct (q x); simpl; lia.
Qed.

Lemma len_set_constant (u : string) (l : list string) :
  l <> [] -> (forall x, In x l -> x = u) -> len_set l = 1%nat.
Proof.
  intros Hne Hall. unfold len_set.
  pose proof (NoDup_nodup string_dec l) as Hnd.
  assert (Hin : forall x, In x (nodup string_dec l) <-> x = u).
  { intros x. rewrite nodup_In. split; [apply Hall|].
    intros ->. destruct l as [|y l]; [congruence|].
    rewrite <- (Hall y (or_introl eq_refl)). now left. }
  destruct (nodup string_dec l) as [|a [|b rest]].
  - exfalso. destruct (Hin u) as [_ H]. now apply H.
  - reflexivity.
  - exfalso.
    assert (Ea : a = u) by (apply Hin; now left).
    assert (Eb : b = u) by (apply Hin; right; now left).
    apply NoDup_cons_iff in Hnd. destruct Hnd as [Hnot _].
    apply Hnot. rewrite Ea, Eb. now left.
Qed.

Lemma make_alert_risk (now : Z) (loc : string) (data : Current.t) (s : score) :
  risk_score (make_alert now loc data s)
  = py_round (Rmin (score_z s * 20) 100) 1.
Proof.
  unfold make_alert. simpl. unfold risk_percentage_of. now rewrite py_min_Rmin.
Qed.

Section DemoRun.
Variables (baseline_user outbreak_user : string).
Variables (g1 g2 now : Z).
Variable baseline_draws : Z -> list baseline_draw.
Variable outbreak_draws : nat -> outbreak_draw.
Variable table0 : list Report.t.

(** The generator ran on a table without Hostel A rows, first the baseline
    step, then the outbreak step; the detection runs within one hour after
    the outbreak step.  [random.randint(2, 3)] draws at most three baseline
    reports a day, [random.randint(0, 23)] the hours; the store accepts the
    eight outbreak rows. *)
Hypothesis table0_elsewhere :
  forall r, In r table0 -> Report.location r <> "Hostel A"%string.
Hypothesis clock : g1 <= g2 /\ g2 <= now <= g2 + hours 1.
Hypothesis at_most_three_a_day :
  forall k, (List.length (baseline_draws k) <= 3)%nat.
Hypothesis hours_drawn :
  forall i, (i < OUTBREAK_REPORTS)%nat ->
            0 <= od_hours_ago (outbreak_draws i) <= 23.
Hypothesis outbreak_accepted :
  forall i, (i < OUTBREAK_REPORTS)%nat ->
            od_accepted (outbreak_draws i) = true.

Let B : list Report.t :=
  flat_map (baseline_batch baseline_user g1 baseline_draws)
           [14; 13; 12; 11; 10; 9; 8].
Let O : list Report.t := outbreak_rows outbreak_user g2 outbreak_draws.
Let T : list Report.t :=
  generate_demo_data baseline_user g1 baseline_draws
                     outbreak_user g2 outbreak_draws table0.

Lemma demo_table_eq : T = table0 ++ B ++ O.
Proof.
  unfold T, generate_demo_data.
  rewrite generate_outbreak_data_eq, generate_baseline_data_eq.
  now rewrite <- app_assoc.
Qed.

Lemma demo_B_rows (r : Report.t) :
  In r B ->
  exists k, 8 <= k <= 14 /\ In r (baseline_batch baseline_user g1 baseline_draws k).
Proof.
  unfold B. rewrite in_flat_map. intros [k [Hk Hr]]. exists k.
  split; [|assumption]. simpl in Hk. lia.
Qed.

Lemma demo_O_rows (r : Report.t) :
  In r O ->
  Report.location r = "Hostel A"%string /\
  Report.user_id r = outbreak_user /\
  g2 - hours 23 <= Report.created_at r <= g2.
Proof.
  intros Hr. apply outbreak_rows_In in Hr.
  destruct Hr as [i [Hi [_ ->]]]. simpl. specialize (hours_drawn i Hi).
  unfold hours. repeat split; lia.
Qed.

Lemma demo_O_length : List.length O = 8%nat.
Proof.
  unfold O, outbreak_rows. rewrite length_map.
  rewrite forallb_filter_id; [now rewrite length_map, length_seq|].
  apply forallb_forall. intros d Hd. apply in_map_iff in Hd.
  destruct Hd as [i [<- Hi]]. apply in_seq in Hi.
  apply outbreak_accepted. lia.
Qed.

(** The current reports of Hostel A are exactly the outbreak rows. *)
Lemma demo_current_reports :
  reports_at "Hostel A" (fetch_current_reports now T) = O.
Proof.
  unfold reports_at, fetch_current_reports, gte_created_at.
  rewrite filter_andb, demo_table_eq, !filter_app.
  rewrite (filter_nil_all_false _ table0).
  2:{ intros r Hr. apply table0_elsewhere in Hr.
      destruct (String.eqb_spec (Report.location r) "Hostel A"); [congruence|].
      apply andb_false_r. }
  rewrite (filter_nil_all_false _ B).
  2:{ intros r Hr. apply demo_B_rows in Hr. destruct Hr as [k [Hk Hr]].
      apply baseline_batch_In in Hr. destruct Hr as [Hts _].
      apply andb_false_iff. left. apply Z.leb_gt.
      unfold timedelta_days, usec_per_day in *. lia. }
  simpl. apply forallb_filter_id, forallb_forall.
  intros r Hr. apply demo_O_rows in Hr. destruct Hr as [Hloc [_ Hts]].
  apply andb_true_iff. split.
  - apply Z.leb_le. unfold timedelta_days, usec_per_day, hours in *. lia.
  - now apply String.eqb_eq.
Qed.

(** The baseline reports of Hostel A are among the generated baseline rows. *)
Lemma demo_baseline_reports :
  exists p, reports_at "Hostel A" (fetch_baseline_reports now T) = filter p B.
Proof.
  unfold reports_at, fetch_baseline_reports, lt_created_at, gte_created_at.
  rewrite !filter_andb, demo_table_eq, !filter_app.
  rewrite (filter_nil_all_false _ table0).
  2:{ intros r Hr. apply table0_elsewhere in Hr.
      destruct (String.eqb_spec (Report.location r) "Hostel A"); [congruence|].
      now rewrite !andb_false_r. }
  rewrite (filter_nil_all_false _ O).
  2:{ intros r Hr. apply demo_O_rows in Hr. destruct Hr as [_ [_ Hts]].
      destruct clock as [Hc1 Hc2].
      assert (Hlt : (Report.created_at r <? now - timedelta_days 7) = false).
      { apply Z.ltb_ge.
        unfold timedelta_days, usec_per_day, hours in *. lia. }
      rewrite Hlt. simpl. now rewrite !andb_false_r. }
  simpl. rewrite app_nil_r. eauto.
Qed.

Lemma demo_batch_day (d k : Z) :
  (List.length
     (filter (fun r => Z.eqb d (report_date r))
             (baseline_batch baseline_user g1 baseline_draws k))
   <= if Z.eqb d (date_of g1 - k) then 3 else 0)%nat.
Proof.
  assert (Hdate : forall r,
            In r (baseline_batch baseline_user g1 baseline_draws k) ->
            report_date r = date_of g1 - k).
  { intros r Hr. apply baseline_batch_In in Hr. destruct Hr as [Hts _].
    unfold report_date, date_of. rewrite Hts.
    replace (g1 - k * usec_per_day) with (g1 + (- k) * usec_per_day) by lia.
    rewrite Z.div_add by (unfold usec_per_day; lia). lia. }
  destruct (Z.eqb_spec d (date_of g1 - k)) as [E|Hne].
  - eapply Nat.le_trans; [apply filter_length_le|].
    unfold baseline_batch. rewrite length_map.
    eapply Nat.le_trans; [apply filter_length_le|].
    apply at_most_three_a_day.
  - rewrite filter_nil_all_false; [simpl; lia|].
    intros r Hr. apply Hdate in Hr. apply Z.eqb_neq. congruence.
Qed.

Lemma demo_day_count (d : Z) :
  (List.length (filter (fun r => Z.eqb d (report_date r)) B) <= 3)%nat.
Proof.
  unfold B. simpl flat_map. rewrite !filter_app, !length_app. simpl.
  pose proof (demo_batch_day d 14). pose proof (demo_batch_day d 13).
  pose proof (demo_batch_day d 12). pose proof (demo_batch_day d 11).
  pose proof (demo_batch_day d 10). pose proof (demo_batch_day d 9).
  pose proof (demo_batch_day d 8).
  destruct (Z.eqb_spec d (date_of g1 - 14)), (Z.eqb_spec d (date_of g1 - 13)),
           (Z.eqb_spec d (date_of g1 - 12)), (Z.eqb_spec d (date_of g1 - 11)),
           (Z.eqb_spec d (date_of g1 - 10)), (Z.eqb_spec d (date_of g1 - 9)),
           (Z.eqb_spec d (date_of g1 - 8)); lia.
Qed.

(** Hostel A is scored against a flat baseline of zeros or against at least
    two daily counts between 1 and 3. *)
Lemma demo_daily_counts :
  let counts :=
    daily_counts_of (group_baseline (fetch_baseline_reports now T))
                    "Hostel A" in
  Forall (eq 0) counts \/
  ((2 <= List.length counts)%nat /\ Forall (fun x => 1 <= x <= 3) counts).
Proof.
  cbv zeta. destruct demo_baseline_reports as [p Hp].
  unfold daily_counts_of.
  destruct (Nat.ltb_spec
              (List.length
                 (baseline_daily_counts
                    (group_baseline (fetch_baseline_reports now T)) "Hostel A"))
              2) as [Hlt|Hge]; [left; repeat constructor|].
  rewrite baseline_daily_counts_eq in *. rewrite Hp in *.
  destruct (filter p B) as [|r rs] eqn:E; [left; repeat constructor|].
  rewrite <- E in *. right. split; [exact Hge|].
  apply Forall_forall. intros n Hn. apply in_map_iff in Hn.
  destruct Hn as [d [<- Hd]]. split.
  - apply (occurrences_in _ Z.eqb_spec). now apply (distinct_In _ Z.eqb_spec).
  - unfold occurrences. rewrite filter_map_length.
    pose proof (filter_filter_length p (fun r => Z.eqb d (report_date r)) B).
    pose proof (demo_day_count d). lia.
Qed.

Lemma demo_z_score :
  (3.5 < z_score_of
           (daily_counts_of (group_baseline (fetch_baseline_reports now T))
                            "Hostel A") 8)%R.
Proof.
  destruct demo_daily_counts as [Hflat|[Hlen Hall]].
  - pose proof (score_of_constant 0 _ 8 (daily_counts_of_length _ _) Hflat) as H.
    apply (f_equal score_z) in H. simpl in H. rewrite H. simpl. lra.
  - now apply z_score_of_small_baseline.
Qed.

(** X17: the demo script delivers what it announces.  After
    [generate_baseline_data] and [generate_outbreak_data] ran on a table
    without Hostel A rows, a detection run within one hour after the outbreak
    step returns an alert for Hostel A of severity High, whatever the random
    draws were: its current count is 8, its risk score is at least 70, and,
    all rows carrying the same subject id, it reports one affected subject.
    On an initially empty table it is the only alert. *)
Theorem X17_demo_data_raises_a_high_alert :
  exists alerts a,
    detect_outbreaks now T = Ok alerts /\
    In a alerts /\
    location a = "Hostel A"%string /\
    severity a = High /\
    (70 <= risk_score a <= 100)%R /\
    affected_students a = 1%nat /\
    current_count (_debug a) = 8 /\
    (table0 = [] -> alerts = [a]).
Proof.
  set (data := aggregate_of O).
  set (s := score_of (daily_counts_of
                        (group_baseline (fetch_baseline_reports now T))
                        "Hostel A") (Current.count data)).
  assert (Hcount : Current.count data = 8)
    by (unfold data, aggregate_of; simpl; now rewrite demo_O_length).
  assert (Hz : (3.5 < score_z s)%R).
  { unfold s. rewrite Hcount. apply demo_z_score. }
  assert (HO : O <> []).
  { intros E. pose proof demo_O_length as H. rewrite E in H. discriminate. }
  exists (alerts_of now (group_baseline (fetch_baseline_reports now T))
                    (group_current (fetch_current_reports now T))).
  exists (make_alert now "Hostel A" data s).
  split; [unfold detect_outbreaks; apply detect_ok|].
  assert (Hin : In (make_alert now "Hostel A" data s)
                   (alerts_of now (group_baseline (fetch_baseline_reports now T))
                      (group_current (fetch_current_reports now T)))).
  { apply alerts_of_In. exists "Hostel A"%string, data. split.
    - apply group_current_items, group_current_get_some.
      rewrite demo_current_reports. split; [exact HO | reflexivity].
    - apply alert_of_some. fold s. split; [|reflexivity].
      unfold OUTBREAK_THRESHOLD. lra. }
  split; [exact Hin|]. split; [reflexivity|].
  split; [simpl; apply severity_of_spec; exact Hz|].
  split; [|split; [|split; [exact Hcount|]]].
  - rewrite make_alert_risk. revert Hz. generalize (score_z s). intros z Hz.
    split.
    + eapply Rle_trans;
        [|apply (py_round_1_mono (IZR 70)); apply Rmin_glb; lra].
      rewrite py_round_1_IZR. lra.
    + eapply Rle_trans; [apply py_round_1_mono, Rmin_r|].
      rewrite (py_round_1_IZR 100). lra.
  - simpl. unfold data, aggregate_of. simpl.
    apply (len_set_constant outbreak_user).
    + intros E. apply map_eq_nil in E. contradiction.
    + intros x Hx. apply in_map_iff in Hx. destruct Hx as [r [<- Hr]].
      now apply demo_O_rows in Hr.
  - intros Hempty.
    assert (Hlen : (List.length
                      (alerts_of now
                         (group_baseline (fetch_baseline_reports now T))
                         (group_current (fetch_current_reports now T)))
                    <= 1)%nat).
    { rewrite <- (length_map location), detect_locations.
      eapply Nat.le_trans; [apply filter_length_le|].
      assert (Hall : forall x,
                In x (first_seen
                        (map Report.location (fetch_current_reports now T)))
                -> x = "Hostel A"%string).
      { intros x Hx. rewrite first_seen_In in Hx. apply in_map_iff in Hx.
        destruct Hx as [r [<- Hr]]. apply fetch_current_reports_In in Hr.
        destruct Hr as [Hr Hts]. rewrite demo_table_eq, Hempty in Hr.
        simpl in Hr. apply in_app_or in Hr. destruct Hr as [Hr|Hr].
        - exfalso. apply demo_B_rows in Hr. destruct Hr as [k [Hk Hr]].
          apply baseline_batch_In in Hr. destruct Hr as [Hts' _].
          destruct clock as [Hc1 Hc2].
          unfold usec_per_day in *. lia.
        - now apply demo_O_rows in Hr. }
      pose proof (first_seen_NoDup
                    (map Report.location (fetch_current_reports now T))) as Hnd.
      destruct (first_seen (map Report.location (fetch_current_reports now T)))
        as [|a [|b rest]]; simpl; try lia.
      exfalso.
      assert (Ea : a = "Hostel A"%string) by (apply Hall; now left).
      assert (Eb : b = "Hostel A"%string) by (apply Hall; right; now left).
      apply NoDup_cons_iff in Hnd. destruct Hnd as [Hnot _].
      apply Hnot. rewrite Ea, Eb. now left. }
    destruct (alerts_of now (group_baseline (fetch_baseline_reports now T))
                (group_current (fetch_current_reports now T)))
      as [|a [|b rest]]; simpl in *; try lia; try contradiction.
    destruct Hin as [->|[]]. reflexivity.
Qed.
End DemoRun.

(** An instance of X17: an empty table, two baseline draws a day, the eight
    outbreak rows drawn 0 to 7 hours back, and a detection run at the
    generator's own clock reading. *)
Lemma X17_witness :
  exists alerts a,
    detect_outbreaks sample_now
      (generate_demo_data "u1"%string sample_now
         (fun _ => [ mk_baseline_draw "Hostel A"%string [] true;
                     mk_baseline_draw "Hostel B"%string ["fatigue"%string] true ])
         "u1"%string sample_now
         (fun i => mk_outbreak_draw (Z.of_nat i) ["fever"; "cough"]%string true)
         []) = Ok alerts /\
    alerts = [a] /\
    location a = "Hostel A"%string /\
    severity a = High.
Proof.
  destruct (X17_demo_data_raises_a_high_alert
              "u1"%string "u1"%string sample_now sample_now sample_now
              (fun _ => [ mk_baseline_draw "Hostel A"%string [] true;
                          mk_baseline_draw "Hostel B"%string ["fatigue"%string] true ])
              (fun i => mk_outbreak_draw (Z.of_nat i) ["fever"; "cough"]%string true)
              [])
    as [alerts [a [H1 [_ [H3 [H4 [_ [_ [_ H8]]]]]]]]].
  - intros r Hr. destruct Hr.
  - unfold hours. lia.
  - intros k. simpl. lia.
  - intros i Hi. unfold OUTBREAK_REPORTS in Hi. simpl. lia.
  - intros i Hi. reflexivity.
  - exists alerts, a. repeat split; try assumption. now apply H8.
Defined.

(* ====================================================================== *)
(** * Further verified properties: locations are scored independently *)

Lemma alert_of_local (now : Z) (b b' : list Report.t) (loc : string)
  (data : Current.t) :
  reports_at loc b = reports_at loc b' ->
  alert_of now (group_baseline b) loc data =
  alert_of now (group_baseline b') loc data.
Proof.
  intros H. unfold alert_of, daily_counts_of.
  now rewrite !baseline_daily_counts_eq, H.
Qed.

Lemma detect_local (now : Z) (b b' c c' : list Report.t) (a : alert) :
  reports_at (location a) b = reports_at (location a) b' ->
  reports_at (location a) c = reports_at (location a) c' ->
  In a (alerts_of now (group_baseline b) (group_current c)) ->
  In a (alerts_of now (group_baseline b') (group_current c')).
Proof.
  intros Hb Hc Ha. apply detect_alert_iff in Ha. apply detect_alert_iff.
  destruct Ha as [data [Hget Ha]]. exists data. split.
  - rewrite group_current_get in *. now rewrite <- Hc.
  - now rewrite <- (alert_of_local now b b' _ data Hb).
Qed.

(** X18: a location is scored on its own reports only.  If two runs see the
    same baseline reports and the same current reports for a location, they
    return the same alert for it, or none in both cases, whatever the reports
    of the other locations are. *)
Theorem X18_alert_depends_only_on_its_location :
  forall (now : Z) (baseline_reports baseline_reports' : list Report.t)
         (current_reports current_reports' : list Report.t) (loc : string),
    filter (fun r => String.eqb (Report.location r) loc) baseline_reports
      = filter (fun r => String.eqb (Report.location r) loc) baseline_reports' ->
    filter (fun r => String.eqb (Report.location r) loc) current_reports
      = filter (fun r => String.eqb (Report.location r) loc) current_reports' ->
    exists alerts alerts',
      detect now baseline_reports current_reports = Ok alerts /\
      detect now baseline_reports' current_reports' = Ok alerts' /\
      forall a, location a = loc -> (In a alerts <-> In a alerts').
Proof.
  intros now b b' c c' loc Hb Hc. do 2 eexists.
  split; [apply detect_ok|]. split; [apply detect_ok|].
  intros a Hloc. subst loc.
  fold (reports_at (location a) b) in Hb.
  fold (reports_at (location a) b') in Hb.
  fold (reports_at (location a) c) in Hc.
  fold (reports_at (location a) c') in Hc.
  split; apply detect_local; congruence.
Qed.

(** An instance of X18: the sample run, and the same run after the rows of
    Hostel B and Hostel C have been removed from the current reports. *)
Lemma X18_witness :
  let b := fetch_baseline_reports sample_now sample_table in
  let c := fetch_current_reports sample_now sample_table in
  let c' := filter (fun r => String.eqb (Report.location r) "Hostel A"%string) c in
  filter (fun r => String.eqb (Report.location r) "Hostel A"%string) c
    = filter (fun r => String.eqb (Report.location r) "Hostel A"%string) c' /\
  exists alerts alerts',
    detect sample_now b c = Ok alerts /\
    detect sample_now b c' = Ok alerts' /\
    forall a, location a = "Hostel A"%string -> (In a alerts <-> In a alerts').
Proof.
  cbv zeta.
  assert (Hc : filter (fun r => String.eqb (Report.location r) "Hostel A"%string)
                 (fetch_current_reports sample_now sample_table)
               = filter (fun r => String.eqb (Report.location r) "Hostel A"%string)
                   (filter (fun r => String.eqb (Report.location r) "Hostel A"%string)
                      (fetch_current_reports sample_now sample_table)))
    by (vm_compute; reflexivity).
  split; [exact Hc|].
  exact (X18_alert_depends_only_on_its_location sample_now
           (fetch_baseline_reports sample_now sample_table)
           (fetch_baseline_reports sample_now sample_table)
           (fetch_current_reports sample_now sample_table)
           (filter (fun r => String.eqb (Report.location r) "Hostel A"%string)
              (fetch_current_reports sample_now sample_table))
           "Hostel A"%string eq_refl Hc).
Defined.
